(** * sdkswitcher: a shallow embedding of [sdk.py]

    The module [sdk.py] manages cached App Engine SDK versions: it resolves a
    version token, lists the installed versions of the cache directory, and
    points one symlink at the active version.

    Python 2 byte strings are lists of [ascii]; Python's [None] is [None] of
    an [option].  The class [Env] mutates the file system, its configuration
    object and standard output, and it raises exceptions: its methods are
    functions in a state-and-exception monad over a [world], where a raised
    exception keeps the effects that happened before it (as in Python).

    The operating system is not part of the repository.  Its model is stated
    here once:
    - the file system is an association list from the absolute, normalised
      paths of its entries to nodes (directory, regular file, symlink); a
      directory lists its children in the order the association list holds
      them;
    - a path is resolved as POSIX does: component by component from the
      root, through the symlinks on the way, with [ENOENT] for a missing
      component, [ENOTDIR] for a component that is no directory and [ELOOP]
      after forty symlinks; two spellings of a path name the same entry.  The
      program hands absolute paths to the operating system, and a relative
      one is read from the root;
    - permissions are the mode bits of regular files only; no operation fails
      for lack of permission;
    - the network is a function from a URL to the outcome of [urlopen];
    - what the interpreter decides and the program does not (the order in
      which a dictionary is iterated) is a field of the environment. *)

From Stdlib Require Import List Ascii String NArith Bool Arith Lia.
From Stdlib Require Import Sorting.Sorted Sorting.Permutation.
From Stdlib Require Import DecimalString.
Import ListNotations.

Set Implicit Arguments.

(** ** Byte strings *)

Definition str := list ascii.

(** A string literal as a Python byte string. *)
Definition py (s : string) : str := list_ascii_of_string s.

(** The double quote character, which a literal cannot hold. *)
Definition dquote : ascii := "034"%char.

Definition LF : ascii := "010"%char.

Fixpoint str_eqb (a b : str) : bool :=
  match a, b with
  | [], [] => true
  | x :: a', y :: b' => Ascii.eqb x y && str_eqb a' b'
  | _, _ => false
  end.

Definition code (c : ascii) : N := N_of_ascii c.

Definition between (lo hi : N) (c : ascii) : bool :=
  (lo <=? code c)%N && (code c <=? hi)%N.

(** [\d] *)
Definition is_digit (c : ascii) : bool := between 48 57 c.
(** [[a-z]] *)
Definition is_lower (c : ascii) : bool := between 97 122 c.
(** [[A-Z]] *)
Definition is_upper (c : ascii) : bool := between 65 90 c.
(** [\w] of a byte pattern without flags: [[a-zA-Z0-9_]] *)
Definition is_word (c : ascii) : bool :=
  is_digit c || is_lower c || is_upper c || Ascii.eqb c "_".
Definition is_dot (c : ascii) : bool := Ascii.eqb c ".".
Definition is_slash (c : ascii) : bool := Ascii.eqb c "/".

Fixpoint take_while (p : ascii -> bool) (s : str) : str :=
  match s with
  | c :: s' => if p c then c :: take_while p s' else []
  | [] => []
  end.

Fixpoint drop_while (p : ascii -> bool) (s : str) : str :=
  match s with
  | c :: s' => if p c then drop_while p s' else s
  | [] => []
  end.

(** [s.lstrip(chars)], [s.rstrip(chars)] and [s.strip(chars)], the set of
    characters given as a predicate. *)
Definition lstrip (p : ascii -> bool) (s : str) : str := drop_while p s.
Definition rstrip (p : ascii -> bool) (s : str) : str :=
  rev (drop_while p (rev s)).
Definition strip (p : ascii -> bool) (s : str) : str := rstrip p (lstrip p s).

(** [s.startswith(pre)]: the rest of [s] after [pre], when [s] starts with it. *)
Fixpoint strip_prefix (pre s : str) : option str :=
  match pre, s with
  | [], _ => Some s
  | x :: pre', y :: s' => if Ascii.eqb x y then strip_prefix pre' s' else None
  | _ :: _, [] => None
  end.

Definition startswith (pre s : str) : bool :=
  match strip_prefix pre s with Some _ => true | None => false end.

Definition endswith (suf s : str) : bool := startswith (rev suf) (rev s).

(** The text before and after the last occurrence of the character [c]. *)
Fixpoint rsplit1 (c : ascii) (s : str) : option (str * str) :=
  match s with
  | [] => None
  | x :: s' =>
      match rsplit1 c s' with
      | Some (h, t) => Some (x :: h, t)
      | None => if Ascii.eqb x c then Some ([], s') else None
      end
  end.

(** [s.rpartition(c)] for a separator of one character. *)
Definition rpartition (c : ascii) (s : str) : str * str * str :=
  match rsplit1 c s with
  | Some (h, t) => (h, [c], t)
  | None => ([], [], s)
  end.

(** [s.split(c)] for a separator of one character. *)
Fixpoint py_split (c : ascii) (s : str) : list str :=
  match s with
  | [] => [[]]
  | x :: s' =>
      if Ascii.eqb x c then [] :: py_split c s'
      else match py_split c s' with
           | w :: ws => (x :: w) :: ws
           | [] => [[x]]
           end
  end.

(** [sep.join(parts)] *)
Fixpoint py_join (sep : str) (parts : list str) : str :=
  match parts with
  | [] => []
  | [w] => w
  | w :: ws => w ++ sep ++ py_join sep ws
  end.

(** [s.replace(c, '')] *)
Definition remove_char (c : ascii) (s : str) : str :=
  filter (fun x => negb (Ascii.eqb x c)) s.

(** [re.sub(r'<class>+', '.', s)]: every maximal run of characters of the
    class [p] becomes one dot.  [inrun] says that the previous character was
    of the class (the dot of its run is already out). *)
Fixpoint sub_runs (p : ascii -> bool) (inrun : bool) (s : str) : str :=
  match s with
  | [] => []
  | c :: s' =>
      if p c then (if inrun then sub_runs p true s'
                   else "."%char :: sub_runs p true s')
      else c :: sub_runs p false s'
  end.

(** [re.search(re.escape(pat), s)]: the escaped pattern matches the text
    [pat] itself, so the search is for [pat] as a substring of [s]. *)
Fixpoint re_search_escaped (pat s : str) : bool :=
  startswith pat s ||
  match s with
  | [] => false
  | _ :: s' => re_search_escaped pat s'
  end.

(** [int(s)] of a run of decimal digits, on top of the value [acc] of the
    digits read before. *)
Definition digit_val (c : ascii) : N := (code c - 48)%N.

Fixpoint int_of_digits (acc : N) (s : str) : N :=
  match s with
  | [] => acc
  | c :: s' => int_of_digits (10 * acc + digit_val c)%N s'
  end.

(** The lines of a response body as iterating over it yields them: each line
    keeps its newline. *)
Fixpoint readlines_from (cur : str) (s : str) : list str :=
  match s with
  | [] => match cur with [] => [] | _ => [rev cur] end
  | c :: s' =>
      if Ascii.eqb c LF then rev (c :: cur) :: readlines_from [] s'
      else readlines_from (c :: cur) s'
  end.

Definition readlines (s : str) : list str := readlines_from [] s.

(** ** Exceptions and results *)

Inductive errno : Type :=
| EPERM | ENOENT | EEXIST | ENOTDIR | EISDIR | EINVAL | ELOOP
| E_unset (* an [OSError] built without an [errno] *).

Inductive exn : Type :=
| BadVersionString
| ValueError
| AssertionError
| AttributeError
| TypeError
| OSError (e : errno)
| IOError (e : errno)
| HTTPError (status : N)
| URLError
| BadZipfile
| IndexError.

Inductive result (A : Type) : Type :=
| Ok (a : A)
| Raise (e : exn).

Arguments Ok {A} a.
Arguments Raise {A} e.

(** A value that is a string or [None]. *)
Definition pyval := option str.

(** ['%s' % v] *)
Definition format_s (v : pyval) : str :=
  match v with
  | Some s => s
  | None => py "None"
  end.

(** ** The module's constants and patterns *)

Definition SDK_DOWNLOAD_URL_prefix : str :=
  py "https://storage.googleapis.com/appengine-sdks/featured/google_appengine_".
Definition SDK_OLD_DOWNLOAD_URL_prefix : str :=
  py "https://storage.googleapis.com/appengine-sdks/deprecated/".
Definition CONFIG_FILENAME : str := py "sdkswitcher.ini".
Definition SDK_VERSION_LATEST : str := py "latest".
Definition SDK_VERSION_CHECK_URL : str :=
  py "https://appengine.google.com/api/updatecheck".
Definition google_appengine : str := py "google_appengine".

(** [SDK_DOWNLOAD_URL % (version,)] *)
Definition SDK_DOWNLOAD_URL (version : pyval) : str :=
  SDK_DOWNLOAD_URL_prefix ++ format_s version ++ py ".zip".

(** [SDK_OLD_DOWNLOAD_URL % (version_no_dots, version)] *)
Definition SDK_OLD_DOWNLOAD_URL (version_no_dots version : str) : str :=
  SDK_OLD_DOWNLOAD_URL_prefix ++ version_no_dots
    ++ py "/google_appengine_" ++ version ++ py ".zip".

(** A non-empty run of digits at the head of [s], and what follows it. *)
Definition digits1 (s : str) : option str :=
  match take_while is_digit s with
  | [] => None
  | _ :: _ => Some (drop_while is_digit s)
  end.

(** [SDK_VERSION_PATTERN.match(s)] for [r'^\d+\.\d+\.\d+$']: three runs of
    digits with a dot between them.  Without [re.MULTILINE] the [$] matches at
    the end of the string and also before a newline that ends the string. *)
Definition SDK_VERSION_PATTERN_match (s : str) : bool :=
  match digits1 s with
  | Some ("."%char :: r1) =>
      match digits1 r1 with
      | Some ("."%char :: r2) =>
          match digits1 r2 with
          | Some r3 => str_eqb r3 [] || str_eqb r3 [LF]
          | None => false
          end
      | _ => false
      end
  | _ => false
  end.

(** The pattern [r'\brelease: "([^"]+)"'] tried at the head of [s]: the
    group, when the text [release: "] is followed by at least one character
    other than a quote and then a quote. *)
Definition match_release_here (s : str) : option str :=
  match strip_prefix (py "release: " ++ [dquote]) s with
  | Some rest =>
      let not_quote := fun c => negb (Ascii.eqb c dquote) in
      let group := take_while not_quote rest in
      match group, drop_while not_quote rest with
      | _ :: _, _ :: _ => Some group
      | _, _ => None
      end
  | None => None
  end.

(** [pattern.search(line)], returning [match.group(1)]: the leftmost position
    where the pattern matches.  [prev] is the character before the position:
    [\b] before the word character [r] asks that it is no word character. *)
Fixpoint search_release (prev : option ascii) (s : str) : option str :=
  let boundary := match prev with
                  | None => true
                  | Some c => negb (is_word c)
                  end in
  match (if boundary then match_release_here s else None) with
  | Some g => Some g
  | None =>
      match s with
      | [] => None
      | c :: s' => search_release (Some c) s'
      end
  end.

(** ** [safe_filename] *)

(** The characters the class [[^-_.a-zA-Z0-9]] leaves out. *)
Definition filename_char (c : ascii) : bool :=
  Ascii.eqb c "-" || Ascii.eqb c "_" || Ascii.eqb c "."
  || is_lower c || is_upper c || is_digit c.

Definition safe_filename (url : str) : result str :=
  let url := strip is_slash url in
  let '(_, _, filename) := rpartition "/" url in
  let filename := sub_runs (fun c => negb (filename_char c)) false filename in
  let filename := sub_runs is_dot false filename in
  let filename := strip is_dot filename in
  (* If we've stripped everything out, fail. *)
  match filename with
  | [] => Raise ValueError
  | _ :: _ => Ok filename
  end.

(** ** [distutils.version.LooseVersion] and the sort by it *)

Inductive component : Type :=
| CInt (n : N)
| CStr (s : str).

(** The run the scan is in: its characters, the last one first. *)
Inductive run : Type :=
| RNone
| RDigits (acc : str)
| RLower (acc : str)
| ROther (acc : str).

(** The component of a finished run; [int(obj)] succeeds on the runs of
    digits only. *)
Definition flush (r : run) : list component :=
  match r with
  | RNone => []
  | RDigits acc => [CInt (int_of_digits 0 (rev acc))]
  | RLower acc => [CStr (rev acc)]
  | ROther acc => [CStr (rev acc)]
  end.

(** [LooseVersion.parse]: [component_re.split(vstring)] for
    [r'(\d+ | [a-z]+ | \.)'] cuts the string into maximal runs of digits, of
    lower-case letters, single dots, and the text between them; the empty
    pieces and the dots are dropped, and the runs of digits become numbers. *)
Fixpoint loose_scan (r : run) (s : str) : list component :=
  match s with
  | [] => flush r
  | c :: s' =>
      if is_digit c then
        match r with
        | RDigits acc => loose_scan (RDigits (c :: acc)) s'
        | _ => flush r ++ loose_scan (RDigits [c]) s'
        end
      else if is_lower c then
        match r with
        | RLower acc => loose_scan (RLower (c :: acc)) s'
        | _ => flush r ++ loose_scan (RLower [c]) s'
        end
      else if is_dot c then flush r ++ loose_scan RNone s'
      else
        match r with
        | ROther acc => loose_scan (ROther (c :: acc)) s'
        | _ => flush r ++ loose_scan (ROther [c]) s'
        end
  end.

Definition LooseVersion (vstring : str) : list component :=
  loose_scan RNone vstring.

(** Python 2's [cmp] on byte strings, on the components (a number is below
    every string) and on lists. *)
Fixpoint cmp_str (a b : str) : comparison :=
  match a, b with
  | [], [] => Eq
  | [], _ :: _ => Lt
  | _ :: _, [] => Gt
  | x :: a', y :: b' =>
      match N.compare (code x) (code y) with
      | Eq => cmp_str a' b'
      | o => o
      end
  end.

Definition cmp_component (a b : component) : comparison :=
  match a, b with
  | CInt x, CInt y => N.compare x y
  | CInt _, CStr _ => Lt
  | CStr _, CInt _ => Gt
  | CStr x, CStr y => cmp_str x y
  end.

Fixpoint cmp_list (a b : list component) : comparison :=
  match a, b with
  | [], [] => Eq
  | [], _ :: _ => Lt
  | _ :: _, [] => Gt
  | x :: a', y :: b' =>
      match cmp_component x y with
      | Eq => cmp_list a' b'
      | o => o
      end
  end.

(** [LooseVersion.__cmp__] *)
Definition cmp_version (a b : str) : comparison :=
  cmp_list (LooseVersion a) (LooseVersion b).

Definition version_leb (a b : str) : bool :=
  match cmp_version a b with Gt => false | _ => true end.

(** [list.sort(key=LooseVersion)] is a stable sort: an element goes before
    the first one it is not above, so equal keys keep their order. *)
Fixpoint insert_version (x : str) (l : list str) : list str :=
  match l with
  | [] => [x]
  | y :: l' => if version_leb x y then x :: l else y :: insert_version x l'
  end.

Definition sort_versions (l : list str) : list str :=
  fold_right insert_version [] l.

(** ** [posixpath] *)

Definition os_path_join2 (path b : str) : str :=
  if startswith (py "/") b then b
  else if str_eqb path [] || endswith (py "/") path then path ++ b
  else path ++ py "/" ++ b.

(** [os.path.join(a, *p)] *)
Definition os_path_join (a : str) (p : list str) : str :=
  fold_left os_path_join2 p a.

(** [os.path.join] on values that may be [None]: [b.startswith] of the first
    [None] raises [AttributeError]. *)
Fixpoint os_path_join_py (a : str) (p : list pyval) : result str :=
  match p with
  | [] => Ok a
  | Some b :: p' => os_path_join_py (os_path_join2 a b) p'
  | None :: _ => Raise AttributeError
  end.

(** [os.path.split(p)] *)
Definition os_path_split (p : str) : str * str :=
  match rsplit1 "/" p with
  | Some (h, tail) =>
      let head := h ++ py "/" in
      (if forallb is_slash head then head else rstrip is_slash head, tail)
  | None => ([], p)
  end.

Definition os_path_basename (p : str) : str :=
  match rsplit1 "/" p with
  | Some (_, tail) => tail
  | None => p
  end.

Definition os_path_dirname (p : str) : str := fst (os_path_split p).

Definition os_path_isabs (p : str) : bool := startswith (py "/") p.

(** The loop of [os.path.normpath] over the components; [new_comps] is kept
    with its last element first. *)
Fixpoint normpath_comps (initial_slashes : bool) (new_comps comps : list str)
  : list str :=
  match comps with
  | [] => rev new_comps
  | comp :: comps' =>
      if str_eqb comp [] || str_eqb comp (py ".") then
        normpath_comps initial_slashes new_comps comps'
      else if negb (str_eqb comp (py ".."))
              || (negb initial_slashes
                  && match new_comps with [] => true | _ => false end)
              || match new_comps with
                 | last :: _ => str_eqb last (py "..")
                 | [] => false
                 end
      then normpath_comps initial_slashes (comp :: new_comps) comps'
      else normpath_comps initial_slashes (tl new_comps) comps'
  end.

(** [os.path.normpath(path)] *)
Definition os_path_normpath (path : str) : str :=
  match path with
  | [] => py "."
  | _ =>
      let initial_slashes := startswith (py "/") path in
      let two := startswith (py "//") path && negb (startswith (py "///") path) in
      let comps := normpath_comps initial_slashes [] (py_split "/" path) in
      let path' := py_join (py "/") comps in
      let path' := if two then py "//" ++ path'
                   else if initial_slashes then py "/" ++ path'
                   else path' in
      match path' with [] => py "." | _ => path' end
  end.

(** ** The environment of a run *)

(** The outcome of [urllib2.urlopen(url)]: a response with its body, an
    [HTTPError] with the status of the answer, or a [URLError] when the
    endpoint was not reached. *)
Inductive response : Type :=
| Response (body : str)
| HTTPFailure (status : N)
| Unreachable.

(** A member of a zip archive: its name and its content.  A name that ends
    in a slash is a directory. *)
Definition zip_member : Type := (str * str)%type.

Record os_env : Type := {
  platform : str;                           (* sys.platform *)
  HOME : str;                               (* os.environ['HOME'] *)
  getpwnam : str -> option str;             (* home directory of a user *)
  getcwd : str;                             (* os.getcwd(), an absolute path *)
  network : str -> response;                (* what urlopen finds at a URL *)
  tmp_stem : str;                           (* mkstemp's directory and random name *)
  unzip : str -> option (list zip_member);  (* the members of an archive's bytes *)
  link_first : bool                         (* whether iterating the dictionary
                                               [config_defaults] gives [link]
                                               before [cache_dir], which the
                                               interpreter's string hash decides *)
}.

(** ** The file system *)

Inductive node : Type :=
| NDir
| NFile (data : str) (mode : N)
| NLink (target : str).

Definition filesystem := list (str * node).

Fixpoint fs_lookup (p : str) (fs : filesystem) : option node :=
  match fs with
  | [] => None
  | (q, n) :: fs' => if str_eqb p q then Some n else fs_lookup p fs'
  end.

Definition fs_remove (p : str) (fs : filesystem) : filesystem :=
  filter (fun e => negb (str_eqb p (fst e))) fs.

Definition fs_add (p : str) (n : node) (fs : filesystem) : filesystem :=
  fs ++ [(p, n)].

Definition fs_replace (p : str) (n : node) (fs : filesystem) : filesystem :=
  map (fun e => if str_eqb p (fst e) then (fst e, n) else e) fs.

(** *** Path resolution *)

(** A component that stays in the directory: the empty one between two
    slashes, and [.]. *)
Definition is_curdir (c : str) : bool := str_eqb c [] || str_eqb c (py ".").

Definition is_pardir (c : str) : bool := str_eqb c (py "..").

(** The directory reached from the directory [cur] along the components
    [comps], every symlink on the way followed, at most [links] of them. *)
Fixpoint walk_dir (links : nat) (fs : filesystem) : str -> list str -> result str :=
  fix go (cur : str) (comps : list str) {struct comps} : result str :=
    match comps with
    | [] => Ok cur
    | c :: rest =>
        if is_curdir c then go cur rest
        else if is_pardir c then go (os_path_dirname cur) rest
        else
          match fs_lookup (os_path_join2 cur c) fs with
          | None => Raise (OSError ENOENT)
          | Some NDir => go (os_path_join2 cur c) rest
          | Some (NFile _ _) => Raise (OSError ENOTDIR)
          | Some (NLink []) => Raise (OSError ENOENT)
          | Some (NLink t) =>
              match links with
              | O => Raise (OSError ELOOP)
              | S n =>
                  walk_dir n fs (if os_path_isabs t then py "/" else cur)
                    (py_split "/" t ++ rest)
              end
          end
    end.

(** The directory a path names.  A path that is the key of a directory is
    that directory; any other path is walked from the root. *)
Definition realdir (fs : filesystem) (d : str) : result str :=
  match fs_lookup d fs with
  | Some NDir => Ok d
  | _ => walk_dir 40 fs (py "/") (py_split "/" d)
  end.

(** The key of the entry a path names: its last component in the directory
    that the rest of the path names.  A symlink at the last component is not
    followed. *)
Definition lkey (fs : filesystem) (p : str) : result str :=
  match p with
  | [] => Raise (OSError ENOENT)
  | _ =>
      match realdir fs (os_path_dirname p) with
      | Raise e => Raise e
      | Ok d =>
          let name := os_path_basename p in
          if is_curdir name then Ok d
          else if is_pardir name then Ok (os_path_dirname d)
          else Ok (os_path_join2 d name)
      end
  end.

(** Whether the last component of a path is a name that can be given to a
    new entry. *)
Definition names_entry (p : str) : bool :=
  negb (is_curdir (os_path_basename p) || is_pardir (os_path_basename p)).

(** [os.lstat(p)] *)
Definition os_lstat (fs : filesystem) (p : str) : result node :=
  match lkey fs p with
  | Raise e => Raise e
  | Ok k =>
      match fs_lookup k fs with
      | Some n => Ok n
      | None => Raise (OSError ENOENT)
      end
  end.

(** The node a path names once the symlinks at its end are followed (at most
    [fuel] of them), with the key of that node. *)
Fixpoint fs_follow (fuel : nat) (fs : filesystem) (p : str)
  : result (str * node) :=
  match lkey fs p with
  | Raise e => Raise e
  | Ok k =>
      match fs_lookup k fs with
      | None => Raise (OSError ENOENT)
      | Some (NLink []) => Raise (OSError ENOENT)
      | Some (NLink t) =>
          match fuel with
          | O => Raise (OSError ELOOP)
          | S n => fs_follow n fs (os_path_join2 (os_path_dirname k) t)
          end
      | Some n => Ok (k, n)
      end
  end.

(** [os.stat(p)] *)
Definition fs_stat (fs : filesystem) (p : str) : result (str * node) :=
  fs_follow 40 fs p.

Definition os_path_exists (fs : filesystem) (p : str) : bool :=
  match fs_stat fs p with Ok _ => true | Raise _ => false end.

Definition os_path_isdir (fs : filesystem) (p : str) : bool :=
  match fs_stat fs p with Ok (_, NDir) => true | _ => false end.

(** *** Directories *)

(** What the keys below the directory [dir] start with. *)
Definition below (dir : str) : str :=
  if endswith (py "/") dir then dir else dir ++ py "/".

(** The name of [p] inside the directory [dir], when [p] is a child of it.
    The entries [.] and [..] are no children. *)
Definition child_name (dir p : str) : option str :=
  match strip_prefix (below dir) p with
  | Some (c :: name) =>
      if existsb is_slash (c :: name) || is_curdir (c :: name) || is_pardir (c :: name)
      then None
      else Some (c :: name)
  | _ => None
  end.

(** [os.listdir(top)] *)
Definition os_listdir (fs : filesystem) (top : str) : result (list str) :=
  match fs_stat fs top with
  | Raise e => Raise e
  | Ok (k, NDir) =>
      Ok (flat_map (fun e => match child_name k (fst e) with
                             | Some name => [name]
                             | None => []
                             end) fs)
  | Ok _ => Raise (OSError ENOTDIR)
  end.

(** The first triple [(root, dirs, files)] that [os.walk(top)] yields; an
    error of [os.listdir] is ignored by [os.walk], which then yields nothing. *)
Definition os_walk_first (fs : filesystem) (top : str)
  : option (str * list str * list str) :=
  match os_listdir fs top with
  | Ok names =>
      let isdir := fun name => os_path_isdir fs (os_path_join top [name]) in
      Some (top, filter isdir names, filter (fun name => negb (isdir name)) names)
  | Raise _ => None
  end.

(** [os.mkdir(path)]; a slash at the end of the path is allowed. *)
Definition os_mkdir (path : str) (fs : filesystem) : result filesystem :=
  let path := match rstrip is_slash path with [] => path | q => q end in
  match lkey fs path with
  | Raise e => Raise e
  | Ok k =>
      match fs_lookup k fs with
      | Some _ => Raise (OSError EEXIST)
      | None =>
          if names_entry path then Ok (fs_add k NDir fs)
          else Raise (OSError EEXIST)
      end
  end.

(** [shutil.rmtree(path)]: a symlink is refused, the listing of anything
    else that is no directory fails, and a directory goes with all that is
    below it. *)
Definition shutil_rmtree (path : str) (fs : filesystem) : result filesystem :=
  match lkey fs path with
  | Raise e => Raise e
  | Ok k =>
      match fs_lookup k fs with
      | None => Raise (OSError ENOENT)
      | Some (NLink _) => Raise (OSError E_unset)
      | Some (NFile _ _) => Raise (OSError ENOTDIR)
      | Some NDir =>
          Ok (filter (fun e => negb (str_eqb k (fst e) || startswith (below k) (fst e)))
                fs)
      end
  end.

(** *** Links *)

(** [os.symlink(target, link)] *)
Definition os_symlink (target link : str) (fs : filesystem) : result filesystem :=
  match lkey fs link with
  | Raise e => Raise e
  | Ok k =>
      match fs_lookup k fs with
      | Some _ => Raise (OSError EEXIST)
      | None =>
          if names_entry link then Ok (fs_add k (NLink target) fs)
          else Raise (OSError EEXIST)
      end
  end.

(** The error of [os.unlink] on a directory: [EISDIR] on Linux, and [EPERM],
    as POSIX has it, elsewhere. *)
Definition unlink_dir_errno (E : os_env) : errno :=
  if startswith (py "linux") (platform E) then EISDIR else EPERM.

(** [os.unlink(path)] *)
Definition os_unlink (E : os_env) (path : str) (fs : filesystem)
  : result filesystem :=
  match lkey fs path with
  | Raise e => Raise e
  | Ok k =>
      match fs_lookup k fs with
      | None => Raise (OSError ENOENT)
      | Some NDir => Raise (OSError (unlink_dir_errno E))
      | Some _ => Ok (fs_remove k fs)
      end
  end.

(** [os.readlink(path)] *)
Definition os_readlink (path : str) (fs : filesystem) : result str :=
  match lkey fs path with
  | Raise e => Raise e
  | Ok k =>
      match fs_lookup k fs with
      | None => Raise (OSError ENOENT)
      | Some (NLink target) => Ok target
      | Some _ => Raise (OSError EINVAL)
      end
  end.

(** *** Files *)

(** An error of the operating system as [open] raises it. *)
Definition as_IOError (e : exn) : exn :=
  match e with
  | OSError n => IOError n
  | _ => e
  end.

(** [open(path, 'w')] followed by one write of [data]: the file is created
    with mode 0644 or emptied, a symlink at the path is followed. *)
Fixpoint open_w (fuel : nat) (path data : str) (fs : filesystem)
  : result filesystem :=
  match lkey fs path with
  | Raise e => Raise (as_IOError e)
  | Ok k =>
      match fs_lookup k fs with
      | Some NDir => Raise (IOError EISDIR)
      | Some (NFile _ mode) => Ok (fs_replace k (NFile data mode) fs)
      | Some (NLink []) => Raise (IOError ENOENT)
      | Some (NLink t) =>
          match fuel with
          | O => Raise (IOError ELOOP)
          | S n => open_w n (os_path_join2 (os_path_dirname k) t) data fs
          end
      | None =>
          if names_entry path then Ok (fs_add k (NFile data 420) fs)
          else Raise (IOError EISDIR)
      end
  end.

(** [open(path, 'rb')] and [read()] *)
Definition open_r (path : str) (fs : filesystem) : result str :=
  match fs_stat fs path with
  | Raise e => Raise (as_IOError e)
  | Ok (_, NFile data _) => Ok data
  | Ok _ => Raise (IOError EISDIR)
  end.

(** [tempfile.mkstemp(suffix=suffix)]: a new empty file, readable and
    writable by its owner, and its name.  The one name the environment has
    is tried; with every name taken [mkstemp] gives up with an [IOError]. *)
Definition mkstemp (E : os_env) (suffix : str) (fs : filesystem)
  : result (str * filesystem) :=
  let name := tmp_stem E ++ suffix in
  match lkey fs name with
  | Raise e => Raise e
  | Ok k =>
      match fs_lookup k fs with
      | Some _ => Raise (IOError EEXIST)
      | None =>
          if names_entry name then Ok (name, fs_add k (NFile [] 384) fs)  (* 0600 *)
          else Raise (IOError EEXIST)
      end
  end.

(** ** The state of a run and its monad *)

(** [ConfigParser]'s defaults section: the two options the program reads. *)
Record config : Type := {
  cfg_link : str;
  cfg_cache_dir : str
}.

Record world : Type := {
  w_fs : filesystem;
  w_config : config;              (* the [config] object of the [Env] instance *)
  w_stdout : str;                 (* what was written to [sys.stdout] *)
  w_requests : list str;          (* the URLs opened, in order *)
  w_trace : list filesystem       (* the file system after each call that changed it *)
}.

Definition M (A : Type) : Type := world -> result A * world.

Definition ret {A} (a : A) : M A := fun w => (Ok a, w).

Definition raise {A} (e : exn) : M A := fun w => (Raise e, w).

Definition bind {A B} (c : M A) (k : A -> M B) : M B :=
  fun w =>
    match c w with
    | (Ok a, w') => k a w'
    | (Raise e, w') => (Raise e, w')
    end.

Notation "x <- c ;; k" := (bind c (fun x => k))
  (at level 61, c at next level, right associativity).
Notation "c ;; k" := (bind c (fun _ => k))
  (at level 61, right associativity).

(** [try: c  except <handles>: h]; any other exception is raised again. *)
Definition try_except {A} (c : M A) (handles : exn -> bool) (h : exn -> M A) : M A :=
  fun w =>
    match c w with
    | (Raise e, w') => if handles e then h e w' else (Raise e, w')
    | r => r
    end.

Definition gets {A} (f : world -> A) : M A := fun w => (Ok (f w), w).

Definition lift {A} (r : result A) : M A := fun w => (r, w).

(** A call that reads the file system. *)
Definition read_fs {A} (f : filesystem -> result A) : M A :=
  fun w => (f (w_fs w), w).

(** A call that changes the file system; the new one is logged. *)
Definition update_fs (f : filesystem -> result filesystem) : M unit :=
  fun w =>
    match f (w_fs w) with
    | Ok fs' =>
        (Ok tt, {| w_fs := fs'; w_config := w_config w; w_stdout := w_stdout w;
                   w_requests := w_requests w; w_trace := w_trace w ++ [fs'] |})
    | Raise e => (Raise e, w)
    end.

(** [sys.stdout.write(s)] *)
Definition stdout_write (s : str) : M unit :=
  fun w =>
    (Ok tt, {| w_fs := w_fs w; w_config := w_config w;
               w_stdout := w_stdout w ++ s;
               w_requests := w_requests w; w_trace := w_trace w |}).

(** [self.config.set(configparser.DEFAULTSECT, 'link', dest)] *)
Definition config_set_link (dest : str) : M unit :=
  fun w =>
    (Ok tt, {| w_fs := w_fs w;
               w_config := {| cfg_link := dest;
                              cfg_cache_dir := cfg_cache_dir (w_config w) |};
               w_stdout := w_stdout w;
               w_requests := w_requests w; w_trace := w_trace w |}).

(** [urllib2.urlopen(url)], and [response.read()] of what it returns. *)
Definition urlopen (E : os_env) (url : str) : M str :=
  fun w =>
    let w' := {| w_fs := w_fs w; w_config := w_config w; w_stdout := w_stdout w;
                 w_requests := w_requests w ++ [url]; w_trace := w_trace w |} in
    match network E url with
    | Response body => (Ok body, w')
    | HTTPFailure status => (Raise (HTTPError status), w')
    | Unreachable => (Raise URLError, w')
    end.

Definition is_HTTPError (e : exn) : bool :=
  match e with HTTPError _ => true | _ => false end.

Definition is_EEXIST (e : exn) : bool :=
  match e with OSError EEXIST => true | _ => false end.

Definition is_ENOENT (e : exn) : bool :=
  match e with OSError ENOENT => true | _ => false end.

(** The truth value of a string or [None]. *)
Definition truthy (v : pyval) : bool :=
  match v with
  | Some (_ :: _) => true
  | _ => false
  end.

(** *** The library calls of several steps *)

(** [os.makedirs(name)]: the directories above [name] that are missing are
    made first; [fuel] bounds the depth of the path. *)
Fixpoint os_makedirs (fuel : nat) (name : str) : M unit :=
  let '(head, tail) := os_path_split name in
  let '(head, tail) := match tail with
                       | [] => os_path_split head
                       | _ => (head, tail)
                       end in
  above <- read_fs (fun fs => Ok (match head, tail with
                                  | _ :: _, _ :: _ => negb (os_path_exists fs head)
                                  | _, _ => false
                                  end)) ;;
  if above then
    match fuel with
    | O => raise (OSError ELOOP)
    | S n =>
        try_except (os_makedirs n head) is_EEXIST (fun _ => ret tt) ;;
        if str_eqb tail (py ".") then ret tt
        else update_fs (os_mkdir name)
    end
  else update_fs (os_mkdir name).

(** [ZipFile._extract_member(member, target)] *)
Definition extract_member (target : str) (member : zip_member) : M unit :=
  let '(filename, data) := member in
  (* interpret absolute pathname as relative, remove redundant separators,
     "." and ".." components *)
  let arcname :=
    py_join (py "/")
      (filter (fun x => negb (is_curdir x || is_pardir x)) (py_split "/" filename)) in
  let targetpath := os_path_normpath (os_path_join target [arcname]) in
  (* Create all upper directories if necessary. *)
  let upperdirs := os_path_dirname targetpath in
  missing <- read_fs (fun fs => Ok (match upperdirs with
                                    | [] => false
                                    | _ => negb (os_path_exists fs upperdirs)
                                    end)) ;;
  (if missing then os_makedirs (List.length upperdirs) upperdirs else ret tt) ;;
  match filename with
  | [] => raise IndexError        (* [member.filename[-1]] *)
  | _ =>
      if endswith (py "/") filename then
        isdir <- read_fs (fun fs => Ok (os_path_isdir fs targetpath)) ;;
        if isdir then ret tt else update_fs (os_mkdir targetpath)
      else update_fs (open_w 40 targetpath data)
  end.

(** [ZipFile.extractall(target)], member by member. *)
Fixpoint extractall (target : str) (members : list zip_member) : M unit :=
  match members with
  | [] => ret tt
  | member :: members' =>
      extract_member target member ;;
      extractall target members'
  end.

(** [os.chmod(f, os.stat(f).st_mode | 0o111)] for the names of [files] that
    end in [.py]. *)
Fixpoint chmod_scripts (root : str) (files : list str) : M unit :=
  match files with
  | [] => ret tt
  | f :: files' =>
      (if endswith (py ".py") f then
         let f := os_path_join root [f] in
         update_fs (fun fs =>
                      match fs_stat fs f with
                      | Raise e => Raise e
                      | Ok (q, NFile data mode) =>
                          (* Add execute bit for owner, group, others. *)
                          Ok (fs_replace q (NFile data (N.lor mode 73)) fs)
                      | Ok _ => Ok fs
                      end)
       else ret tt) ;;
      chmod_scripts root files'
  end.

(** [ConfigParser.write]: the defaults section, in the order of the
    dictionary the defaults came from; a newline inside a value is followed
    by a tab. *)
Definition config_value (v : str) : str :=
  flat_map (fun c => if Ascii.eqb c LF then [LF; "009"%char] else [c]) v.

Definition config_write (E : os_env) (c : config) : str :=
  let link := py "link = " ++ config_value (cfg_link c) ++ [LF] in
  let cache_dir := py "cache_dir = " ++ config_value (cfg_cache_dir c) ++ [LF] in
  py "[DEFAULT]" ++ [LF]
  ++ (if link_first E then link ++ cache_dir else cache_dir ++ link)
  ++ [LF].

(** ** The class [Env] *)

Module Env.

Section WithEnvironment.

Variable E : os_env.

(** [os.path.expanduser(path)] *)
Definition expanduser (path : str) : str :=
  match path with
  | "~"%char :: rest =>
      let user := take_while (fun c => negb (is_slash c)) rest in
      let tail := drop_while (fun c => negb (is_slash c)) rest in
      match (match user with
             | [] => Some (HOME E)
             | _ => getpwnam E user
             end) with
      | None => path
      | Some userhome =>
          match rstrip is_slash userhome ++ tail with
          | [] => py "/"
          | p => p
          end
      end
  | _ => path
  end.

(** [os.path.abspath(path)] *)
Definition abspath (path : str) : str :=
  os_path_normpath
    (if os_path_isabs path then path else os_path_join (getcwd E) [path]).

(** The directory to save preferences (and SDKs by default). *)
Definition config_dir : str :=
  (if startswith (py "darwin") (platform E) then py "~/Library/Application Support/"
   else if startswith (py "win") (platform E) then py "~\Application Settings\"
   else py "~/.")
  ++ py "sdkswitcher".

(** The path to the sdkswitcher.ini configuration file. *)
Definition config_filename : str :=
  abspath (expanduser (os_path_join config_dir [CONFIG_FILENAME])).

Definition config_defaults : config :=
  {| cfg_link := py "~/"; cfg_cache_dir := [] |}.

(** The full directory to store cached SDKs. *)
Definition cache_dir (c : config) : str :=
  let d := match cfg_cache_dir c with
           | [] => config_dir
           | d => d
           end in
  abspath (expanduser d).

(** The currently configured location for the full SDK symlink. *)
Definition sdk_link (c : config) : str :=
  match cfg_link c with
  | [] => []
  | link => abspath (os_path_join (expanduser link) [google_appengine])
  end.

Definition save_config : M str :=
  let filename := config_filename in
  c <- gets w_config ;;
  update_fs (open_w 40 filename (config_write E c)) ;;
  ret filename.

(** Returns a list of SDK version strings, sorted so that 1.9.5 is before
    1.9.40. *)
Definition _get_installed_versions (w : world) : list str :=
  let cache := cache_dir (w_config w) in
  let versions :=
    match os_walk_first (w_fs w) cache with
    | Some (root, dirs, _) =>
        filter (fun d => os_path_exists (w_fs w)
                           (os_path_join root [d; google_appengine])) dirs
    | None => []
    end in
  sort_versions versions.

(** The first line of the response that matches gives the version; no
    matching line gives [None]. *)
Fixpoint first_release (lines : list str) : pyval :=
  match lines with
  | [] => None
  | line :: lines' =>
      match search_release None line with
      | Some g => Some g
      | None => first_release lines'
      end
  end.

Definition _check : M pyval :=
  body <- urlopen E SDK_VERSION_CHECK_URL ;;
  ret (first_release (readlines body)).

Definition check : M pyval :=
  version <- _check ;;
  stdout_write (py "Latest version: " ++ format_s version ++ [LF]) ;;
  ret version.

(** Returns an SDK version after resolving ambiguous values. *)
Definition _resolve_version (version : pyval) : M pyval :=
  match version with
  | None => raise TypeError   (* [SDK_VERSION_PATTERN.match(None)] *)
  | Some v =>
      if str_eqb v SDK_VERSION_LATEST then _check
      else if SDK_VERSION_PATTERN_match v then ret (Some v)
      else
        installed_versions <- gets _get_installed_versions ;;
        match filter (re_search_escaped v) installed_versions with
        | [m] => ret (Some m)
        | _ => raise BadVersionString
        end
  end.

Definition _activate (version : pyval) : M str :=
  version <- _resolve_version version ;;
  link <- gets (fun w => sdk_link (w_config w)) ;;
  cache <- gets (fun w => cache_dir (w_config w)) ;;
  target <- lift (os_path_join_py cache [version; Some google_appengine]) ;;
  try_except (update_fs (os_symlink target link))
    is_EEXIST
    (fun _ => update_fs (os_unlink E link) ;;
              update_fs (os_symlink target link)) ;;
  ret target.

(** Find the currently active SDK (if any). *)
Definition active_version : M pyval :=
  sdk_link <- gets (fun w => sdk_link (w_config w)) ;;
  r <- try_except (target <- read_fs (os_readlink sdk_link) ;; ret (Some target))
         is_ENOENT
         (fun _ => ret None) ;;
  match r with
  | None => ret None
  | Some target =>
      let '(dname, fname) := os_path_split target in
      if str_eqb fname google_appengine
      then ret (Some (os_path_basename dname))
      else raise AssertionError
  end.

Definition activate (version : pyval) : M unit :=
  _activate version ;;
  version <- active_version ;;
  stdout_write (py "SDK version " ++ format_s version ++ py " is now active." ++ [LF]).

Definition _sdk_url (version : pyval) : str := SDK_DOWNLOAD_URL version.

Definition _sdk_url_deprecated (version : pyval) : result str :=
  match version with
  | None => Raise AttributeError   (* [None.replace] *)
  | Some v => Ok (SDK_OLD_DOWNLOAD_URL (remove_char "." v) v)
  end.

Definition _download (version : pyval) : M str :=
  let url := _sdk_url version in
  r <- try_except (body <- urlopen E url ;; ret (url, body))
         is_HTTPError
         (fun _ =>
            (* Didn't work, maybe it's an old deprecated SDK? *)
            url <- lift (_sdk_url_deprecated version) ;;
            body <- urlopen E url ;;
            ret (url, body)) ;;
  let '(url, body) := r in
  suffix <- lift (safe_filename url) ;;
  filename <- (fun w =>
                 match mkstemp E suffix (w_fs w) with
                 | Ok (name, fs') =>
                     (Ok name,
                      {| w_fs := fs'; w_config := w_config w;
                         w_stdout := w_stdout w; w_requests := w_requests w;
                         w_trace := w_trace w ++ [fs'] |})
                 | Raise e => (Raise e, w)
                 end) ;;
  update_fs (open_w 40 filename body) ;;
  ret filename.

Definition download (version : pyval) : M str :=
  version <- _resolve_version version ;;
  stdout_write (py "Downloading SDK version " ++ format_s version ++ [LF]) ;;
  filename <- _download version ;;
  stdout_write (py "Saved as " ++ filename ++ [LF]) ;;
  ret filename.

Definition _extract (filename : str) (version : pyval) : M str :=
  cache <- gets (fun w => cache_dir (w_config w)) ;;
  target <- lift (os_path_join_py cache [version]) ;;
  archive <- read_fs (fun fs =>
                match open_r filename fs with
                | Ok data =>
                    match unzip E data with
                    | Some members => Ok members
                    | None => Raise BadZipfile
                    end
                | Raise e => Raise e
                end) ;;
  extractall target archive ;;
  (* Now set the SDK scripts as executable. *)
  let target_sdk := os_path_join target [google_appengine] in
  top <- read_fs (fun fs => Ok (os_walk_first fs target_sdk)) ;;
  match top with
  | Some (root, _, files) => chmod_scripts root files
  | None => ret tt
  end ;;
  ret target.

Definition pyval_eqb (a b : pyval) : bool :=
  match a, b with
  | Some x, Some y => str_eqb x y
  | None, None => true
  | _, _ => false
  end.

(** Install an SDK version. *)
Definition install (version : pyval) : M unit :=
  version <- _resolve_version version ;;
  installed_versions <- gets _get_installed_versions ;;
  stdout_write (py "Installing SDK version " ++ format_s version ++ [LF]) ;;
  (if negb (existsb (fun v => pyval_eqb version (Some v)) installed_versions)
   then
     stdout_write (py "Downloading..." ++ [LF]) ;;
     filename <- _download version ;;
     _extract filename version ;;
     stdout_write (py "Extracted SDK version " ++ format_s version ++ [LF])
   else ret tt) ;;
  activate version.

(** Set the SDK symlink in preferences.  If there is an active SDK, the
    symlink is recreated. *)
Definition link (dest : str) : M unit :=
  old_link <- gets (fun w => sdk_link (w_config w)) ;;
  version <- active_version ;;
  (* Let's create the new link first, in case it fails for some reason.
     Then we can clean up the old one. *)
  config_set_link dest ;;
  new_link <- gets (fun w => sdk_link (w_config w)) ;;
  (if truthy version && negb (str_eqb old_link new_link)
   then
     activate version ;;
     (* Now delete the previous symlink. *)
     match old_link with
     | [] => ret tt
     | _ => update_fs (os_unlink E old_link)
     end
   else ret tt) ;;
  save_config ;;
  ret tt.

Definition _remove (version : pyval) : M str :=
  cache <- gets (fun w => cache_dir (w_config w)) ;;
  target <- lift (os_path_join_py cache [version]) ;;
  update_fs (shutil_rmtree target) ;;
  ret target.

(** Delete installed SDK versions. *)
Definition remove (version : pyval) : M unit :=
  version <- _resolve_version version ;;
  stdout_write (py "Removing SDK version " ++ format_s version ++ [LF]) ;;
  filename <- _remove version ;;
  stdout_write (py "Removed " ++ filename ++ [LF]).

(** A byte string put into a unicode template is decoded as ASCII; a byte
    above 127 raises [UnicodeDecodeError], which is a [ValueError]. *)
Definition decode_ascii (s : str) : result str :=
  if forallb (fun c => (code c <? 128)%N) s then Ok s else Raise ValueError.

(** [u'{:>10}{}\n'.format(version, flag)]: the version right-aligned in ten
    columns. *)
Definition summary_line (active : pyval) (version : str) : str :=
  let flag := if pyval_eqb (Some version) active then py " *" else [] in
  repeat " "%char (10 - List.length version) ++ version ++ flag ++ [LF].

(** Returns summary as a string. *)
Definition _summary : M str :=
  installed_versions <- gets _get_installed_versions ;;
  let config_filename := config_filename in
  cache <- gets (fun w => cache_dir (w_config w)) ;;
  active <- active_version ;;
  link <- gets (fun w => sdk_link (w_config w)) ;;
  config_filename <- lift (decode_ascii config_filename) ;;
  cache <- lift (decode_ascii cache) ;;
  link <- lift (decode_ascii link) ;;
  versions <- lift (fold_right
                      (fun v acc =>
                         match decode_ascii v, acc with
                         | Ok v', Ok vs => Ok (v' :: vs)
                         | Raise e, _ => Raise e
                         | _, Raise e => Raise e
                         end) (Ok []) installed_versions) ;;
  ret (py "Reading preferences from " ++ config_filename ++ [LF]
       ++ py (NilZero.string_of_uint (Nat.to_uint (List.length installed_versions)))
       ++ py " SDKs in " ++ cache ++ [LF]
       ++ py "SDK symlink is " ++ link ++ [LF]
       ++ [LF]
       ++ flat_map (summary_line active) versions).

(** List the installed SDK versions and indicate which is active. *)
Definition summary : M str :=
  value <- _summary ;;
  stdout_write value ;;
  stdout_write [LF] ;;
  ret value.

End WithEnvironment.

End Env.

(** ** Vocabulary of the properties *)

(** A file name of [safe_filename] has no two dots in a row. *)
Fixpoint no_dotdot (s : str) : bool :=
  match s with
  | c1 :: (c2 :: _) as s' => negb (is_dot c1 && is_dot c2) && no_dotdot s'
  | _ => true
  end.

(** The final path segment of a URL, as [safe_filename] cuts it. *)
Definition final_segment (url : str) : str :=
  snd (rpartition "/" (strip is_slash url)).

(** A letter, a digit, a hyphen or an underscore. *)
Definition plain_char (c : ascii) : bool := filename_char c && negb (is_dot c).

(** The maximal runs of letters, digits, hyphens and underscores of a string,
    in their order. *)
Fixpoint plain_runs (s : str) : list str :=
  match s with
  | [] => []
  | c :: s' =>
      if plain_char c then
        match plain_runs s' with
        | r :: rs =>
            if match s' with c' :: _ => plain_char c' | [] => false end
            then (c :: r) :: rs
            else [c] :: r :: rs
        | [] => [[c]]
        end
      else plain_runs s'
  end.

(** The separators of [safe_filename]: the slash, the dot, and every
    character that may not stand in a file name. *)
Definition separator_char (c : ascii) : bool :=
  is_slash c || is_dot c || negb (filename_char c).

(** The numeric, component-wise comparison of two versions given as lists of
    numbers: the first components that differ decide, and a version that is
    a proper prefix of another is below it. *)
Fixpoint compare_numeric (a b : list N) : comparison :=
  match a, b with
  | [], [] => Eq
  | [], _ :: _ => Lt
  | _ :: _, [] => Gt
  | x :: a', y :: b' =>
      match N.compare x y with
      | Eq => compare_numeric a' b'
      | o => o
      end
  end.

(** A non-empty run of decimal digits. *)
Definition digit_run (d : str) : bool :=
  match d with
  | [] => false
  | _ => forallb is_digit d
  end.

(** The components joined by dots: [1.9.57] from [1], [9] and [57]. *)
Definition dotted (ds : list str) : str := py_join (py ".") ds.

(** [a] is not above [b]. *)
Definition version_le (a b : str) : Prop := cmp_version a b <> Gt.

(** A name of the cache directory's listing counts as an installed version:
    it is a directory, and the marker [google_appengine] exists in it. *)
Definition holds_sdk (fs : filesystem) (cache name : str) : bool :=
  os_path_isdir fs (os_path_join cache [name])
  && os_path_exists fs (os_path_join cache [name; google_appengine]).

(** A string without a slash. *)
Definition no_slash (s : str) : bool := forallb (fun c => negb (is_slash c)) s.

(** The world after calls that went through the file systems [steps] and
    ended in [fs]. *)
Definition with_fs (w : world) (fs : filesystem) (steps : list filesystem) : world :=
  {| w_fs := fs; w_config := w_config w; w_stdout := w_stdout w;
     w_requests := w_requests w; w_trace := w_trace w ++ steps |}.

(** The world once the option [link] is set to [dest]. *)
Definition with_link (w : world) (dest : str) : world :=
  {| w_fs := w_fs w;
     w_config := {| cfg_link := dest; cfg_cache_dir := cfg_cache_dir (w_config w) |};
     w_stdout := w_stdout w; w_requests := w_requests w; w_trace := w_trace w |}.

(** The link step of [_activate]: create the link, and when it exists
    already, remove it and create it again. *)
Definition place_link (E : os_env) (target link : str) : M unit :=
  try_except (update_fs (os_symlink target link))
    is_EEXIST
    (fun _ => update_fs (os_unlink E link) ;;
              update_fs (os_symlink target link)).


(** A path spelled as the key of an entry of its directory: the directory
    part and the name give the path back, and the name is neither empty nor
    [.] nor [..]. *)
Definition spelled (p : str) : Prop :=
  p <> []
  /\ os_path_join2 (os_path_dirname p) (os_path_basename p) = p
  /\ names_entry p = true.

(** A file system as the operating system keeps it: every entry but the
    root lies in a directory, under its name. *)
Definition well_formed (fs : filesystem) : Prop :=
  forall p n, fs_lookup p fs = Some n ->
    p = py "/" \/ (spelled p /\ fs_lookup (os_path_dirname p) fs = Some NDir).

(** The errors of path resolution. *)
Definition resolution_error (e : exn) : Prop :=
  e = OSError ENOENT \/ e = OSError ENOTDIR \/ e = OSError ELOOP.

(** The file system [fs'] has the directories and symlinks of [fs]. *)
Definition ways_in (fs fs' : filesystem) : Prop :=
  (forall q, fs_lookup q fs = Some NDir -> fs_lookup q fs' = Some NDir)
  /\ (forall q t, fs_lookup q fs = Some (NLink t) -> fs_lookup q fs' = Some (NLink t)).

(** The file system [fs'] has the directories and symlinks of [fs], and no
    directory that [fs] has not. *)
Definition same_ways (fs fs' : filesystem) : Prop :=
  ways_in fs fs'
  /\ (forall q, fs_lookup q fs' = Some NDir -> fs_lookup q fs = Some NDir).

(** A name as [safe_filename] returns it: not empty, of file name characters
    only, without two dots in a row and without a dot at either end. *)
Definition clean_name (f : str) : bool :=
  match f with
  | [] => false
  | c :: _ =>
      forallb filename_char f && no_dotdot f
      && negb (is_dot c) && negb (is_dot (last f "x"%char))
  end.

(** The lexicographic comparison of two lists by a comparison of their
    elements, a list being below its proper extensions. *)
Fixpoint lex (A : Type) (cmp : A -> A -> comparison) (a b : list A) : comparison :=
  match a, b with
  | [], [] => Eq
  | [], _ :: _ => Lt
  | _ :: _, [] => Gt
  | x :: a', y :: b' =>
      match cmp x y with
      | Eq => lex cmp a' b'
      | o => o
      end
  end.

(** ** Concrete runs

    The environment and the file systems of the repository's tests: a Linux
    user [foo] whose home directory is [/home/foo]. *)

Definition no_network (url : str) : response := Unreachable.

Definition linux_env (net : str -> response) : os_env :=
  {| platform := py "linux";
     HOME := py "/home/foo";
     getpwnam := fun _ => None;
     getcwd := py "/home/foo";
     network := net;
     tmp_stem := py "/tmp/tmpQ3xZ1k";
     unzip := fun _ => None;
     link_first := false |}.

Definition start (fs : filesystem) : world :=
  {| w_fs := fs; w_config := Env.config_defaults; w_stdout := [];
     w_requests := []; w_trace := [] |}.

(** A home directory and nothing else: no configuration directory yet. *)
Definition fresh_home : filesystem :=
  [ (py "/", NDir); (py "/home", NDir); (py "/home/foo", NDir);
    (py "/tmp", NDir) ].

Definition sdk_dir (version : string) : list (str * node) :=
  [ (py "/home/foo/.sdkswitcher/" ++ py version, NDir);
    (py "/home/foo/.sdkswitcher/" ++ py version ++ py "/google_appengine", NDir) ].

(** The cache directory with the given versions installed, in this order. *)
Definition home_with (versions : list string) : filesystem :=
  fresh_home ++ [(py "/home/foo/.sdkswitcher", NDir)] ++ flat_map sdk_dir versions.

Definition link_to (version : string) : str * node :=
  (py "/home/foo/google_appengine",
   NLink (py "/home/foo/.sdkswitcher/" ++ py version ++ py "/google_appengine")).

(** The cache directory is a symlink to [/data]; there 1.9.57 is a
    directory with the marker directory, and 1.8.0 is a symlink to a
    directory whose marker is a regular file. *)
Definition linked_cache : filesystem :=
  fresh_home
  ++ [ (py "/data", NDir);
       (py "/data/1.9.57", NDir);
       (py "/data/1.9.57/google_appengine", NDir);
       (py "/old", NDir);
       (py "/old/google_appengine", NFile [] 420);
       (py "/data/1.8.0", NLink (py "/old"));
       (py "/home/foo/.sdkswitcher", NLink (py "/data")) ].

(** A network that serves the URLs of a table and answers 404 elsewhere. *)
Fixpoint serve (table : list (str * response)) (url : str) : response :=
  match table with
  | [] => HTTPFailure 404
  | (u, r) :: table' => if str_eqb url u then r else serve table' url
  end.

(** An answer of the update check without a [release] line. *)
Definition check_without_release : str :=
  py "timestamp: 1516312066" ++ [LF] ++ py "api_versions: ['1']" ++ [LF].

(** The featured archive of 1.8.0 answers with a server error, while the
    deprecated archive is served. *)
Definition featured_down : str -> response :=
  serve [ (Env._sdk_url (Some (py "1.8.0")), HTTPFailure 500);
          (SDK_OLD_DOWNLOAD_URL (py "180") (py "1.8.0"), Response (py "PK")) ].


(** * Properties *)

(** ** Strings *)

Lemma str_eqb_refl (a : str) : str_eqb a a = true.
Proof.
  induction a as [|x a IH]; simpl; [reflexivity|].
  now rewrite Ascii.eqb_refl, IH.
Qed.

Lemma str_eqb_eq (a b : str) : str_eqb a b = true <-> a = b.
Proof.
  split; [|intros ->; apply str_eqb_refl].
  revert b; induction a as [|x a IH]; intros [|y b]; simpl; try easy.
  rewrite andb_true_iff; intros [Hx Hab].
  apply Ascii.eqb_eq in Hx; subst y. now rewrite (IH b Hab).
Qed.

Lemma str_eqb_neq (a b : str) : str_eqb a b = false <-> a <> b.
Proof.
  split.
  - intros H Heq. apply str_eqb_eq in Heq. congruence.
  - intros H. destruct (str_eqb a b) eqn:Hab; [|reflexivity].
    apply str_eqb_eq in Hab. contradiction.
Qed.

Lemma drop_while_snoc (p : ascii -> bool) (l : str) (c : ascii) :
  drop_while p (l ++ [c]) =
  match drop_while p l with
  | [] => if p c then [] else [c]
  | d => d ++ [c]
  end.
Proof.
  induction l as [|x l IH]; simpl; [reflexivity|].
  destruct (p x); [exact IH|reflexivity].
Qed.

Lemma rstrip_cons (p : ascii -> bool) (c : ascii) (t : str) :
  rstrip p (c :: t) =
  match rstrip p t with
  | [] => if p c then [] else [c]
  | r => c :: r
  end.
Proof.
  unfold rstrip; simpl. rewrite drop_while_snoc.
  destruct (drop_while p (rev t)) as [|d ds]; simpl.
  - destruct (p c); reflexivity.
  - rewrite rev_app_distr. simpl.
    destruct (rev ds ++ [d]) eqn:Hr; [|reflexivity].
    apply app_eq_nil in Hr as [_ Hr]. discriminate.
Qed.

Lemma rstrip_nil (p : ascii -> bool) : rstrip p [] = [].
Proof. reflexivity. Qed.

Lemma rstrip_forallb (p q : ascii -> bool) (s : str) :
  forallb q s = true -> forallb q (rstrip p s) = true.
Proof.
  induction s as [|c t IH]; [easy|].
  simpl; rewrite andb_true_iff; intros [Hc Ht].
  rewrite rstrip_cons. specialize (IH Ht).
  destruct (rstrip p t) as [|r rs].
  - destruct (p c); simpl; [reflexivity|now rewrite Hc].
  - change (forallb q (c :: r :: rs)) with (q c && forallb q (r :: rs)).
    now rewrite Hc, IH.
Qed.

Lemma rstrip_last (p : ascii -> bool) (s : str) (d : ascii) :
  rstrip p s <> [] -> p (last (rstrip p s) d) = false.
Proof.
  induction s as [|c t IH]; [easy|].
  rewrite rstrip_cons.
  destruct (rstrip p t) as [|r rs] eqn:Hr.
  - destruct (p c) eqn:Hc; [easy|]. intros _. exact Hc.
  - intros _. change (last (c :: r :: rs) d) with (last (r :: rs) d).
    apply IH. discriminate.
Qed.

Lemma rstrip_filter (p q : ascii -> bool) (s : str) :
  (forall c, q c = true -> p c = false) ->
  filter q (rstrip p s) = filter q s.
Proof.
  intros Hpq. induction s as [|c t IH]; [reflexivity|].
  rewrite rstrip_cons.
  destruct (rstrip p t) as [|r rs] eqn:Hr.
  - simpl in IH. simpl. rewrite <- IH.
    destruct (p c) eqn:Hc; simpl.
    + destruct (q c) eqn:Hq; [|reflexivity].
      apply Hpq in Hq. congruence.
    + reflexivity.
  - simpl in *. now rewrite IH.
Qed.

Lemma rstrip_hd (p : ascii -> bool) (c : ascii) (t : str) :
  p c = false -> exists r, rstrip p (c :: t) = c :: r.
Proof.
  intros Hc. rewrite rstrip_cons.
  destruct (rstrip p t) as [|r rs]; [rewrite Hc|]; eauto.
Qed.

Lemma rstrip_no_dotdot (p : ascii -> bool) (s : str) :
  no_dotdot s = true -> no_dotdot (rstrip p s) = true.
Proof.
  induction s as [|c t IH]; [easy|].
  intros H. rewrite rstrip_cons.
  destruct (rstrip p t) as [|r rs] eqn:Hr.
  - destruct (p c); reflexivity.
  - destruct t as [|c2 t']; [discriminate Hr|].
    assert (Hr2 : r = c2).
    { rewrite rstrip_cons in Hr.
      destruct (rstrip p t'); [destruct (p c2)|]; congruence. }
    subst r.
    change (no_dotdot (c :: c2 :: t')) with
      (negb (is_dot c && is_dot c2) && no_dotdot (c2 :: t')) in H.
    apply andb_true_iff in H as [H1 H2].
    change (no_dotdot (c :: c2 :: rs)) with
      (negb (is_dot c && is_dot c2) && no_dotdot (c2 :: rs)).
    rewrite H1. simpl. apply IH. exact H2.
Qed.

Lemma drop_while_forallb (p q : ascii -> bool) (s : str) :
  forallb q s = true -> forallb q (drop_while p s) = true.
Proof.
  induction s as [|c t IH]; [easy|].
  simpl. intros H. destruct (p c); [|exact H].
  apply andb_true_iff in H as [_ H]. auto.
Qed.

Lemma drop_while_filter (p q : ascii -> bool) (s : str) :
  (forall c, q c = true -> p c = false) ->
  filter q (drop_while p s) = filter q s.
Proof.
  intros Hpq. induction s as [|c t IH]; [reflexivity|].
  simpl. destruct (p c) eqn:Hc; [|reflexivity].
  destruct (q c) eqn:Hq; [apply Hpq in Hq; congruence|exact IH].
Qed.

Lemma drop_while_no_dotdot (p : ascii -> bool) (s : str) :
  no_dotdot s = true -> no_dotdot (drop_while p s) = true.
Proof.
  induction s as [|c t IH]; [easy|].
  intros H. simpl. destruct (p c); [|exact H].
  apply IH. destruct t; [reflexivity|].
  change (no_dotdot (c :: a :: t)) with
    (negb (is_dot c && is_dot a) && no_dotdot (a :: t)) in H.
  now apply andb_true_iff in H as [_ H].
Qed.

Lemma drop_while_hd (p : ascii -> bool) (s : str) :
  match drop_while p s with
  | [] => True
  | c :: _ => p c = false
  end.
Proof.
  induction s as [|c t IH]; simpl; [exact I|].
  destruct (p c) eqn:Hc; [exact IH|exact Hc].
Qed.

(** [sub_runs] leaves the characters outside the class where they are. *)
Lemma sub_runs_filter (p q : ascii -> bool) (b : bool) (s : str) :
  (forall c, q c = true -> p c = false) -> q "."%char = false ->
  filter q (sub_runs p b s) = filter q s.
Proof.
  intros Hpq Hdot. revert b; induction s as [|c t IH]; intros b; [reflexivity|].
  simpl. destruct (p c) eqn:Hc.
  - assert (Hq : q c = false).
    { destruct (q c) eqn:Hq; [apply Hpq in Hq; congruence|reflexivity]. }
    rewrite Hq. destruct b; simpl; [|rewrite Hdot]; apply IH.
  - simpl. now rewrite IH.
Qed.

Lemma sub_runs_forallb (p q : ascii -> bool) (b : bool) (s : str) :
  (forall c, p c = false -> q c = true) -> q "."%char = true ->
  forallb q (sub_runs p b s) = true.
Proof.
  intros Hpq Hdot. revert b; induction s as [|c t IH]; intros b; [reflexivity|].
  simpl. destruct (p c) eqn:Hc.
  - destruct b; simpl; [|rewrite Hdot]; apply IH.
  - simpl. rewrite (Hpq c Hc). apply IH.
Qed.

Lemma sub_runs_dot_forallb (q : ascii -> bool) (b : bool) (s : str) :
  forallb q s = true -> forallb q (sub_runs is_dot b s) = true.
Proof.
  revert b; induction s as [|c t IH]; intros b; [easy|].
  simpl. rewrite andb_true_iff. intros [Hc Ht].
  destruct (is_dot c) eqn:Hd.
  - apply Ascii.eqb_eq in Hd. subst c.
    destruct b; simpl; [|rewrite Hc]; now apply IH.
  - simpl. rewrite Hc. now apply IH.
Qed.

(** After [re.sub(r'\.+', '.', s)] no dot follows a dot. *)
Lemma sub_runs_dot_no_dotdot (s : str) :
  no_dotdot (sub_runs is_dot false s) = true
  /\ no_dotdot ("."%char :: sub_runs is_dot true s) = true.
Proof.
  induction s as [|c t [IH1 IH2]]; [split; reflexivity|].
  simpl sub_runs. destruct (is_dot c) eqn:Hd.
  - split; exact IH2.
  - assert (H : no_dotdot (c :: sub_runs is_dot false t) = true).
    { destruct (sub_runs is_dot false t) as [|x xs] eqn:Hs; [reflexivity|].
      change (no_dotdot (c :: x :: xs)) with
        (negb (is_dot c && is_dot x) && no_dotdot (x :: xs)).
      now rewrite Hd, IH1. }
    split; [exact H|].
    change (negb (is_dot "." && is_dot c) && no_dotdot (c :: sub_runs is_dot false t) = true).
    rewrite Hd, H. now rewrite andb_false_r.
Qed.

Lemma filter_nil_forallb (q : ascii -> bool) (s : str) :
  filter q s = [] <-> forallb (fun c => negb (q c)) s = true.
Proof.
  induction s as [|c t IH]; simpl; [easy|].
  destruct (q c); simpl; [split; discriminate|exact IH].
Qed.

Lemma plain_not_dot (c : ascii) : plain_char c = true -> is_dot c = false.
Proof.
  unfold plain_char. rewrite andb_true_iff, negb_true_iff. tauto.
Qed.

Lemma plain_filename_char (c : ascii) :
  plain_char c = true -> negb (filename_char c) = false.
Proof.
  unfold plain_char. rewrite andb_true_iff. intros [-> _]. reflexivity.
Qed.

(** The letters, digits, hyphens and underscores of the final segment are
    what the cleaning keeps, in their order. *)
Lemma cleaned_plain (url : str) :
  filter plain_char
    (strip is_dot
       (sub_runs is_dot false
          (sub_runs (fun c => negb (filename_char c)) false (final_segment url))))
  = filter plain_char (final_segment url).
Proof.
  unfold strip, lstrip.
  rewrite rstrip_filter by apply plain_not_dot.
  rewrite drop_while_filter by apply plain_not_dot.
  rewrite sub_runs_filter; [|apply plain_not_dot|reflexivity].
  apply sub_runs_filter; [apply plain_filename_char|reflexivity].
Qed.

Lemma safe_filename_unfold (url : str) :
  safe_filename url =
  match strip is_dot
          (sub_runs is_dot false
             (sub_runs (fun c => negb (filename_char c)) false (final_segment url)))
  with
  | [] => Raise ValueError
  | f => Ok f
  end.
Proof.
  unfold safe_filename, final_segment.
  destruct (rpartition "/" (strip is_slash url)) as [[a b] f]. simpl.
  destruct (strip is_dot _); reflexivity.
Qed.

(** A string of dots only is stripped to nothing. *)
Lemma strip_all (p : ascii -> bool) (s : str) :
  forallb p s = true -> strip p s = [].
Proof.
  intros H. unfold strip, lstrip.
  assert (Hd : drop_while p s = []).
  { induction s as [|c t IH]; [reflexivity|].
    simpl in *. apply andb_true_iff in H as [-> H]. auto. }
  now rewrite Hd.
Qed.

Lemma plain_free_only_dots (s : str) :
  forallb filename_char s = true -> filter plain_char s = [] ->
  forallb is_dot s = true.
Proof.
  induction s as [|c t IH]; [easy|].
  simpl. rewrite andb_true_iff. intros [Hc Ht].
  unfold plain_char at 1. rewrite Hc. simpl.
  destruct (is_dot c); simpl; [auto|discriminate].
Qed.

Lemma cleaned_filename_chars (s : str) :
  forallb filename_char
    (strip is_dot
       (sub_runs is_dot false (sub_runs (fun c => negb (filename_char c)) false s)))
  = true.
Proof.
  unfold strip, lstrip.
  apply rstrip_forallb, drop_while_forallb, sub_runs_dot_forallb.
  apply sub_runs_forallb; [|reflexivity].
  intros c Hc. now apply negb_false_iff in Hc.
Qed.

Lemma rsplit1_forallb (q : ascii -> bool) (c : ascii) (s h t : str) :
  rsplit1 c s = Some (h, t) -> forallb q s = true -> forallb q t = true.
Proof.
  revert h t; induction s as [|x s IH]; intros h t; [discriminate|].
  simpl. intros H Hq. apply andb_true_iff in Hq as [_ Hq].
  destruct (rsplit1 c s) as [[h' t']|].
  - injection H as <- <-. eauto.
  - destruct (Ascii.eqb x c); [|discriminate].
    injection H as <- <-. exact Hq.
Qed.

Lemma final_segment_forallb (q : ascii -> bool) (url : str) :
  forallb q url = true -> forallb q (final_segment url) = true.
Proof.
  intros H. unfold final_segment, rpartition.
  assert (Hs : forallb q (strip is_slash url) = true).
  { unfold strip, lstrip. now apply rstrip_forallb, drop_while_forallb. }
  destruct (rsplit1 "/" (strip is_slash url)) as [[h t]|] eqn:Hr; simpl.
  - eapply rsplit1_forallb; eauto.
  - exact Hs.
Qed.

Lemma separators_no_plain (s : str) :
  forallb separator_char s = true -> filter plain_char s = [].
Proof.
  induction s as [|c t IH]; [easy|].
  simpl. rewrite andb_true_iff. intros [Hc Ht]. rewrite (IH Ht).
  assert (Hp : plain_char c = false); [|now rewrite Hp].
  unfold separator_char in Hc. unfold plain_char.
  destruct (filename_char c) eqn:Hf; [|reflexivity].
  destruct (is_dot c) eqn:Hd; [reflexivity|].
  rewrite orb_false_r in Hc. simpl in Hc. rewrite orb_false_r in Hc.
  unfold is_slash in Hc. apply Ascii.eqb_eq in Hc. subst c. discriminate.
Qed.

(** The two substitutions together: every maximal run of characters that are
    no letter, digit, hyphen or underscore becomes one dot. *)
Lemma sub_runs_twice (b b' : bool) (s : str) :
  (b' = true -> b = true) ->
  sub_runs is_dot b (sub_runs (fun c => negb (filename_char c)) b' s)
  = sub_runs (fun c => negb (plain_char c)) b s.
Proof.
  revert b b'. induction s as [|c s IH]; intros b b' Hb; [reflexivity|].
  cbn [sub_runs]. unfold plain_char at 1.
  destruct (filename_char c) eqn:Hf; cbn [negb andb].
  - cbn [sub_runs]. destruct (is_dot c) eqn:Hd; cbn [negb].
    + rewrite (IH true false) by discriminate. reflexivity.
    + now rewrite (IH false false).
  - destruct b'.
    + rewrite (Hb eq_refl). now apply IH.
    + cbn [sub_runs]. change (is_dot ".") with true. cbn iota.
      rewrite (IH true true) by reflexivity. reflexivity.
Qed.

Lemma sub_runs_plain_hd (s : str) :
  match sub_runs (fun c => negb (plain_char c)) true s with
  | [] => True
  | c :: _ => is_dot c = false
  end.
Proof.
  induction s as [|c s IH]; [exact I|].
  cbn [sub_runs]. destruct (plain_char c) eqn:Hp; cbn [negb]; [|exact IH].
  now apply plain_not_dot.
Qed.

Lemma lstrip_sub_runs_plain (s : str) :
  drop_while is_dot (sub_runs (fun c => negb (plain_char c)) false s)
  = sub_runs (fun c => negb (plain_char c)) true s.
Proof.
  destruct s as [|c s]; [reflexivity|].
  cbn [sub_runs]. destruct (plain_char c) eqn:Hp; cbn [negb].
  - cbn [drop_while]. now rewrite (plain_not_dot c Hp).
  - cbn [drop_while]. change (is_dot ".") with true. cbn iota.
    pose proof (sub_runs_plain_hd s) as Hhd.
    destruct (sub_runs _ true s) as [|x xs]; [reflexivity|].
    cbn [drop_while]. now rewrite Hhd.
Qed.

Lemma plain_runs_hd (s : str) :
  match plain_runs s with
  | [] => True
  | r :: _ => r <> []
  end.
Proof.
  induction s as [|c s IH]; [exact I|].
  cbn [plain_runs]. destruct (plain_char c); [|exact IH].
  destruct (plain_runs s) as [|r rs]; [discriminate|].
  destruct (match s with [] => false | c' :: _ => plain_char c' end); discriminate.
Qed.

Lemma py_join_nil (sep : str) (runs : list str) :
  match runs with [] => True | r :: _ => r <> [] end ->
  (py_join sep runs = [] <-> runs = []).
Proof.
  destruct runs as [|r rs]; [tauto|]. intros Hr. split; [|discriminate].
  destruct rs; cbn [py_join]; destruct r; try contradiction; discriminate.
Qed.

Lemma py_join_cons_char (sep : str) (c : ascii) (r : str) (rs : list str) :
  py_join sep ((c :: r) :: rs) = c :: py_join sep (r :: rs).
Proof. destruct rs; reflexivity. Qed.

(** Between runs of letters, digits, hyphens and underscores the cleaning
    leaves one dot, and none before the first or after the last. *)
Lemma cleaned_runs (s : str) :
  rstrip is_dot (sub_runs (fun c => negb (plain_char c)) true s)
  = py_join (py ".") (plain_runs s).
Proof.
  induction s as [|c s IH]; [reflexivity|].
  cbn [sub_runs plain_runs]. destruct (plain_char c) eqn:Hp; cbn [negb]; [|exact IH].
  rewrite rstrip_cons, (plain_not_dot c Hp).
  pose proof (plain_runs_hd s) as Hhd.
  destruct s as [|c' s']; [reflexivity|].
  cbn [sub_runs] in IH |- *.
  destruct (plain_char c') eqn:Hp'; cbn [negb] in IH |- *.
  - rewrite IH.
    destruct (plain_runs (c' :: s')) as [|r rs] eqn:Hruns.
    + exfalso. cbn [plain_runs] in Hruns. rewrite Hp' in Hruns.
      destruct (plain_runs s'); [discriminate|].
      destruct (match s' with [] => false | c'' :: _ => plain_char c'' end);
        discriminate.
    + rewrite py_join_cons_char.
      destruct (py_join (py ".") (r :: rs)) eqn:Hj; [|reflexivity].
      apply (py_join_nil (py ".") (r :: rs) Hhd) in Hj. discriminate.
  - rewrite rstrip_cons, IH. change (is_dot ".") with true. cbn iota.
    destruct (plain_runs (c' :: s')) as [|r rs] eqn:Hruns; [reflexivity|].
    destruct (py_join (py ".") (r :: rs)) eqn:Hj.
    + apply (py_join_nil (py ".") (r :: rs) Hhd) in Hj. discriminate.
    + rewrite <- Hj. reflexivity.
Qed.

(** [safe_filename] joins the runs of letters, digits, hyphens and
    underscores of the final segment by single dots. *)
Lemma safe_filename_runs (url : str) :
  safe_filename url =
  match plain_runs (final_segment url) with
  | [] => Raise ValueError
  | runs => Ok (py_join (py ".") runs)
  end.
Proof.
  rewrite safe_filename_unfold.
  rewrite (@sub_runs_twice false false _) by discriminate.
  unfold strip, lstrip. rewrite lstrip_sub_runs_plain, cleaned_runs.
  pose proof (plain_runs_hd (final_segment url)) as Hhd.
  destruct (plain_runs (final_segment url)) as [|r rs] eqn:Hruns; [reflexivity|].
  destruct (py_join (py ".") (r :: rs)) eqn:Hj; [|reflexivity].
  apply (py_join_nil (py ".") (r :: rs) Hhd) in Hj. discriminate.
Qed.

(** C10.  [safe_filename] keeps of a URL's final path segment the letters,
    digits, hyphens and underscores, in their order, with single dots between
    them: the result is not empty, holds file name characters only, has no
    two dots in a row and no dot at either end.  It is the runs of letters,
    digits, hyphens and underscores of the segment joined by one dot each:
    every run of other characters and dots between two of them has become a
    single dot, and the runs before the first and after the last are gone.
    It raises [ValueError], and nothing else, exactly when the segment holds
    no letter, digit, hyphen or underscore; so it fails on every input made
    of separators only.  The three documented inputs give the documented
    results. *)
Theorem safe_filename_sanitizes (url : str) :
  match safe_filename url with
  | Ok f =>
      f <> []
      /\ forallb filename_char f = true
      /\ no_dotdot f = true
      /\ is_dot (hd "x"%char f) = false
      /\ is_dot (last f "x"%char) = false
      /\ filter plain_char f = filter plain_char (final_segment url)
      /\ filter plain_char (final_segment url) <> []
  | Raise e =>
      e = ValueError /\ filter plain_char (final_segment url) = []
  end
  /\ safe_filename url
     = match plain_runs (final_segment url) with
       | [] => Raise ValueError
       | runs => Ok (py_join (py ".") runs)
       end
  /\ (forallb separator_char url = true -> safe_filename url = Raise ValueError)
  /\ safe_filename (py "https://host/path/google_appengine_1.9.57.zip")
     = Ok (py "google_appengine_1.9.57.zip")
  /\ safe_filename (py "foo/../../..bar..zip..") = Ok (py "bar.zip")
  /\ safe_filename (py "host/SDK 1.9 (new)..zip") = Ok (py "SDK.1.9.new.zip")
  /\ safe_filename (py "..") = Raise ValueError
  /\ safe_filename (py "///") = Raise ValueError.
Proof.
  assert (Hmain :
    match safe_filename url with
    | Ok f =>
        f <> [] /\ forallb filename_char f = true /\ no_dotdot f = true
        /\ is_dot (hd "x"%char f) = false /\ is_dot (last f "x"%char) = false
        /\ filter plain_char f = filter plain_char (final_segment url)
        /\ filter plain_char (final_segment url) <> []
    | Raise e => e = ValueError /\ filter plain_char (final_segment url) = []
    end).
  { rewrite safe_filename_unfold.
    pose proof (cleaned_plain url) as Hplain.
    pose proof (cleaned_filename_chars (final_segment url)) as Hchars.
    set (raw := sub_runs is_dot false
                  (sub_runs (fun c => negb (filename_char c)) false
                     (final_segment url))) in *.
    assert (Hnd : no_dotdot (strip is_dot raw) = true).
    { unfold strip, lstrip. apply rstrip_no_dotdot, drop_while_no_dotdot.
      apply sub_runs_dot_no_dotdot. }
    assert (Hhd : strip is_dot raw <> [] ->
                  is_dot (hd "x"%char (strip is_dot raw)) = false).
    { unfold strip, lstrip. pose proof (drop_while_hd is_dot raw) as Hd.
      destruct (drop_while is_dot raw) as [|d ds]; [easy|].
      destruct (@rstrip_hd is_dot d ds Hd) as [r ->]. intros _. exact Hd. }
    assert (Hlast : strip is_dot raw <> [] ->
                    is_dot (last (strip is_dot raw) "x"%char) = false).
    { unfold strip. apply rstrip_last. }
    destruct (strip is_dot raw) as [|c f] eqn:Hf.
    - split; [reflexivity|]. now rewrite <- Hplain.
    - assert (Hne : c :: f <> []) by discriminate.
      repeat split; auto.
      rewrite <- Hplain. specialize (Hhd Hne). simpl in Hhd, Hchars |- *.
      apply andb_true_iff in Hchars as [Hc _].
      unfold plain_char at 1. rewrite Hc, Hhd. discriminate. }
  split; [exact Hmain|].
  split; [apply safe_filename_runs|].
  split.
  - intros Hsep.
    apply final_segment_forallb in Hsep. apply separators_no_plain in Hsep.
    destruct (safe_filename url) as [f|e].
    + destruct Hmain as (_ & _ & _ & _ & _ & _ & Hne). contradiction.
    + destruct Hmain as [-> _]. reflexivity.
  - repeat split; reflexivity.
Qed.

(** ** Versions and their order *)

Lemma cmp_str_antisym (a b : str) : cmp_str b a = CompOpp (cmp_str a b).
Proof.
  revert b; induction a as [|x a IH]; intros [|y b]; simpl; try reflexivity.
  rewrite (N.compare_antisym (code x) (code y)).
  destruct (N.compare (code x) (code y)); simpl; auto.
Qed.

Lemma cmp_component_antisym (a b : component) :
  cmp_component b a = CompOpp (cmp_component a b).
Proof.
  destruct a, b; simpl; try reflexivity.
  - apply N.compare_antisym.
  - apply cmp_str_antisym.
Qed.

Lemma cmp_list_antisym (a b : list component) :
  cmp_list b a = CompOpp (cmp_list a b).
Proof.
  revert b; induction a as [|x a IH]; intros [|y b]; simpl; try reflexivity.
  rewrite (cmp_component_antisym x y).
  destruct (cmp_component x y); simpl; auto.
Qed.

Lemma version_leb_total (a b : str) :
  version_leb a b = false -> version_leb b a = true.
Proof.
  unfold version_leb, cmp_version.
  rewrite (cmp_list_antisym (LooseVersion a) (LooseVersion b)).
  destruct (cmp_list (LooseVersion a) (LooseVersion b)); simpl; congruence.
Qed.

Lemma version_leb_le (a b : str) : version_leb a b = true <-> version_le a b.
Proof.
  unfold version_leb, version_le.
  destruct (cmp_version a b); split; congruence.
Qed.

Lemma insert_version_perm (x : str) (l : list str) :
  Permutation (insert_version x l) (x :: l).
Proof.
  induction l as [|y l IH]; simpl; [reflexivity|].
  destruct (version_leb x y); [reflexivity|].
  rewrite IH. apply perm_swap.
Qed.

Lemma sort_versions_perm (l : list str) : Permutation (sort_versions l) l.
Proof.
  induction l as [|x l IH]; simpl; [reflexivity|].
  rewrite insert_version_perm. now constructor.
Qed.

Lemma insert_version_hd (x a : str) (l : list str) :
  version_le a x -> HdRel version_le a l ->
  HdRel version_le a (insert_version x l).
Proof.
  intros Hax Hl. destruct l as [|y l]; simpl; [now constructor|].
  destruct (version_leb x y); constructor; [exact Hax|].
  now inversion Hl.
Qed.

Lemma insert_version_sorted (x : str) (l : list str) :
  Sorted version_le l -> Sorted version_le (insert_version x l).
Proof.
  induction 1 as [|y l Hs IH Hhd]; simpl.
  - repeat constructor.
  - destruct (version_leb x y) eqn:Hxy.
    + constructor; [now constructor|].
      constructor. now apply version_leb_le.
    + constructor; [exact IH|].
      apply insert_version_hd; [|exact Hhd].
      now apply version_leb_le, version_leb_total.
Qed.

Lemma sort_versions_sorted (l : list str) : Sorted version_le (sort_versions l).
Proof.
  induction l as [|x l IH]; simpl; [constructor|].
  now apply insert_version_sorted.
Qed.

Lemma loose_scan_digits (d acc rest : str) :
  forallb is_digit d = true ->
  loose_scan (RDigits acc) (d ++ rest) = loose_scan (RDigits (rev d ++ acc)) rest.
Proof.
  revert acc; induction d as [|c d IH]; intros acc; [reflexivity|].
  simpl. rewrite andb_true_iff. intros [Hc Hd]. rewrite Hc.
  rewrite (IH (c :: acc) Hd). now rewrite <- app_assoc.
Qed.

Lemma loose_scan_run (d rest : str) :
  digit_run d = true ->
  loose_scan RNone (d ++ rest) = loose_scan (RDigits (rev d)) rest.
Proof.
  destruct d as [|c d]; [discriminate|].
  unfold digit_run. simpl. rewrite andb_true_iff. intros [Hc Hd].
  rewrite Hc. simpl. now rewrite loose_scan_digits.
Qed.

(** A version of dot-separated numbers parses to these numbers. *)
Lemma LooseVersion_dotted (ds : list str) :
  forallb digit_run ds = true ->
  LooseVersion (dotted ds) = map (fun d => CInt (int_of_digits 0 d)) ds.
Proof.
  unfold LooseVersion, dotted.
  induction ds as [|d ds IH]; [reflexivity|].
  simpl forallb. rewrite andb_true_iff. intros [Hd Hds].
  destruct ds as [|d' ds'].
  - simpl py_join. rewrite <- (app_nil_r d) at 1.
    rewrite loose_scan_run by exact Hd. simpl. now rewrite rev_involutive.
  - change (py_join (py ".") (d :: d' :: ds'))
      with (d ++ py "." ++ py_join (py ".") (d' :: ds')).
    rewrite loose_scan_run by exact Hd.
    change (py "." ++ py_join (py ".") (d' :: ds'))
      with ("."%char :: py_join (py ".") (d' :: ds')).
    change (loose_scan (RDigits (rev d)) ("."%char :: py_join (py ".") (d' :: ds')))
      with (flush (RDigits (rev d)) ++ loose_scan RNone (py_join (py ".") (d' :: ds'))).
    rewrite (IH Hds). simpl. now rewrite rev_involutive.
Qed.

Lemma cmp_list_numeric (a b : list N) :
  cmp_list (map CInt a) (map CInt b) = compare_numeric a b.
Proof.
  revert b; induction a as [|x a IH]; intros [|y b]; simpl; try reflexivity.
  destruct (N.compare x y); auto.
Qed.

(** On versions of dot-separated numbers the order of [LooseVersion] is the
    numeric, component-wise one. *)
Lemma cmp_version_dotted (a b : list str) :
  forallb digit_run a = true -> forallb digit_run b = true ->
  cmp_version (dotted a) (dotted b)
  = compare_numeric (map (int_of_digits 0) a) (map (int_of_digits 0) b).
Proof.
  intros Ha Hb. unfold cmp_version.
  rewrite (LooseVersion_dotted a Ha), (LooseVersion_dotted b Hb).
  rewrite <- cmp_list_numeric. now rewrite !map_map.
Qed.

(** ** The installed versions *)

Lemma filter_filter (A : Type) (p q : A -> bool) (l : list A) :
  filter q (filter p l) = filter (fun x => p x && q x) l.
Proof.
  induction l as [|x l IH]; [reflexivity|].
  simpl. destruct (p x); simpl; [|exact IH].
  destruct (q x); [now rewrite IH|exact IH].
Qed.

Lemma installed_versions_walk (E : os_env) (w : world) :
  Env._get_installed_versions E w =
  sort_versions
    match os_listdir (w_fs w) (Env.cache_dir E (w_config w)) with
    | Ok names =>
        filter (holds_sdk (w_fs w) (Env.cache_dir E (w_config w))) names
    | Raise _ => []
    end.
Proof.
  unfold Env._get_installed_versions, os_walk_first.
  destruct (os_listdir (w_fs w) (Env.cache_dir E (w_config w))) as [names|];
    [|reflexivity].
  f_equal. apply filter_filter.
Qed.

Lemma os_listdir_missing (fs : filesystem) (top : str) :
  os_path_exists fs top = false -> exists e, os_listdir fs top = Raise e.
Proof.
  unfold os_path_exists, os_listdir.
  destruct (fs_stat fs top) as [[k n]|e]; [discriminate|]. intros _. now exists e.
Qed.

(** C6.  The installed versions are exactly the names of the cache
    directory's listing that are directories in which something named
    [google_appengine] exists, each as often as it is listed, in ascending
    order of [LooseVersion]: every adjacent pair is in order.  On versions
    written as dot-separated numbers this order is the numeric,
    component-wise one, so 1.9.5 is below 1.9.40, and the versions 9.0.0,
    100.0.0, 1.0.0 on disk are listed as 1.0.0, 9.0.0, 100.0.0.  When the
    cache directory does not exist the result is the empty list.  The cache
    directory and the version directories may be symlinks to directories,
    and the marker need not be a directory. *)
Theorem installed_versions_listed_in_order (E : os_env) (w : world) :
  let fs := w_fs w in
  let cache := Env.cache_dir E (w_config w) in
  let installed := Env._get_installed_versions E w in
  (forall v, In v installed <->
             exists names, os_listdir fs cache = Ok names
                           /\ In v names /\ holds_sdk fs cache v = true)
  /\ (forall names, os_listdir fs cache = Ok names ->
                    Permutation installed (filter (holds_sdk fs cache) names))
  /\ Sorted version_le installed
  /\ (forall a b : list str,
         forallb digit_run a = true -> forallb digit_run b = true ->
         cmp_version (dotted a) (dotted b)
         = compare_numeric (map (int_of_digits 0) a) (map (int_of_digits 0) b))
  /\ cmp_version (py "1.9.5") (py "1.9.40") = Lt
  /\ Env._get_installed_versions (linux_env no_network)
       (start (home_with ["9.0.0"; "100.0.0"; "1.0.0"]%string))
     = [py "1.0.0"; py "9.0.0"; py "100.0.0"]
  /\ Env._get_installed_versions (linux_env no_network) (start linked_cache)
     = [py "1.8.0"; py "1.9.57"]
  /\ (os_path_exists fs cache = false -> installed = []).
Proof.
  intros fs cache installed.
  assert (Hwalk := installed_versions_walk E w).
  fold fs cache installed in Hwalk.
  split; [|split; [|split; [|split; [|split; [|split; [|split]]]]]].
  - intros v. rewrite Hwalk. split.
    + intros Hin.
      apply (Permutation_in _ (sort_versions_perm _)) in Hin.
      destruct (os_listdir fs cache) as [names|]; [|contradiction].
      apply filter_In in Hin. exists names. tauto.
    + intros (names & Hls & Hin & Hsdk). rewrite Hls.
      apply (Permutation_in _ (Permutation_sym (sort_versions_perm _))).
      apply filter_In. tauto.
  - intros names Hls. rewrite Hwalk, Hls. apply sort_versions_perm.
  - rewrite Hwalk. apply sort_versions_sorted.
  - apply cmp_version_dotted.
  - reflexivity.
  - vm_compute. reflexivity.
  - vm_compute. reflexivity.
  - intros Hnone. rewrite Hwalk.
    destruct (os_listdir_missing fs cache Hnone) as [e ->]. reflexivity.
Qed.

(** With the cache directory a symlink, version 1.8.0 a symlink to a
    directory and its marker a regular file, both versions are listed, and
    each holds the marker. *)
Lemma installed_versions_listed_in_order_witness :
  holds_sdk (w_fs (start linked_cache))
    (Env.cache_dir (linux_env no_network) (w_config (start linked_cache)))
    (py "1.8.0") = true
  /\ holds_sdk (w_fs (start linked_cache))
       (Env.cache_dir (linux_env no_network) (w_config (start linked_cache)))
       (py "1.9.57") = true.
Proof.
  destruct (installed_versions_listed_in_order (linux_env no_network)
              (start linked_cache)) as (Hiff & _ & _ & _ & _ & _ & Hlisted & _).
  split.
  - destruct (proj1 (Hiff (py "1.8.0"))) as (names & _ & _ & H); [|exact H].
    rewrite Hlisted. left. reflexivity.
  - destruct (proj1 (Hiff (py "1.9.57"))) as (names & _ & _ & H); [|exact H].
    rewrite Hlisted. right. left. reflexivity.
Defined.

(** A version directory whose [google_appengine] is a regular file is listed
    as installed: the marker is no directory. *)
Lemma installed_without_a_marker_directory :
  let E := linux_env no_network in
  let marker := py "/home/foo/.sdkswitcher/1.9.57/google_appengine" in
  let fs := fresh_home ++ [ (py "/home/foo/.sdkswitcher", NDir);
                            (py "/home/foo/.sdkswitcher/1.9.57", NDir);
                            (marker, NFile [] 420) ] in
  os_path_isdir fs marker = false
  /\ Env._get_installed_versions E (start fs) = [py "1.9.57"].
Proof. split; vm_compute; reflexivity. Qed.

(** ** Version resolution *)

Ltac run :=
  unfold bind, ret, raise, gets, lift, read_fs, try_except in *; simpl in *.

Lemma strip_prefix_app (pat s r : str) :
  strip_prefix pat s = Some r <-> s = pat ++ r.
Proof.
  revert s; induction pat as [|x pat IH]; intros s; simpl.
  - split; intros H; [now injection H as ->|now subst].
  - destruct s as [|y s]; [split; discriminate|].
    destruct (Ascii.eqb x y) eqn:Hxy.
    + apply Ascii.eqb_eq in Hxy. subst y. rewrite IH.
      split; intros H; [now subst|now injection H].
    + apply Ascii.eqb_neq in Hxy. split; [discriminate|].
      intros H. injection H as -> _. contradiction.
Qed.

(** The search of an escaped pattern finds it as a substring. *)
Lemma re_search_escaped_substring (pat s : str) :
  re_search_escaped pat s = true <-> exists pre post, s = pre ++ pat ++ post.
Proof.
  induction s as [|c s IH].
  - simpl. rewrite orb_false_r. unfold startswith.
    destruct (strip_prefix pat []) as [r|] eqn:Hr.
    + apply strip_prefix_app in Hr. split; [|reflexivity].
      intros _. now exists [], r.
    + split; [discriminate|]. intros (pre & post & H).
      symmetry in H. apply app_eq_nil in H as [-> H].
      assert (Hs : strip_prefix pat [] = Some post) by now apply strip_prefix_app.
      congruence.
  - change (re_search_escaped pat (c :: s))
      with (startswith pat (c :: s) || re_search_escaped pat s).
    rewrite orb_true_iff, IH. unfold startswith. split.
    + intros [H|(pre & post & ->)].
      * destruct (strip_prefix pat (c :: s)) as [r|] eqn:Hr; [|discriminate].
        apply strip_prefix_app in Hr. now exists [], r.
      * now exists (c :: pre), post.
    + intros (pre & post & H). destruct pre as [|x pre].
      * left. simpl in H.
        assert (Hs : strip_prefix pat (c :: s) = Some post)
          by now apply strip_prefix_app.
        now rewrite Hs.
      * right. injection H as _ ->. now exists pre, post.
Qed.

Lemma resolve_version_fragment (E : os_env) (w : world) (tok : str) :
  tok <> SDK_VERSION_LATEST -> SDK_VERSION_PATTERN_match tok = false ->
  Env._resolve_version E (Some tok) w =
  match filter (re_search_escaped tok) (Env._get_installed_versions E w) with
  | [m] => (Ok (Some m), w)
  | _ => (Raise BadVersionString, w)
  end.
Proof.
  intros Hlatest Hstrict. unfold Env._resolve_version.
  apply str_eqb_neq in Hlatest. rewrite Hlatest, Hstrict. run.
  destruct (filter _ _) as [|m [|m' ms]]; reflexivity.
Qed.

(** C7.  A token that is neither [latest] nor a match of the strict pattern
    is searched as a substring in the installed versions: the versions kept
    are the installed ones that contain the token; when exactly one is kept
    it is the result, and when none or several are kept the resolution
    raises [BadVersionString].  The world is left as it was. *)
Theorem resolve_fragment_unique_match (E : os_env) (w : world) (tok : str) :
  tok <> SDK_VERSION_LATEST -> SDK_VERSION_PATTERN_match tok = false ->
  let installed := Env._get_installed_versions E w in
  let matching := filter (re_search_escaped tok) installed in
  (forall v, In v matching <->
             In v installed /\ exists pre post, v = pre ++ tok ++ post)
  /\ (forall m, matching = [m] ->
                Env._resolve_version E (Some tok) w = (Ok (Some m), w))
  /\ (List.length matching <> 1 ->
      Env._resolve_version E (Some tok) w = (Raise BadVersionString, w)).
Proof.
  intros Hlatest Hstrict installed matching.
  pose proof (resolve_version_fragment E w Hlatest Hstrict) as Hres.
  fold installed matching in Hres.
  split; [|split].
  - intros v. unfold matching. rewrite filter_In.
    now rewrite re_search_escaped_substring.
  - intros m Hm. now rewrite Hres, Hm.
  - intros Hlen. rewrite Hres.
    destruct matching as [|m [|m' ms]]; try reflexivity.
    now contradiction Hlen.
Qed.

(** With 1.9.57 installed the token 57 resolves to it; with 1.9.57 and 1.8.57
    installed the token 57 is ambiguous. *)
Lemma resolve_fragment_unique_match_witness :
  Env._resolve_version (linux_env no_network) (Some (py "57"))
    (start (home_with ["1.9.57"]%string))
  = (Ok (Some (py "1.9.57")), start (home_with ["1.9.57"]%string))
  /\ Env._resolve_version (linux_env no_network) (Some (py "57"))
       (start (home_with ["1.9.57"; "1.8.57"]%string))
     = (Raise BadVersionString, start (home_with ["1.9.57"; "1.8.57"]%string)).
Proof.
  split.
  - apply (resolve_fragment_unique_match (linux_env no_network)
             (start (home_with ["1.9.57"]%string)) (tok := py "57")).
    + discriminate.
    + reflexivity.
    + vm_compute. reflexivity.
  - apply (resolve_fragment_unique_match (linux_env no_network)
             (start (home_with ["1.9.57"; "1.8.57"]%string)) (tok := py "57")).
    + discriminate.
    + reflexivity.
    + vm_compute. discriminate.
Defined.

(** A resolution that raises [BadVersionString] has changed nothing. *)
Lemma resolve_version_invalid (E : os_env) (w : world) (tok : pyval) :
  fst (Env._resolve_version E tok w) = Raise BadVersionString ->
  Env._resolve_version E tok w = (Raise BadVersionString, w).
Proof.
  destruct tok as [v|]; [|discriminate].
  unfold Env._resolve_version.
  destruct (str_eqb v SDK_VERSION_LATEST).
  - unfold Env._check, urlopen. run.
    destruct (network E SDK_VERSION_CHECK_URL); discriminate.
  - destruct (SDK_VERSION_PATTERN_match v); [discriminate|]. run.
    destruct (filter _ _) as [|m [|m' ms]]; try reflexivity. discriminate.
Qed.

(** C9.  When the resolution of a command's version token raises
    [BadVersionString], each of activate, download, install and remove raises
    it too and leaves the world as it was: the file system (symlink, cache
    directory, saved configuration), the configuration object, the output
    and the network log are unchanged. *)
Theorem invalid_version_changes_nothing (E : os_env) (w : world) (tok : pyval) :
  fst (Env._resolve_version E tok w) = Raise BadVersionString ->
  Env.activate E tok w = (Raise BadVersionString, w)
  /\ Env.download E tok w = (Raise BadVersionString, w)
  /\ Env.install E tok w = (Raise BadVersionString, w)
  /\ Env.remove E tok w = (Raise BadVersionString, w).
Proof.
  intros H. apply resolve_version_invalid in H.
  unfold Env.activate, Env._activate, Env.download, Env.install, Env.remove, bind.
  rewrite H. repeat split; reflexivity.
Qed.

(** With 1.9.57 and 1.8.57 installed, no command that is given the token 57
    changes anything. *)
Lemma invalid_version_changes_nothing_witness :
  let E := linux_env no_network in
  let w := start (home_with ["1.9.57"; "1.8.57"]%string ++ [link_to "1.8.57"]) in
  fst (Env._resolve_version E (Some (py "57")) w) = Raise BadVersionString
  /\ Env.activate E (Some (py "57")) w = (Raise BadVersionString, w)
  /\ Env.download E (Some (py "57")) w = (Raise BadVersionString, w)
  /\ Env.install E (Some (py "57")) w = (Raise BadVersionString, w)
  /\ Env.remove E (Some (py "57")) w = (Raise BadVersionString, w).
Proof.
  split; [vm_compute; reflexivity|].
  apply invalid_version_changes_nothing. vm_compute. reflexivity.
Defined.

(** ** The update check *)

(** C1.  For the token [latest] the resolution is the update check itself,
    so its result is the check's result, unchanged.  The check returns [None]
    when no line of the answer matches, and the resolution returns this
    [None] as its result instead of raising: after an answer without a
    [release] line, [download latest] goes on to request the archive of a
    version named [None]. *)
Theorem latest_is_the_update_check :
  (forall E w, Env._resolve_version E (Some SDK_VERSION_LATEST) w = Env._check E w)
  /\ (forall E w, fst (Env._check E w) =
                  match network E SDK_VERSION_CHECK_URL with
                  | Response body => Ok (Env.first_release (readlines body))
                  | HTTPFailure status => Raise (HTTPError status)
                  | Unreachable => Raise URLError
                  end)
  /\ Env.first_release (readlines (py "release: " ++ [dquote] ++ py "1.9.57"
                                     ++ [dquote; LF] ++ check_without_release))
     = Some (py "1.9.57")
  /\ Env.first_release (readlines check_without_release) = None
  /\ (let E := linux_env (serve [(SDK_VERSION_CHECK_URL, Response check_without_release)]) in
      fst (Env._resolve_version E (Some SDK_VERSION_LATEST) (start fresh_home)) = Ok None
      /\ w_requests (snd (Env.download E (Some SDK_VERSION_LATEST) (start fresh_home)))
         = [SDK_VERSION_CHECK_URL;
            py "https://storage.googleapis.com/appengine-sdks/featured/google_appengine_None.zip"]).
Proof.
  split; [|split; [|split; [|split; [|split]]]].
  - reflexivity.
  - intros E w. unfold Env._check, urlopen. run.
    destruct (network E SDK_VERSION_CHECK_URL); reflexivity.
  - vm_compute. reflexivity.
  - vm_compute. reflexivity.
  - vm_compute. reflexivity.
  - vm_compute. reflexivity.
Qed.

(** ** Download *)

Arguments open_w : simpl never.
Arguments safe_filename : simpl never.
Arguments mkstemp : simpl never.

(** The requests and the outcome of [_download] follow the answer to the
    first request. *)
Lemma download_requests (E : os_env) (w : world) (v : str) :
  let primary := Env._sdk_url (Some v) in
  let deprecated := SDK_OLD_DOWNLOAD_URL (remove_char "." v) v in
  let after := Env._download E (Some v) w in
  match network E primary with
  | Response _ => w_requests (snd after) = w_requests w ++ [primary]
  | HTTPFailure _ =>
      w_requests (snd after) = w_requests w ++ [primary; deprecated]
      /\ match network E deprecated with
         | Response _ => True
         | HTTPFailure status => fst after = Raise (HTTPError status)
         | Unreachable => fst after = Raise URLError
         end
  | Unreachable =>
      w_requests (snd after) = w_requests w ++ [primary]
      /\ fst after = Raise URLError
  end.
Proof.
  intros primary deprecated after. subst after.
  unfold Env._download.
  change (Env._sdk_url (Some v)) with primary.
  change (Env._sdk_url_deprecated (Some v)) with (Ok deprecated).
  clearbody primary deprecated.
  unfold urlopen, update_fs. run.
  destruct (network E primary) as [body|status|]; simpl.
  - destruct (safe_filename primary); simpl; [|reflexivity].
    destruct (mkstemp E a (w_fs w)) as [[name fs']|]; simpl; [|reflexivity].
    destruct (open_w 40 name body fs'); reflexivity.
  - rewrite <- app_assoc. simpl.
    destruct (network E deprecated) as [body| |]; simpl; auto.
    split; [|exact I].
    destruct (safe_filename deprecated); simpl; [|reflexivity].
    destruct (mkstemp E a (w_fs w)) as [[name fs']|]; simpl; [|reflexivity].
    destruct (open_w 40 name body fs'); reflexivity.
  - auto.
Qed.

(** C3.  A first request that fails with an HTTP error, whatever its status,
    is followed by exactly one request to the deprecated URL (the version
    without its dots as a path segment, the dotted version in the file name);
    a failure of that second request is raised with no further request.  A
    first request that succeeds, or that does not reach the endpoint, is the
    only request; the unreachable endpoint raises [URLError]. *)
Theorem download_falls_back_on_any_http_error (E : os_env) (w : world) (v : str) :
  let primary := Env._sdk_url (Some v) in
  let deprecated :=
    py "https://storage.googleapis.com/appengine-sdks/deprecated/"
    ++ remove_char "." v ++ py "/google_appengine_" ++ v ++ py ".zip" in
  let after := Env._download E (Some v) w in
  Env._sdk_url_deprecated (Some v) = Ok deprecated
  /\ match network E primary with
     | Response _ => w_requests (snd after) = w_requests w ++ [primary]
     | HTTPFailure _ =>
         w_requests (snd after) = w_requests w ++ [primary; deprecated]
         /\ match network E deprecated with
            | Response _ => True
            | HTTPFailure status => fst after = Raise (HTTPError status)
            | Unreachable => fst after = Raise URLError
            end
     | Unreachable =>
         w_requests (snd after) = w_requests w ++ [primary]
         /\ fst after = Raise URLError
     end.
Proof.
  split; [reflexivity|]. apply download_requests.
Qed.

(** A status other than 404 of the first request is not raised: after a 500
    of the featured archive the deprecated archive is requested and saved. *)
Lemma download_falls_back_on_500 :
  let E := linux_env featured_down in
  let after := Env._download E (Some (py "1.8.0")) (start fresh_home) in
  network E (Env._sdk_url (Some (py "1.8.0"))) = HTTPFailure 500
  /\ fst after = Ok (py "/tmp/tmpQ3xZ1kgoogle_appengine_1.8.0.zip")
  /\ w_requests (snd after)
     = [ py "https://storage.googleapis.com/appengine-sdks/featured/google_appengine_1.8.0.zip";
         py "https://storage.googleapis.com/appengine-sdks/deprecated/180/google_appengine_1.8.0.zip" ]
  /\ fs_lookup (py "/tmp/tmpQ3xZ1kgoogle_appengine_1.8.0.zip") (w_fs (snd after))
     = Some (NFile (py "PK") 384).
Proof. vm_compute. repeat split; reflexivity. Qed.

(** ** Paths *)

Arguments Ascii.eqb : simpl never.

Lemma rsplit1_none (c : ascii) (s : str) :
  forallb (fun x => negb (Ascii.eqb x c)) s = true -> rsplit1 c s = None.
Proof.
  induction s as [|x s IH]; [reflexivity|].
  simpl. rewrite andb_true_iff, negb_true_iff. intros [Hx Hs].
  now rewrite (IH Hs), Hx.
Qed.

Lemma rsplit1_last (c : ascii) (h t : str) :
  forallb (fun x => negb (Ascii.eqb x c)) t = true ->
  rsplit1 c (h ++ c :: t) = Some (h, t).
Proof.
  intros Ht. induction h as [|x h IH]; simpl.
  - now rewrite (@rsplit1_none c t Ht), Ascii.eqb_refl.
  - now rewrite IH.
Qed.

Lemma endswith_slash_snoc (s : str) (x : ascii) :
  endswith (py "/") (s ++ [x]) = is_slash x.
Proof.
  unfold endswith, startswith. rewrite rev_app_distr.
  change (rev (py "/")) with ["/"%char].
  change (rev [x] ++ rev s) with (x :: rev s).
  change (strip_prefix ["/"%char] (x :: rev s))
    with (if Ascii.eqb "/" x then Some (rev s) else None).
  unfold is_slash. rewrite (Ascii.eqb_sym "/" x).
  now destruct (Ascii.eqb x "/").
Qed.

Lemma endswith_slash_inv (s : str) :
  endswith (py "/") s = true -> exists s', s = s' ++ py "/".
Proof.
  destruct (rev s) as [|x r] eqn:Hr.
  - apply (f_equal (@rev ascii)) in Hr. rewrite rev_involutive in Hr.
    now subst s.
  - apply (f_equal (@rev ascii)) in Hr. rewrite rev_involutive in Hr.
    simpl in Hr. subst s. rewrite endswith_slash_snoc. unfold is_slash.
    intros Hx. apply Ascii.eqb_eq in Hx. subst x. now exists (rev r).
Qed.

Lemma rstrip_snoc (p : ascii -> bool) (s : str) (x : ascii) :
  rstrip p (s ++ [x]) = if p x then rstrip p s else s ++ [x].
Proof.
  unfold rstrip. rewrite rev_app_distr. simpl.
  destruct (p x); [reflexivity|].
  simpl. now rewrite rev_involutive.
Qed.

Lemma no_slash_startswith (v : str) :
  no_slash v = true -> startswith (py "/") v = false.
Proof.
  destruct v as [|c v]; [reflexivity|].
  unfold no_slash, startswith, is_slash. simpl.
  rewrite andb_true_iff, negb_true_iff. intros [Hc _].
  rewrite (Ascii.eqb_sym "/" c). now rewrite Hc.
Qed.

Lemma no_slash_last (v : str) :
  v <> [] -> no_slash v = true ->
  exists v' x, v = v' ++ [x] /\ is_slash x = false.
Proof.
  intros Hne Hv. destruct (exists_last Hne) as (v' & x & ->).
  exists v', x. split; [reflexivity|].
  unfold no_slash in Hv. rewrite forallb_app in Hv.
  apply andb_true_iff in Hv as [_ Hx]. simpl in Hx.
  rewrite andb_true_r in Hx. now apply negb_true_iff.
Qed.

Lemma snd_os_path_split (p : str) : snd (os_path_split p) = os_path_basename p.
Proof.
  unfold os_path_split, os_path_basename.
  destruct (rsplit1 "/" p) as [[h t]|]; reflexivity.
Qed.

(** Joining a segment to a path appends it after a slash, unless the path is
    empty or ends in one. *)
Lemma os_path_join2_segment (cache v : str) :
  no_slash v = true ->
  exists q, os_path_join2 cache v = q ++ v
            /\ (q = [] \/ exists q', q = q' ++ py "/").
Proof.
  intros Hv. unfold os_path_join2. rewrite (@no_slash_startswith v Hv).
  destruct (str_eqb cache []) eqn:Hnil; cbn [orb].
  - apply str_eqb_eq in Hnil. subst cache. exists []. auto.
  - destruct (endswith (py "/") cache) eqn:Hend.
    + exists cache. split; [reflexivity|]. right.
      now apply endswith_slash_inv.
    + exists (cache ++ py "/"). split; [now rewrite <- app_assoc|].
      right. now exists cache.
Qed.

Lemma os_path_basename_segment (q v : str) :
  no_slash v = true -> (q = [] \/ exists q', q = q' ++ py "/") ->
  os_path_basename (q ++ v) = v.
Proof.
  intros Hv Hq. unfold os_path_basename.
  assert (Hv' : forallb (fun x => negb (Ascii.eqb x "/")) v = true) by exact Hv.
  destruct Hq as [->|[q' ->]].
  - simpl. now rewrite (@rsplit1_none "/" v Hv').
  - rewrite <- app_assoc. simpl. now rewrite (@rsplit1_last "/" q' v Hv').
Qed.

(** The target of an activation splits into the version's directory and the
    marker, and the name of that directory is the version. *)
Lemma activation_target (cache v : str) :
  v <> [] -> no_slash v = true ->
  let target := os_path_join cache [v; google_appengine] in
  os_path_split target = (os_path_join2 cache v, google_appengine)
  /\ os_path_basename (os_path_join2 cache v) = v.
Proof.
  intros Hne Hv target.
  destruct (@os_path_join2_segment cache v Hv) as (q & Hjoin & Hq).
  split; [|rewrite Hjoin; now apply os_path_basename_segment].
  destruct (@no_slash_last _ Hne Hv) as (v' & x & -> & Hx).
  unfold target. simpl. rewrite Hjoin.
  set (p := q ++ v' ++ [x]).
  assert (Hp : p = (q ++ v') ++ [x]) by (unfold p; now rewrite app_assoc).
  assert (Hjoin2 : os_path_join2 p google_appengine = p ++ "/"%char :: google_appengine).
  { unfold os_path_join2.
    change (startswith (py "/") google_appengine) with false. cbv iota.
    rewrite Hp at 1 2. rewrite endswith_slash_snoc, Hx.
    destruct (str_eqb ((q ++ v') ++ [x]) []) eqn:Hnil.
    - apply str_eqb_eq in Hnil. now destruct (q ++ v').
    - reflexivity. }
  rewrite Hjoin2. unfold os_path_split.
  rewrite rsplit1_last by reflexivity.
  assert (Hall : forallb is_slash (p ++ py "/") = false).
  { rewrite Hp, !forallb_app. simpl. rewrite Hx.
    now rewrite andb_false_r. }
  rewrite Hall.
  change (p ++ py "/") with (p ++ ["/"%char]).
  rewrite rstrip_snoc. change (is_slash "/") with true. cbv iota.
  rewrite Hp, rstrip_snoc, Hx. reflexivity.
Qed.

(** ** The strict version pattern *)

Lemma take_drop_while (p : ascii -> bool) (s : str) :
  take_while p s ++ drop_while p s = s.
Proof.
  induction s as [|c s IH]; [reflexivity|].
  simpl. destruct (p c); [simpl; now rewrite IH|reflexivity].
Qed.

Lemma take_while_forallb (p : ascii -> bool) (s : str) :
  forallb p (take_while p s) = true.
Proof.
  induction s as [|c s IH]; [reflexivity|].
  simpl. destruct (p c) eqn:Hc; [simpl; now rewrite Hc|reflexivity].
Qed.

Lemma digits1_shape (s r : str) :
  digits1 s = Some r ->
  exists d, s = d ++ r /\ d <> [] /\ forallb is_digit d = true.
Proof.
  unfold digits1. intros H. exists (take_while is_digit s).
  pose proof (take_drop_while is_digit s) as Happ.
  pose proof (take_while_forallb is_digit s) as Hd.
  destruct (take_while is_digit s) as [|c d]; [discriminate|].
  injection H as <-. repeat split; [now symmetry|discriminate|exact Hd].
Qed.

Lemma digit_not_slash (c : ascii) : is_digit c = true -> is_slash c = false.
Proof.
  intros Hd. unfold is_slash. destruct (Ascii.eqb c "/") eqn:Hc; [|reflexivity].
  apply Ascii.eqb_eq in Hc. subst c. discriminate.
Qed.

Lemma digits_no_slash (d : str) : forallb is_digit d = true -> no_slash d = true.
Proof.
  unfold no_slash. induction d as [|c d IH]; [reflexivity|].
  simpl. rewrite !andb_true_iff. intros [Hc Hd].
  split; [|auto]. now rewrite (@digit_not_slash c Hc).
Qed.

(** A match of the strict pattern starts with a digit and holds no slash. *)
Lemma strict_version_shape (v : str) :
  SDK_VERSION_PATTERN_match v = true ->
  v <> [] /\ no_slash v = true /\ is_digit (hd "x"%char v) = true.
Proof.
  unfold SDK_VERSION_PATTERN_match. intros H.
  destruct (digits1 v) as [[|c1 r1]|] eqn:H1; try discriminate.
  destruct (Ascii.eqb c1 ".") eqn:Hc1;
    [apply Ascii.eqb_eq in Hc1; subst c1
    |destruct c1 as [[] [] [] [] [] [] [] []]; discriminate].
  destruct (digits1 r1) as [[|c2 r2]|] eqn:H2; try discriminate.
  destruct (Ascii.eqb c2 ".") eqn:Hc2;
    [apply Ascii.eqb_eq in Hc2; subst c2
    |destruct c2 as [[] [] [] [] [] [] [] []]; discriminate].
  destruct (digits1 r2) as [r3|] eqn:H3; try discriminate.
  apply digits1_shape in H1 as (d1 & -> & Hn1 & Hd1).
  apply digits1_shape in H2 as (d2 & -> & Hn2 & Hd2).
  apply digits1_shape in H3 as (d3 & -> & Hn3 & Hd3).
  assert (Hr3 : no_slash r3 = true).
  { apply orb_true_iff in H as [H|H]; apply str_eqb_eq in H; now subst r3. }
  split; [now destruct d1|]. split.
  - assert (Happ : forall a b, no_slash (a ++ b) = no_slash a && no_slash b)
      by (intros; apply forallb_app).
    assert (Hdot : forall s, no_slash ("."%char :: s) = no_slash s)
      by reflexivity.
    rewrite Happ, Hdot, Happ, Hdot, Happ.
    rewrite (@digits_no_slash d1 Hd1), (@digits_no_slash d2 Hd2),
      (@digits_no_slash d3 Hd3), Hr3. reflexivity.
  - destruct d1 as [|c d1]; [contradiction|]. simpl in *.
    now apply andb_true_iff in Hd1 as [Hc _].
Qed.

Lemma strict_version_not_latest (v : str) :
  SDK_VERSION_PATTERN_match v = true -> str_eqb v SDK_VERSION_LATEST = false.
Proof.
  intros H. apply strict_version_shape in H as (_ & _ & Hd).
  apply str_eqb_neq. intros ->. discriminate.
Qed.

(** ** The path of the link *)

Lemma py_split_nonempty (c : ascii) (s : str) : py_split c s <> [].
Proof.
  induction s as [|x s IH]; simpl; [discriminate|].
  destruct (Ascii.eqb x c); [discriminate|].
  destruct (py_split c s); [contradiction|discriminate].
Qed.

Lemma py_split_app (c : ascii) (a b : str) :
  py_split c (a ++ c :: b) = py_split c a ++ py_split c b.
Proof.
  induction a as [|x a IH]; simpl.
  - now rewrite Ascii.eqb_refl.
  - destruct (Ascii.eqb x c); [now rewrite IH|].
    rewrite IH. pose proof (py_split_nonempty c a) as Hne.
    destruct (py_split c a); [contradiction|reflexivity].
Qed.

Lemma py_split_word (c : ascii) (s : str) :
  forallb (fun x => negb (Ascii.eqb x c)) s = true -> py_split c s = [s].
Proof.
  induction s as [|x s IH]; [reflexivity|].
  simpl. rewrite andb_true_iff, negb_true_iff. intros [Hx Hs].
  now rewrite Hx, (IH Hs).
Qed.

(** A last component that is a name stays the last component. *)
Lemma normpath_comps_last (initial_slashes : bool) (acc comps : list str) (name : str) :
  str_eqb name [] = false -> str_eqb name (py ".") = false ->
  str_eqb name (py "..") = false ->
  exists front, normpath_comps initial_slashes acc (comps ++ [name]) = front ++ [name].
Proof.
  intros H1 H2 H3. revert acc.
  induction comps as [|comp comps IH]; intros acc.
  - cbn [app normpath_comps]. rewrite H1, H2. cbn [orb]. rewrite H3.
    cbn [negb orb normpath_comps rev]. now exists (rev acc).
  - cbn [app normpath_comps].
    destruct (str_eqb comp [] || str_eqb comp (py ".")); [apply IH|].
    destruct (negb (str_eqb comp (py "..")) || _ || _); apply IH.
Qed.

Lemma py_join_last (front : list str) (name : str) :
  exists pre, py_join (py "/") (front ++ [name]) = pre ++ name
              /\ (pre = [] \/ exists q, pre = q ++ py "/").
Proof.
  induction front as [|a front (pre & Hjoin & Hpre)].
  - exists []. auto.
  - exists (a ++ py "/" ++ pre). split.
    + change ((a :: front) ++ [name]) with (a :: (front ++ [name])).
      remember (front ++ [name]) as tl eqn:Hf.
      destruct tl as [|y ys]; [now destruct front|].
      change (py_join (py "/") (a :: y :: ys))
        with (a ++ py "/" ++ py_join (py "/") (y :: ys)).
      rewrite Hjoin. now rewrite <- !app_assoc.
    + right. destruct Hpre as [->|[q ->]].
      * exists a. now rewrite app_nil_r.
      * exists (a ++ py "/" ++ q). now rewrite <- !app_assoc.
Qed.

Lemma os_path_normpath_path (path : str) :
  path <> [] ->
  os_path_normpath path =
  match
    (if startswith (py "//") path && negb (startswith (py "///") path)
     then py "//" ++ py_join (py "/")
                       (normpath_comps (startswith (py "/") path) []
                          (py_split "/" path))
     else if startswith (py "/") path
          then py "/" ++ py_join (py "/")
                           (normpath_comps (startswith (py "/") path) []
                              (py_split "/" path))
          else py_join (py "/")
                 (normpath_comps (startswith (py "/") path) []
                    (py_split "/" path)))
  with
  | [] => py "."
  | p => p
  end.
Proof.
  intros Hne. destruct path as [|c path]; [contradiction|].
  unfold os_path_normpath. cbv zeta.
  match goal with
  | |- match ?x with _ => _ end = _ => destruct x
  end; reflexivity.
Qed.

(** Normalising a path that ends in a name keeps the name at the end. *)
Lemma os_path_normpath_name (pre name : str) :
  name <> [] -> no_slash name = true ->
  str_eqb name (py ".") = false -> str_eqb name (py "..") = false ->
  (pre = [] \/ exists q, pre = q ++ py "/") ->
  os_path_basename (os_path_normpath (pre ++ name)) = name.
Proof.
  intros Hne Hslash Hdot Hdots Hpre.
  assert (Hnil : str_eqb name [] = false) by now apply str_eqb_neq.
  assert (Hword : forallb (fun x => negb (Ascii.eqb x "/")) name = true) by exact Hslash.
  assert (Hcomps : exists comps, py_split "/" (pre ++ name) = comps ++ [name]).
  { destruct Hpre as [->|[q ->]].
    - exists []. simpl. now apply py_split_word.
    - exists (py_split "/" q). change (py "/") with ["/"%char].
      rewrite <- app_assoc. simpl app.
      now rewrite py_split_app, (@py_split_word "/" name Hword). }
  destruct Hcomps as [comps Hcomps].
  rewrite os_path_normpath_path by (destruct pre; [exact Hne|discriminate]).
  rewrite Hcomps.
  destruct (@normpath_comps_last (startswith (py "/") (pre ++ name)) [] comps
              name Hnil Hdot Hdots) as [front ->].
  destruct (py_join_last front name) as (p & -> & Hp).
  assert (Hres : forall z, (z = [] \/ exists q, z = q ++ py "/") ->
                           os_path_basename (match z ++ name with
                                             | [] => py "."
                                             | path => path
                                             end) = name).
  { intros z Hz. destruct (z ++ name) eqn:Hzn; [now destruct z|].
    rewrite <- Hzn. now apply os_path_basename_segment. }
  destruct (startswith (py "//") (pre ++ name) && _).
  - rewrite app_assoc. apply Hres. right. destruct Hp as [->|[q ->]].
    + now exists (py "/").
    + exists (py "//" ++ q). now rewrite <- app_assoc.
  - destruct (startswith (py "/") (pre ++ name)).
    + rewrite app_assoc. apply Hres. right. destruct Hp as [->|[q ->]].
      * now exists [].
      * exists (py "/" ++ q). now rewrite <- app_assoc.
    + now apply Hres.
Qed.

Lemma py_split_no_sep (c : ascii) (s x : str) :
  In x (py_split c s) -> forallb (fun y => negb (Ascii.eqb y c)) x = true.
Proof.
  revert x. induction s as [|a s IH]; intros x; cbn [py_split].
  - intros [<-|[]]. reflexivity.
  - destruct (Ascii.eqb a c) eqn:Ha.
    + intros [<-|Hin]; [reflexivity|now apply IH].
    + destruct (py_split c s) as [|w ws]; cbn [In].
      * intros [<-|[]]. cbn [forallb]. now rewrite Ha.
      * intros [<-|Hin].
        -- cbn [forallb]. rewrite Ha. apply IH. now left.
        -- apply IH. now right.
Qed.

(** The components [os.path.normpath] keeps are names: none is empty and none
    holds a slash. *)
Lemma normpath_comps_names (initial_slashes : bool) (acc comps : list str) :
  (forall x, In x comps -> no_slash x = true) ->
  (forall x, In x acc -> x <> [] /\ no_slash x = true) ->
  forall x, In x (normpath_comps initial_slashes acc comps) ->
            x <> [] /\ no_slash x = true.
Proof.
  revert acc. induction comps as [|comp comps IH]; intros acc Hcomps Hacc x.
  - cbn [normpath_comps]. intros Hin. apply Hacc. now apply in_rev.
  - cbn [normpath_comps].
    assert (Hrest : forall y, In y comps -> no_slash y = true)
      by (intros y Hy; apply Hcomps; now right).
    destruct (str_eqb comp [] || str_eqb comp (py ".")) eqn:Hskip;
      [now apply IH|].
    destruct (negb (str_eqb comp (py "..")) || _ || _).
    + apply IH; [exact Hrest|]. intros y [<-|Hy]; [|now apply Hacc].
      split; [|apply Hcomps; now left].
      apply orb_false_iff in Hskip as [Hnil _]. now apply str_eqb_neq.
    + apply IH; [exact Hrest|]. intros y Hy. apply Hacc.
      destruct acc; [contradiction|now right].
Qed.

(** What stands before the last of several names joined by slashes: nothing,
    or a text that ends in a slash after a character that is none. *)
Lemma py_join_names_last (front : list str) (name : str) :
  (forall x, In x front -> x <> [] /\ no_slash x = true) ->
  exists q, py_join (py "/") (front ++ [name]) = q ++ name
            /\ (q = [] \/ exists q' x, q = q' ++ [x; "/"%char] /\ is_slash x = false).
Proof.
  induction front as [|a front IH]; intros Hfront.
  - exists []. auto.
  - destruct IH as (q & Hjoin & Hq); [intros x Hx; apply Hfront; now right|].
    destruct (Hfront a (or_introl eq_refl)) as [Hne Hslash].
    exists (a ++ py "/" ++ q). split.
    + change ((a :: front) ++ [name]) with (a :: (front ++ [name])).
      remember (front ++ [name]) as tl eqn:Hf.
      destruct tl as [|y ys]; [now destruct front|].
      change (py_join (py "/") (a :: y :: ys))
        with (a ++ py "/" ++ py_join (py "/") (y :: ys)).
      rewrite Hjoin. now rewrite <- !app_assoc.
    + right. destruct Hq as [->|(q' & x & -> & Hx)].
      * destruct (@no_slash_last a Hne Hslash) as (a' & x & -> & Hx).
        exists a', x. split; [|exact Hx]. rewrite app_nil_r, <- app_assoc.
        reflexivity.
      * exists (a ++ py "/" ++ q'), x. split; [|exact Hx].
        now rewrite <- !app_assoc.
Qed.

(** A name after such a text is spelled as an entry of its directory. *)
Lemma spelled_name (q name : str) :
  name <> [] -> no_slash name = true ->
  is_curdir name = false -> is_pardir name = false ->
  (q = [] \/ (q <> [] /\ forallb is_slash q = true)
   \/ exists q' x, q = q' ++ [x; "/"%char] /\ is_slash x = false) ->
  spelled (q ++ name) /\ os_path_basename (q ++ name) = name.
Proof.
  intros Hne Hslash Hcur Hpar Hq.
  assert (Hword : forallb (fun x => negb (Ascii.eqb x "/")) name = true) by exact Hslash.
  assert (Hstart : startswith (py "/") name = false) by now apply no_slash_startswith.
  assert (Hparts : os_path_basename (q ++ name) = name
                   /\ os_path_join2 (os_path_dirname (q ++ name)) name = q ++ name).
  { unfold os_path_basename, os_path_dirname, os_path_split.
    destruct Hq as [->|[[Hqne Hall]|(q' & x & -> & Hx)]].
    - cbn [app]. rewrite (@rsplit1_none "/" name Hword). cbn [fst].
      split; [reflexivity|]. unfold os_path_join2. rewrite Hstart. reflexivity.
    - destruct (exists_last Hqne) as (h & x & ->).
      assert (Hx : x = "/"%char).
      { rewrite forallb_app in Hall. apply andb_true_iff in Hall as [_ Hx].
        cbn [forallb] in Hx. rewrite andb_true_r in Hx. now apply Ascii.eqb_eq. }
      subst x. rewrite <- app_assoc. cbn [app].
      rewrite (@rsplit1_last "/" h name Hword). cbn [fst].
      change (h ++ py "/") with (h ++ ["/"%char]). rewrite Hall.
      split; [reflexivity|]. unfold os_path_join2. rewrite Hstart.
      rewrite endswith_slash_snoc. change (is_slash "/") with true.
      rewrite orb_true_r. now rewrite <- app_assoc.
    - replace ((q' ++ [x; "/"%char]) ++ name) with ((q' ++ [x]) ++ "/"%char :: name)
        by (rewrite <- !app_assoc; reflexivity).
      rewrite (@rsplit1_last "/" (q' ++ [x]) name Hword). cbn [fst].
      assert (Hall : forallb is_slash ((q' ++ [x]) ++ py "/") = false).
      { rewrite !forallb_app. cbn [forallb]. rewrite Hx.
        now rewrite andb_false_r. }
      rewrite Hall. change ((q' ++ [x]) ++ py "/") with ((q' ++ [x]) ++ ["/"%char]).
      rewrite rstrip_snoc. change (is_slash "/") with true. cbv iota.
      rewrite rstrip_snoc, Hx.
      split; [reflexivity|]. unfold os_path_join2. rewrite Hstart.
      rewrite endswith_slash_snoc, Hx.
      destruct (str_eqb (q' ++ [x]) []) eqn:Hnil.
      + apply str_eqb_eq in Hnil. now destruct q'.
      + reflexivity. }
  destruct Hparts as [Hbase Hjoin]. split; [|exact Hbase].
  unfold spelled, names_entry. rewrite Hbase, Hcur, Hpar.
  split; [destruct q; [exact Hne|discriminate]|]. split; [exact Hjoin|reflexivity].
Qed.

(** Normalising a path that ends in a name gives a path spelled as an entry
    of its directory, with that name. *)
Lemma os_path_normpath_spelled (pre name : str) :
  name <> [] -> no_slash name = true ->
  str_eqb name (py ".") = false -> str_eqb name (py "..") = false ->
  (pre = [] \/ exists q, pre = q ++ py "/") ->
  spelled (os_path_normpath (pre ++ name))
  /\ os_path_basename (os_path_normpath (pre ++ name)) = name.
Proof.
  intros Hne Hslash Hdot Hdots Hpre.
  assert (Hnil : str_eqb name [] = false) by now apply str_eqb_neq.
  assert (Hcur : is_curdir name = false) by (unfold is_curdir; now rewrite Hnil, Hdot).
  assert (Hword : forallb (fun x => negb (Ascii.eqb x "/")) name = true) by exact Hslash.
  assert (Hcomps : exists comps, py_split "/" (pre ++ name) = comps ++ [name]).
  { destruct Hpre as [->|[q ->]].
    - exists []. simpl. now apply py_split_word.
    - exists (py_split "/" q). change (py "/") with ["/"%char].
      rewrite <- app_assoc. simpl app.
      now rewrite py_split_app, (@py_split_word "/" name Hword). }
  destruct Hcomps as [comps Hcomps].
  rewrite os_path_normpath_path by (destruct pre; [exact Hne|discriminate]).
  assert (Hnames : forall x,
            In x (normpath_comps (startswith (py "/") (pre ++ name)) []
                    (py_split "/" (pre ++ name))) ->
            x <> [] /\ no_slash x = true).
  { apply normpath_comps_names; [|intros x []].
    intros x Hx. exact (@py_split_no_sep "/" _ x Hx). }
  rewrite Hcomps in *.
  destruct (@normpath_comps_last (startswith (py "/") (pre ++ name)) [] comps
              name Hnil Hdot Hdots) as [front Hfront].
  rewrite Hfront in *.
  destruct (@py_join_names_last front name) as (q & -> & Hq).
  { intros x Hx. apply Hnames. apply in_or_app. now left. }
  assert (Hres : forall z,
            (z = [] \/ (z <> [] /\ forallb is_slash z = true)
             \/ exists q' x, z = q' ++ [x; "/"%char] /\ is_slash x = false) ->
            spelled (match z ++ name with [] => py "." | path => path end)
            /\ os_path_basename (match z ++ name with [] => py "." | path => path end)
               = name).
  { intros z Hz. destruct (z ++ name) eqn:Hzn; [now destruct z|].
    rewrite <- Hzn. now apply spelled_name. }
  destruct (startswith (py "//") (pre ++ name) && _).
  - rewrite app_assoc. apply Hres. destruct Hq as [->|(q' & x & -> & Hx)].
    + right. left. split; [discriminate|reflexivity].
    + right. right. exists (py "//" ++ q'), x. split; [|exact Hx].
      now rewrite <- app_assoc.
  - destruct (startswith (py "/") (pre ++ name)).
    + rewrite app_assoc. apply Hres. destruct Hq as [->|(q' & x & -> & Hx)].
      * right. left. split; [discriminate|reflexivity].
      * right. right. exists (py "/" ++ q'), x. split; [|exact Hx].
        now rewrite <- app_assoc.
    + apply Hres. destruct Hq as [->|Hq]; auto.
Qed.

(** Whatever directory the option [link] names, the link is spelled as the
    entry [google_appengine] of its directory. *)
Lemma sdk_link_spelled (E : os_env) (c : config) :
  cfg_link c <> [] ->
  spelled (Env.sdk_link E c)
  /\ os_path_basename (Env.sdk_link E c) = google_appengine.
Proof.
  intros Hne.
  unfold Env.sdk_link. destruct (cfg_link c) as [|x l] eqn:Hl; [contradiction|].
  unfold Env.abspath, os_path_join. cbn [fold_left].
  destruct (@os_path_join2_segment (Env.expanduser E (x :: l)) google_appengine
              eq_refl) as (q & -> & Hq).
  destruct (os_path_isabs (q ++ google_appengine)) eqn:Habs.
  - now apply os_path_normpath_spelled.
  - unfold os_path_join2. unfold os_path_isabs in Habs. rewrite Habs.
    destruct (str_eqb (getcwd E) [] || endswith (py "/") (getcwd E)) eqn:Hcwd.
    + rewrite app_assoc. apply os_path_normpath_spelled; try reflexivity; [discriminate|].
      destruct Hq as [->|[q' ->]].
      * rewrite app_nil_r. apply orb_true_iff in Hcwd as [Hc|Hc].
        -- left. now apply str_eqb_eq.
        -- right. now apply endswith_slash_inv.
      * right. exists (getcwd E ++ q'). now rewrite <- app_assoc.
    + rewrite !app_assoc. apply os_path_normpath_spelled; try reflexivity; [discriminate|].
      right. destruct Hq as [->|[q' ->]].
      * rewrite app_nil_r. now exists (getcwd E).
      * exists ((getcwd E ++ py "/") ++ q'). now rewrite <- !app_assoc.
Qed.

(** ** The file system *)

Lemma fs_lookup_add (p q : str) (n : node) (fs : filesystem) :
  fs_lookup p (fs_add q n fs) =
  match fs_lookup p fs with
  | Some x => Some x
  | None => if str_eqb p q then Some n else None
  end.
Proof.
  unfold fs_add. induction fs as [|[k m] fs IH]; simpl; [reflexivity|].
  destruct (str_eqb p k); [reflexivity|exact IH].
Qed.

Lemma fs_lookup_remove (p q : str) (fs : filesystem) :
  fs_lookup p (fs_remove q fs) = if str_eqb q p then None else fs_lookup p fs.
Proof.
  unfold fs_remove. induction fs as [|[k m] fs IH]; simpl.
  - now destruct (str_eqb q p).
  - destruct (str_eqb q k) eqn:Hqk; simpl.
    + rewrite IH. destruct (str_eqb q p) eqn:Hqp; [reflexivity|].
      destruct (str_eqb p k) eqn:Hpk; [|reflexivity].
      apply str_eqb_eq in Hqk, Hpk. subst. now rewrite str_eqb_refl in Hqp.
    + destruct (str_eqb p k) eqn:Hpk.
      * destruct (str_eqb q p) eqn:Hqp; [|reflexivity].
        apply str_eqb_eq in Hqp, Hpk. subst. now rewrite str_eqb_refl in Hqk.
      * exact IH.
Qed.

Lemma fs_lookup_add_other (p q : str) (n : node) (fs : filesystem) :
  p <> q -> fs_lookup p (fs_add q n fs) = fs_lookup p fs.
Proof.
  intros H. rewrite fs_lookup_add. apply str_eqb_neq in H. rewrite H.
  now destruct (fs_lookup p fs).
Qed.

Lemma fs_lookup_add_new (q : str) (n : node) (fs : filesystem) :
  fs_lookup q fs = None -> fs_lookup q (fs_add q n fs) = Some n.
Proof. intros H. now rewrite fs_lookup_add, H, str_eqb_refl. Qed.

Lemma fs_lookup_remove_other (p q : str) (fs : filesystem) :
  p <> q -> fs_lookup p (fs_remove q fs) = fs_lookup p fs.
Proof.
  intros H. rewrite fs_lookup_remove.
  assert (Hqp : str_eqb q p = false) by (apply str_eqb_neq; congruence).
  now rewrite Hqp.
Qed.

Lemma fs_lookup_remove_same (q : str) (fs : filesystem) :
  fs_lookup q (fs_remove q fs) = None.
Proof. now rewrite fs_lookup_remove, str_eqb_refl. Qed.

Lemma fs_lookup_replace (p q : str) (n : node) (fs : filesystem) :
  fs_lookup q (fs_replace p n fs) =
  match fs_lookup q fs with
  | Some x => if str_eqb p q then Some n else Some x
  | None => None
  end.
Proof.
  unfold fs_replace. induction fs as [|[k m] fs IH]; simpl; [reflexivity|].
  destruct (str_eqb p k) eqn:Hpk; simpl.
  - destruct (str_eqb q k) eqn:Hqk; [|exact IH].
    apply str_eqb_eq in Hpk, Hqk. subst. now rewrite str_eqb_refl.
  - destruct (str_eqb q k) eqn:Hqk; [|exact IH].
    apply str_eqb_eq in Hqk. subst. now rewrite Hpk.
Qed.

Lemma fs_lookup_filter (keep : str -> bool) (p : str) (fs : filesystem) :
  fs_lookup p (filter (fun e => keep (fst e)) fs)
  = if keep p then fs_lookup p fs else None.
Proof.
  induction fs as [|[k n] fs IH]; [now destruct (keep p)|].
  simpl. destruct (keep k) eqn:Hk; simpl.
  - destruct (str_eqb p k) eqn:Hpk; [|exact IH].
    apply str_eqb_eq in Hpk. subst k. now rewrite Hk.
  - destruct (str_eqb p k) eqn:Hpk; [|exact IH].
    apply str_eqb_eq in Hpk. subst k. rewrite Hk in IH. now rewrite Hk.
Qed.

(** *** Path resolution *)

Lemma walk_dir_unfold (links : nat) (fs : filesystem) (cur : str) (comps : list str) :
  walk_dir links fs cur comps =
  match comps with
  | [] => Ok cur
  | c :: rest =>
      if is_curdir c then walk_dir links fs cur rest
      else if is_pardir c then walk_dir links fs (os_path_dirname cur) rest
      else
        match fs_lookup (os_path_join2 cur c) fs with
        | None => Raise (OSError ENOENT)
        | Some NDir => walk_dir links fs (os_path_join2 cur c) rest
        | Some (NFile _ _) => Raise (OSError ENOTDIR)
        | Some (NLink []) => Raise (OSError ENOENT)
        | Some (NLink t) =>
            match links with
            | O => Raise (OSError ELOOP)
            | S n =>
                walk_dir n fs (if os_path_isabs t then py "/" else cur)
                  (py_split "/" t ++ rest)
            end
        end
  end.
Proof. destruct links; destruct comps; reflexivity. Qed.

(** Resolution goes through directories and symlinks only: it gives the
    same in a file system that has them all, and no further directory. *)
Lemma walk_dir_ways_in (links : nat) (fs fs' : filesystem)
      (cur : str) (comps : list str) (r : str) :
  ways_in fs fs' ->
  walk_dir links fs cur comps = Ok r -> walk_dir links fs' cur comps = Ok r.
Proof.
  intros (Hdirs & Hlinks). revert cur comps.
  induction links as [|n IHn]; intros cur comps; revert cur;
    induction comps as [|c rest IHc]; intros cur;
    rewrite (walk_dir_unfold _ fs), (walk_dir_unfold _ fs'); try (intros H; exact H);
    (destruct (is_curdir c); [apply IHc|]);
    (destruct (is_pardir c); [apply IHc|]);
    destruct (fs_lookup (os_path_join2 cur c) fs) as [[|d m|t]|] eqn:Hl;
    try discriminate.
  - rewrite (Hdirs _ Hl). apply IHc.
  - rewrite (Hlinks _ _ Hl). intros H; exact H.
  - rewrite (Hdirs _ Hl). apply IHc.
  - rewrite (Hlinks _ _ Hl). destruct t; [discriminate|]. apply IHn.
Qed.

Lemma realdir_same_ways (fs fs' : filesystem) (d r : str) :
  same_ways fs fs' -> realdir fs d = Ok r -> realdir fs' d = Ok r.
Proof.
  intros [Hways Hback]. pose proof Hways as (Hdirs & _). unfold realdir.
  destruct (fs_lookup d fs) as [[|x m|t]|] eqn:Hl.
  - now rewrite (Hdirs _ Hl).
  - intros H. apply (@walk_dir_ways_in _ fs fs' _ _ _ Hways) in H.
    destruct (fs_lookup d fs') as [[|x' m'|t']|] eqn:Hl'; try exact H.
    apply Hback in Hl'. congruence.
  - intros H. apply (@walk_dir_ways_in _ fs fs' _ _ _ Hways) in H.
    destruct (fs_lookup d fs') as [[|x' m'|t']|] eqn:Hl'; try exact H.
    apply Hback in Hl'. congruence.
  - intros H. apply (@walk_dir_ways_in _ fs fs' _ _ _ Hways) in H.
    destruct (fs_lookup d fs') as [[|x' m'|t']|] eqn:Hl'; try exact H.
    apply Hback in Hl'. congruence.
Qed.

Lemma lkey_same_ways (fs fs' : filesystem) (p k : str) :
  same_ways fs fs' -> lkey fs p = Ok k -> lkey fs' p = Ok k.
Proof.
  intros Hways. unfold lkey. destruct p as [|c p]; [discriminate|].
  destruct (realdir fs (os_path_dirname (c :: p))) as [d|e] eqn:Hd; [|discriminate].
  now rewrite (@realdir_same_ways fs fs' _ _ Hways Hd).
Qed.

Lemma same_ways_refl (fs : filesystem) : same_ways fs fs.
Proof. unfold same_ways, ways_in. auto. Qed.

(** A new entry that is no directory leaves the ways as they are. *)
Lemma same_ways_add (k : str) (n : node) (fs : filesystem) :
  fs_lookup k fs = None -> n <> NDir -> same_ways fs (fs_add k n fs).
Proof.
  intros Hnone Hn. unfold same_ways, ways_in. split; [split|].
  - intros q Hq. now rewrite fs_lookup_add, Hq.
  - intros q t Hq. now rewrite fs_lookup_add, Hq.
  - intros q. rewrite fs_lookup_add.
    destruct (fs_lookup q fs) as [x|]; [auto|].
    destruct (str_eqb q k); [|discriminate]. congruence.
Qed.


(** Writing a regular file changes no way. *)
Lemma same_ways_replace (k data data' : str) (mode : N) (fs : filesystem) :
  fs_lookup k fs = Some (NFile data mode) ->
  same_ways fs (fs_replace k (NFile data' mode) fs).
Proof.
  intros Hk. unfold same_ways, ways_in. split; [split|].
  - intros q Hq. rewrite fs_lookup_replace, Hq.
    destruct (str_eqb k q) eqn:Hkq; [|reflexivity].
    apply str_eqb_eq in Hkq. congruence.
  - intros q t Hq. rewrite fs_lookup_replace, Hq.
    destruct (str_eqb k q) eqn:Hkq; [|reflexivity].
    apply str_eqb_eq in Hkq. congruence.
  - intros q. rewrite fs_lookup_replace.
    destruct (fs_lookup q fs) as [x|]; [|discriminate].
    destruct (str_eqb k q); congruence.
Qed.

(** A directory as spelled is itself, and a path spelled as an entry of such
    a directory is the key of that entry. *)
Lemma realdir_dir (fs : filesystem) (d : str) :
  fs_lookup d fs = Some NDir -> realdir fs d = Ok d.
Proof. intros H. unfold realdir. now rewrite H. Qed.

Lemma lkey_spelled (fs : filesystem) (p : str) :
  spelled p -> fs_lookup (os_path_dirname p) fs = Some NDir -> lkey fs p = Ok p.
Proof.
  intros (Hne & Hjoin & Hname) Hdir. unfold lkey.
  destruct p as [|c p]; [contradiction|].
  rewrite (@realdir_dir _ _ Hdir). cbv zeta.
  unfold names_entry in Hname. apply negb_true_iff, orb_false_iff in Hname as [-> ->].
  now rewrite Hjoin.
Qed.

Lemma lkey_nonempty (fs : filesystem) (p k : str) : lkey fs p = Ok k -> p <> [].
Proof. destruct p; [discriminate|discriminate]. Qed.

Lemma walk_dir_raises (links : nat) (fs : filesystem) (cur : str) (comps : list str)
      (e : exn) :
  walk_dir links fs cur comps = Raise e -> resolution_error e.
Proof.
  unfold resolution_error. revert cur comps.
  induction links as [|n IHn]; intros cur comps; revert cur;
    induction comps as [|c rest IHc]; intros cur;
    rewrite walk_dir_unfold; try discriminate;
    (destruct (is_curdir c); [apply IHc|]);
    (destruct (is_pardir c); [apply IHc|]);
    destruct (fs_lookup (os_path_join2 cur c) fs) as [[|d m|[|x t]]|];
    try apply IHc; try apply IHn;
    intros H; injection H as <-; auto.
Qed.

Lemma lkey_raises (fs : filesystem) (p : str) (e : exn) :
  lkey fs p = Raise e -> resolution_error e.
Proof.
  unfold lkey. destruct p as [|c p].
  - intros H. injection H as <-. left. reflexivity.
  - unfold realdir.
    destruct (fs_lookup (os_path_dirname (c :: p)) fs) as [[|d m|t]|];
      cbv zeta;
      try (destruct (is_curdir _); [discriminate|];
           destruct (is_pardir _); discriminate);
      (destruct (walk_dir 40 fs (py "/") _) as [r|e'] eqn:Hw;
       [destruct (is_curdir _); [discriminate|];
        destruct (is_pardir _); discriminate
       |intros H; injection H as <-; exact (@walk_dir_raises _ _ _ _ _ Hw)]).
Qed.

(** *** The calls *)

Lemma os_lstat_spelled (fs : filesystem) (p : str) :
  spelled p -> fs_lookup (os_path_dirname p) fs = Some NDir ->
  os_lstat fs p = match fs_lookup p fs with
                  | Some n => Ok n
                  | None => Raise (OSError ENOENT)
                  end.
Proof. intros Hp Hdir. unfold os_lstat. now rewrite (@lkey_spelled _ _ Hp Hdir). Qed.

Lemma os_readlink_lstat (path : str) (fs : filesystem) :
  os_readlink path fs =
  match os_lstat fs path with
  | Ok (NLink target) => Ok target
  | Ok _ => Raise (OSError EINVAL)
  | Raise e => Raise e
  end.
Proof.
  unfold os_readlink, os_lstat. destruct (lkey fs path) as [k|e]; [|reflexivity].
  destruct (fs_lookup k fs) as [[| |]|]; reflexivity.
Qed.

Lemma os_symlink_fresh (target link : str) (fs : filesystem) :
  spelled link -> fs_lookup (os_path_dirname link) fs = Some NDir ->
  fs_lookup link fs = None ->
  os_symlink target link fs = Ok (fs_add link (NLink target) fs).
Proof.
  intros Hp Hdir Hnone. unfold os_symlink.
  rewrite (@lkey_spelled _ _ Hp Hdir), Hnone.
  destruct Hp as (_ & _ & ->). reflexivity.
Qed.

Lemma os_symlink_exists (target link : str) (fs : filesystem) (n : node) :
  spelled link -> fs_lookup (os_path_dirname link) fs = Some NDir ->
  fs_lookup link fs = Some n ->
  os_symlink target link fs = Raise (OSError EEXIST).
Proof.
  intros Hp Hdir Hsome. unfold os_symlink.
  now rewrite (@lkey_spelled _ _ Hp Hdir), Hsome.
Qed.

Lemma os_unlink_entry (E : os_env) (path : str) (fs : filesystem) (n : node) :
  spelled path -> fs_lookup (os_path_dirname path) fs = Some NDir ->
  fs_lookup path fs = Some n -> n <> NDir ->
  os_unlink E path fs = Ok (fs_remove path fs).
Proof.
  intros Hp Hdir Hsome Hn. unfold os_unlink.
  rewrite (@lkey_spelled _ _ Hp Hdir), Hsome. destruct n; congruence.
Qed.



Lemma place_link_fresh (E : os_env) (target link : str) (w : world) :
  spelled link -> fs_lookup (os_path_dirname link) (w_fs w) = Some NDir ->
  fs_lookup link (w_fs w) = None ->
  place_link E target link w =
  (Ok tt, with_fs w (fs_add link (NLink target) (w_fs w))
            [fs_add link (NLink target) (w_fs w)]).
Proof.
  intros Hp Hdir Hnone. unfold place_link, try_except, update_fs.
  now rewrite (@os_symlink_fresh target link (w_fs w) Hp Hdir Hnone).
Qed.

Lemma spelled_parent (fs : filesystem) (p : str) :
  fs_lookup (os_path_dirname p) fs = Some NDir -> fs_lookup p fs <> Some NDir ->
  os_path_dirname p <> p.
Proof. intros Hdir Hp Heq. rewrite Heq in Hdir. contradiction. Qed.

(** Over an existing entry that is no directory, the link step goes through
    the file system without the entry and then the one with the new link. *)
Lemma place_link_replace (E : os_env) (target link : str) (w : world) (n : node) :
  spelled link -> fs_lookup (os_path_dirname link) (w_fs w) = Some NDir ->
  fs_lookup link (w_fs w) = Some n -> n <> NDir ->
  place_link E target link w =
  (Ok tt, with_fs w (fs_add link (NLink target) (fs_remove link (w_fs w)))
            [fs_remove link (w_fs w);
             fs_add link (NLink target) (fs_remove link (w_fs w))]).
Proof.
  intros Hp Hdir Hsome Hn. unfold place_link, try_except, update_fs, bind.
  rewrite (@os_symlink_exists target link (w_fs w) n Hp Hdir Hsome). simpl.
  rewrite (@os_unlink_entry E link (w_fs w) n Hp Hdir Hsome Hn). simpl.
  assert (Hparent : os_path_dirname link <> link).
  { apply (@spelled_parent (w_fs w)); [exact Hdir|]. rewrite Hsome. congruence. }
  rewrite (@os_symlink_fresh target link (fs_remove link (w_fs w)) Hp).
  - unfold with_fs. simpl. now rewrite <- app_assoc.
  - now rewrite fs_lookup_remove_other.
  - apply fs_lookup_remove_same.
Qed.

(** *** The key of a directory *)

Lemma rsplit1_word (c : ascii) (s : str) :
  match rsplit1 c s with
  | Some (_, t) => forallb (fun x => negb (Ascii.eqb x c)) t = true
  | None => forallb (fun x => negb (Ascii.eqb x c)) s = true
  end.
Proof.
  induction s as [|x s IH]; [reflexivity|]. simpl.
  destruct (rsplit1 c s) as [[h t]|]; [exact IH|].
  destruct (Ascii.eqb x c); exact IH.
Qed.

Lemma os_path_basename_no_slash (p : str) : no_slash (os_path_basename p) = true.
Proof.
  unfold os_path_basename, no_slash. pose proof (rsplit1_word "/" p) as H.
  destruct (rsplit1 "/" p) as [[h t]|]; exact H.
Qed.

Lemma os_path_join2_length (d v : str) :
  v <> [] -> no_slash v = true ->
  List.length d < List.length (os_path_join2 d v).
Proof.
  intros Hne Hv. unfold os_path_join2. rewrite (@no_slash_startswith v Hv).
  destruct v as [|c v]; [contradiction|].
  destruct (str_eqb d []) eqn:Hnil; cbn [orb].
  - apply str_eqb_eq in Hnil. subst d. simpl. lia.
  - destruct (endswith (py "/") d); rewrite !length_app; simpl; lia.
Qed.

(** A path spelled as an entry of its directory is the directory part, a
    slash unless that part ends in one, and a name. *)
Lemma spelled_parts (p : str) :
  spelled p ->
  exists b, b <> [] /\ no_slash b = true
            /\ is_curdir b = false /\ is_pardir b = false
            /\ os_path_join2 (os_path_dirname p) b = p.
Proof.
  intros (_ & Hjoin & Hname). exists (os_path_basename p).
  unfold names_entry in Hname.
  apply negb_true_iff, orb_false_iff in Hname as [Hcur Hpar].
  split; [|split; [apply os_path_basename_no_slash|auto]].
  intros Hnil. rewrite Hnil in Hcur. discriminate.
Qed.

Lemma spelled_end (p : str) : spelled p -> endswith (py "/") p = false.
Proof.
  intros Hsp. destruct (spelled_parts Hsp) as (b & Hne & Hslash & _ & _ & Hjoin).
  destruct (@no_slash_last _ Hne Hslash) as (b' & x & -> & Hx).
  rewrite <- Hjoin. unfold os_path_join2.
  destruct (startswith (py "/") (b' ++ [x]));
    [now rewrite endswith_slash_snoc|].
  destruct (str_eqb (os_path_dirname p) [] || endswith (py "/") (os_path_dirname p));
    rewrite ?app_assoc; now rewrite endswith_slash_snoc.
Qed.

(** In a well-formed file system the walk from the root along the key of a
    directory ends at that key. *)
Lemma walk_dir_key (fs : filesystem) :
  well_formed fs ->
  forall n d, List.length d <= n -> fs_lookup d fs = Some NDir ->
  forall links rest,
    walk_dir links fs (py "/") (py_split "/" d ++ rest) = walk_dir links fs d rest.
Proof.
  intros Hwf. induction n as [|n IH]; intros d Hlen Hd links rest.
  - destruct d; [|simpl in Hlen; lia].
    destruct (Hwf _ _ Hd) as [Heq|[(Hne & _) _]]; [discriminate|contradiction].
  - destruct (Hwf _ _ Hd) as [->|[Hsp Hpar]].
    + change (py_split "/" (py "/") ++ rest) with ((@nil ascii) :: [] :: rest).
      rewrite walk_dir_unfold. change (is_curdir []) with true. cbv iota.
      rewrite walk_dir_unfold. reflexivity.
    + destruct (spelled_parts Hsp) as (b & Hbne & Hslash & Hcur & Hparb & Hjoin).
      set (dd := os_path_dirname d) in *.
      assert (Hlt : List.length dd < List.length d)
        by (rewrite <- Hjoin; now apply os_path_join2_length).
      assert (Hstep : walk_dir links fs dd (b :: rest) = walk_dir links fs d rest).
      { rewrite walk_dir_unfold, Hcur, Hparb, Hjoin, Hd. reflexivity. }
      assert (Hword : py_split "/" b = [b]) by now apply py_split_word.
      assert (Hstart : startswith (py "/") b = false)
        by now apply no_slash_startswith.
      destruct (Hwf _ _ Hpar) as [Hroot|[Hspd _]].
      * assert (Hd' : d = "/"%char :: b).
        { rewrite <- Hjoin, Hroot. unfold os_path_join2. now rewrite Hstart. }
        rewrite Hd' at 1. cbn [py_split]. change (Ascii.eqb "/" "/") with true.
        cbv iota. rewrite Hword. cbn [app].
        rewrite walk_dir_unfold. change (is_curdir []) with true. cbv iota.
        rewrite <- Hroot. exact Hstep.
      * assert (Hd' : d = dd ++ "/"%char :: b).
        { rewrite <- Hjoin at 1. unfold os_path_join2.
          rewrite Hstart, (spelled_end Hspd).
          destruct Hspd as (Hne & _).
          assert (Hnil : str_eqb dd [] = false) by now apply str_eqb_neq.
          now rewrite Hnil. }
        rewrite Hd' at 1. rewrite py_split_app, Hword, <- app_assoc. cbn [app].
        rewrite (IH dd); [exact Hstep|lia|exact Hpar].
Qed.

(** So [realdir] loses nothing when it looks a path up before it walks. *)
Lemma realdir_walk (fs : filesystem) (d : str) :
  well_formed fs -> fs_lookup d fs = Some NDir ->
  walk_dir 40 fs (py "/") (py_split "/" d) = Ok d.
Proof.
  intros Hwf Hd. rewrite <- (app_nil_r (py_split "/" d)).
  rewrite (@walk_dir_key fs Hwf _ d (le_n _) Hd). now rewrite walk_dir_unfold.
Qed.

(** The file systems of the concrete runs are well formed. *)
Ltac entry_by_entry H :=
  repeat match type of H with
         | (if str_eqb ?p ?k then _ else _) = _ =>
             let Hk := fresh "Hk" in
             destruct (str_eqb p k) eqn:Hk;
             [apply str_eqb_eq in Hk; subst p;
              first [left; reflexivity
                    |right; split;
                     [split; [discriminate|split; reflexivity]|reflexivity]]
             |]
         end;
  try discriminate H.

Lemma fresh_home_well_formed : well_formed fresh_home.
Proof.
  intros p n H. unfold fresh_home in H. cbn [fs_lookup] in H.
  entry_by_entry H.
Qed.

Lemma linked_cache_well_formed : well_formed linked_cache.
Proof.
  intros p n H. unfold linked_cache, fresh_home in H. cbn [fs_lookup app] in H.
  entry_by_entry H.
Qed.
(** ** Resolution reads only *)

Lemma check_world (E : os_env) (w : world) :
  snd (Env._check E w) =
  {| w_fs := w_fs w; w_config := w_config w; w_stdout := w_stdout w;
     w_requests := w_requests w ++ [SDK_VERSION_CHECK_URL];
     w_trace := w_trace w |}.
Proof.
  unfold Env._check, urlopen. run.
  destruct (network E SDK_VERSION_CHECK_URL); reflexivity.
Qed.

Lemma resolve_version_world (E : os_env) (w : world) (tok : pyval) :
  let w1 := snd (Env._resolve_version E tok w) in
  w_fs w1 = w_fs w /\ w_config w1 = w_config w
  /\ w_trace w1 = w_trace w /\ w_stdout w1 = w_stdout w.
Proof.
  destruct tok as [v|]; [|simpl; auto].
  unfold Env._resolve_version.
  destruct (str_eqb v SDK_VERSION_LATEST).
  - simpl. rewrite check_world. simpl. auto.
  - destruct (SDK_VERSION_PATTERN_match v); [simpl; auto|].
    unfold bind, gets, ret, raise.
    destruct (filter _ _) as [|m [|m' ms]]; simpl; auto.
Qed.

Lemma resolve_version_strict (E : os_env) (w : world) (v : str) :
  SDK_VERSION_PATTERN_match v = true ->
  Env._resolve_version E (Some v) w = (Ok (Some v), w).
Proof.
  intros H. unfold Env._resolve_version.
  now rewrite (@strict_version_not_latest v H), H.
Qed.

Lemma os_path_normpath_nonempty (p : str) : os_path_normpath p <> [].
Proof.
  unfold os_path_normpath. destruct p as [|c p]; [discriminate|].
  cbv zeta.
  match goal with
  | |- match ?x with _ => _ end <> _ => destruct x
  end; discriminate.
Qed.

Lemma sdk_link_nonempty (E : os_env) (c : config) :
  cfg_link c <> [] -> Env.sdk_link E c <> [].
Proof.
  unfold Env.sdk_link. destruct (cfg_link c); [contradiction|].
  intros _. apply os_path_normpath_nonempty.
Qed.

Lemma sdk_link_empty (E : os_env) (c : config) :
  Env.sdk_link E c = [] <-> cfg_link c = [].
Proof.
  split.
  - intros H. destruct (cfg_link c) eqn:Hc; [reflexivity|].
    exfalso. apply (@sdk_link_nonempty E c); [rewrite Hc; discriminate|exact H].
  - unfold Env.sdk_link. now intros ->.
Qed.

(** [_activate], once the version is resolved, is the link step. *)
Lemma activate_resolved (E : os_env) (w w1 : world) (tok : pyval) (v : str) :
  Env._resolve_version E tok w = (Ok (Some v), w1) ->
  Env._activate E tok w =
  match place_link E (os_path_join (Env.cache_dir E (w_config w)) [v; google_appengine])
          (Env.sdk_link E (w_config w)) w1 with
  | (Ok _, w2) =>
      (Ok (os_path_join (Env.cache_dir E (w_config w)) [v; google_appengine]), w2)
  | (Raise e, w2) => (Raise e, w2)
  end.
Proof.
  intros Hres. pose proof (resolve_version_world E w tok) as Hw.
  rewrite Hres in Hw. simpl in Hw. destruct Hw as (_ & Hcfg & _).
  unfold Env._activate, bind at 1. rewrite Hres.
  unfold bind, gets, lift, ret. cbn [os_path_join_py]. rewrite Hcfg.
  reflexivity.
Qed.

(** ** The active version *)

Lemma active_version_unfold (E : os_env) (w : world) :
  Env.active_version E w =
  match os_lstat (w_fs w) (Env.sdk_link E (w_config w)) with
  | Ok (NLink target) =>
      if str_eqb (os_path_basename target) google_appengine
      then (Ok (Some (os_path_basename (os_path_dirname target))), w)
      else (Raise AssertionError, w)
  | Ok _ => (Raise (OSError EINVAL), w)
  | Raise e => if is_ENOENT e then (Ok None, w) else (Raise e, w)
  end.
Proof.
  unfold Env.active_version, bind at 1, gets at 1. cbn [w_config].
  unfold bind at 1, try_except, bind at 1, read_fs at 1.
  rewrite os_readlink_lstat.
  destruct (os_lstat (w_fs w) (Env.sdk_link E (w_config w))) as [[|d m|target]|e];
    cbn [is_ENOENT ret]; try reflexivity.
  - rewrite <- snd_os_path_split. unfold os_path_dirname.
    destruct (os_path_split target) as [dname fname]. cbn [fst snd].
    destruct (str_eqb fname google_appengine); reflexivity.
  - destruct (is_ENOENT e); reflexivity.
Qed.

Lemma active_version_world (E : os_env) (w : world) :
  snd (Env.active_version E w) = w.
Proof.
  rewrite active_version_unfold.
  destruct (os_lstat (w_fs w) (Env.sdk_link E (w_config w))) as [[|d m|target]|e];
    try reflexivity.
  - now destruct (str_eqb (os_path_basename target) google_appengine).
  - now destruct (is_ENOENT e).
Qed.

Lemma is_ENOENT_eq (e : exn) : is_ENOENT e = true <-> e = OSError ENOENT.
Proof.
  split; [|now intros ->].
  destruct e as [| | | | |n|n|s| | |]; try discriminate.
  destruct n; try discriminate. reflexivity.
Qed.

(** C8.  [active_version] changes nothing.  It returns [None] exactly when
    reading the link fails for a missing entry ([ENOENT]): the link, or a
    directory on its path, is not there.  Every other failure to read the
    link is raised: a regular file where a directory of the path should be
    ([ENOTDIR]), or an entry at the link's path that is no symlink
    ([EINVAL]).  When a symlink is there and the last segment of its target
    is not [google_appengine] it raises [AssertionError]; otherwise it
    returns the name of the directory that holds the target, that is the
    name of the target's parent directory.  With the link's directory a
    directory as it is spelled, the link is read at its own path; with an
    empty option [link] there is no active version. *)
Theorem active_version_reads_the_link (E : os_env) (w : world) :
  let link := Env.sdk_link E (w_config w) in
  snd (Env.active_version E w) = w
  /\ (fst (Env.active_version E w) = Ok None
      <-> os_lstat (w_fs w) link = Raise (OSError ENOENT))
  /\ (forall e, os_lstat (w_fs w) link = Raise e -> e <> OSError ENOENT ->
                fst (Env.active_version E w) = Raise e)
  /\ (forall n, os_lstat (w_fs w) link = Ok n -> (forall target, n <> NLink target) ->
                fst (Env.active_version E w) = Raise (OSError EINVAL))
  /\ (forall target,
        os_lstat (w_fs w) link = Ok (NLink target) ->
        snd (os_path_split target) <> google_appengine ->
        fst (Env.active_version E w) = Raise AssertionError)
  /\ (forall target,
        os_lstat (w_fs w) link = Ok (NLink target) ->
        snd (os_path_split target) = google_appengine ->
        fst (Env.active_version E w)
        = Ok (Some (os_path_basename (os_path_dirname target))))
  /\ (cfg_link (w_config w) <> [] ->
      fs_lookup (os_path_dirname link) (w_fs w) = Some NDir ->
      os_lstat (w_fs w) link = match fs_lookup link (w_fs w) with
                               | Some n => Ok n
                               | None => Raise (OSError ENOENT)
                               end)
  /\ (cfg_link (w_config w) = [] -> fst (Env.active_version E w) = Ok None).
Proof.
  intros link. rewrite active_version_unfold. fold link.
  split; [|split; [|split; [|split; [|split; [|split; [|split]]]]]].
  - destruct (os_lstat (w_fs w) link) as [[|d m|target]|e]; try reflexivity.
    + now destruct (str_eqb (os_path_basename target) google_appengine).
    + now destruct (is_ENOENT e).
  - destruct (os_lstat (w_fs w) link) as [[|d m|target]|e]; cbn [fst];
      try (split; discriminate).
    + destruct (str_eqb (os_path_basename target) google_appengine);
        split; discriminate.
    + destruct (is_ENOENT e) eqn:He; cbn [fst].
      * apply is_ENOENT_eq in He. subst e. tauto.
      * split; [discriminate|]. intros H. injection H as ->. discriminate.
  - intros e -> Hne. destruct (is_ENOENT e) eqn:He; [|reflexivity].
    apply is_ENOENT_eq in He. contradiction.
  - intros n -> Hn. destruct n as [|d m|target]; try reflexivity.
    now destruct (Hn target).
  - intros target -> Hne. rewrite snd_os_path_split in Hne.
    apply str_eqb_neq in Hne. now rewrite Hne.
  - intros target -> Heq. rewrite snd_os_path_split in Heq.
    apply str_eqb_eq in Heq. now rewrite Heq.
  - intros Hcfg Hdir. apply os_lstat_spelled; [|exact Hdir].
    now apply sdk_link_spelled.
  - intros Hcfg. assert (Hl : link = []) by now apply sdk_link_empty.
    rewrite Hl. reflexivity.
Qed.

(** With the link of 1.9.57 in place the active version is 1.9.57, the name
    of the target's parent directory. *)
Lemma active_version_reads_the_link_witness :
  fst (Env.active_version (linux_env no_network)
         (start (fresh_home ++ [link_to "1.9.57"])))
  = Ok (Some (py "1.9.57")).
Proof.
  destruct (active_version_reads_the_link (linux_env no_network)
              (start (fresh_home ++ [link_to "1.9.57"])))
    as (_ & _ & _ & _ & _ & H & _).
  apply (H (py "/home/foo/.sdkswitcher/1.9.57/google_appengine"));
    reflexivity.
Defined.

(** The active version is not the name of the parent of the target's parent:
    for the link of 1.9.57 that directory is the cache directory,
    [.sdkswitcher]. *)
Lemma active_version_is_not_the_grandparent :
  let target := py "/home/foo/.sdkswitcher/1.9.57/google_appengine" in
  let w := start (fresh_home ++ [link_to "1.9.57"]) in
  fs_lookup (Env.sdk_link (linux_env no_network) (w_config w)) (w_fs w)
  = Some (NLink target)
  /\ os_path_basename (os_path_dirname (os_path_dirname target)) = py ".sdkswitcher"
  /\ fst (Env.active_version (linux_env no_network) w) = Ok (Some (py "1.9.57"))
  /\ fst (Env.active_version (linux_env no_network) w)
     <> Ok (Some (os_path_basename (os_path_dirname (os_path_dirname target)))).
Proof.
  repeat split; try reflexivity. vm_compute. discriminate.
Qed.

(** A link that does not exist is not always reported as no active version:
    with the option [link] set to a regular file, nothing is at the link's
    path, and [active_version] raises [OSError(ENOTDIR)]. *)
Lemma active_version_below_a_regular_file :
  let w := with_link (start (fresh_home ++ [(py "/home/foo/notes", NFile [] 420)]))
             (py "/home/foo/notes") in
  Env.sdk_link (linux_env no_network) (w_config w)
  = py "/home/foo/notes/google_appengine"
  /\ fs_lookup (py "/home/foo/notes/google_appengine") (w_fs w) = None
  /\ fst (Env.active_version (linux_env no_network) w) = Raise (OSError ENOTDIR).
Proof. repeat split; vm_compute; reflexivity. Qed.

(** ** Activation *)

(** C2.  Over an existing link, [_activate] first tries to create the link,
    which fails because the path exists; it then removes the old link and
    creates the new one.  The file system goes through a state without any
    link at the configured location before the new link is there.  The link
    stands in a directory that is a directory under the path as it is
    spelled, with no symlink on the way. *)
Theorem activate_unlinks_then_links
  (E : os_env) (w w1 : world) (tok : pyval) (v old : str) :
  let link := Env.sdk_link E (w_config w) in
  let target := os_path_join (Env.cache_dir E (w_config w)) [v; google_appengine] in
  let fs1 := fs_remove link (w_fs w) in
  let fs2 := fs_add link (NLink target) fs1 in
  Env._resolve_version E tok w = (Ok (Some v), w1) ->
  cfg_link (w_config w) <> [] ->
  fs_lookup (os_path_dirname link) (w_fs w) = Some NDir ->
  fs_lookup link (w_fs w) = Some (NLink old) ->
  os_symlink target link (w_fs w) = Raise (OSError EEXIST)
  /\ Env._activate E tok w = (Ok target, with_fs w1 fs2 [fs1; fs2])
  /\ w_trace (snd (Env._activate E tok w)) = w_trace w ++ [fs1; fs2]
  /\ fs_lookup link fs1 = None
  /\ fs_lookup link fs2 = Some (NLink target).
Proof.
  intros link target fs1 fs2 Hres Hcfg Hdir Hold.
  destruct (@sdk_link_spelled E (w_config w) Hcfg) as [Hsp _]. fold link in Hsp.
  pose proof (resolve_version_world E w tok) as Hw.
  rewrite Hres in Hw. simpl in Hw. destruct Hw as (Hfs & _ & Htr & _).
  assert (Hnone : fs_lookup link fs1 = None) by apply fs_lookup_remove_same.
  assert (Hact : Env._activate E tok w = (Ok target, with_fs w1 fs2 [fs1; fs2])).
  { rewrite (@activate_resolved E w w1 tok v Hres). fold link target.
    rewrite (@place_link_replace E target link w1 (NLink old));
      rewrite ?Hfs; try assumption; [|discriminate].
    reflexivity. }
  split; [now apply (@os_symlink_exists target link (w_fs w) (NLink old))|].
  split; [exact Hact|]. split; [rewrite Hact; simpl; now rewrite Htr|].
  split; [exact Hnone|].
  unfold fs2. now apply fs_lookup_add_new.
Qed.

(** Switching from 1.8.0 to 1.9.57 in a home directory. *)
Lemma activate_unlinks_then_links_witness :
  let E := linux_env no_network in
  let w := start (fresh_home ++ [link_to "1.8.0"]) in
  let link := py "/home/foo/google_appengine" in
  let target := py "/home/foo/.sdkswitcher/1.9.57/google_appengine" in
  w_trace (snd (Env._activate E (Some (py "1.9.57")) w))
  = [fs_remove link (w_fs w); fs_add link (NLink target) (fs_remove link (w_fs w))].
Proof.
  apply (@activate_unlinks_then_links (linux_env no_network)
           (start (fresh_home ++ [link_to "1.8.0"]))
           (start (fresh_home ++ [link_to "1.8.0"]))
           (Some (py "1.9.57")) (py "1.9.57")
           (py "/home/foo/.sdkswitcher/1.8.0/google_appengine"));
    [reflexivity|discriminate|reflexivity|reflexivity].
Defined.

(** Replacing the link of 1.8.0 by the link of 1.9.57 goes through a file
    system with no link at the configured location. *)
Lemma activate_leaves_a_window_without_link :
  let E := linux_env no_network in
  let w := start (fresh_home ++ [link_to "1.8.0"]) in
  let link := Env.sdk_link E (w_config w) in
  fs_lookup link (w_fs w)
  = Some (NLink (py "/home/foo/.sdkswitcher/1.8.0/google_appengine"))
  /\ map (fs_lookup link) (w_trace (snd (Env._activate E (Some (py "1.9.57")) w)))
     = [None; Some (NLink (py "/home/foo/.sdkswitcher/1.9.57/google_appengine"))]
  /\ exists fs, In fs (w_trace (snd (Env._activate E (Some (py "1.9.57")) w)))
                /\ fs_lookup link fs = None.
Proof.
  split; [reflexivity|]. split; [vm_compute; reflexivity|].
  eexists. split; [left; reflexivity|]. vm_compute. reflexivity.
Qed.

(** C5.  After [_activate] of a version that matches the strict pattern,
    [active_version] returns that version, whatever stood at the link before
    (nothing, a link to this or another version, a file), as long as it is no
    directory and the link's directory exists, under the path as it is
    spelled, with no symlink on the way.  Activating the same version
    again succeeds: the existing link is replaced, no error for a path that
    exists is raised. *)
Theorem activate_then_active_version (E : os_env) (w : world) (v : str) :
  let link := Env.sdk_link E (w_config w) in
  let target := os_path_join (Env.cache_dir E (w_config w)) [v; google_appengine] in
  SDK_VERSION_PATTERN_match v = true ->
  cfg_link (w_config w) <> [] ->
  fs_lookup (os_path_dirname link) (w_fs w) = Some NDir ->
  fs_lookup link (w_fs w) <> Some NDir ->
  exists w1 w2,
    Env._activate E (Some v) w = (Ok target, w1)
    /\ fs_lookup link (w_fs w1) = Some (NLink target)
    /\ Env.active_version E w1 = (Ok (Some v), w1)
    /\ Env._activate E (Some v) w1 = (Ok target, w2)
    /\ fs_lookup link (w_fs w2) = Some (NLink target)
    /\ Env.active_version E w2 = (Ok (Some v), w2)
    /\ fst (Env.activate E (Some v) w) = Ok tt.
Proof.
  intros link target Hstrict Hcfg Hdir Hnodir.
  destruct (@sdk_link_spelled E (w_config w) Hcfg) as [Hsp _]. fold link in Hsp.
  destruct (@strict_version_shape v Hstrict) as (Hvne & Hvslash & _).
  destruct (@activation_target (Env.cache_dir E (w_config w)) v Hvne Hvslash)
    as [Hsplit Hbase].
  fold target in Hsplit.
  assert (Hparent : os_path_dirname link <> link)
    by exact (@spelled_parent (w_fs w) link Hdir Hnodir).
  (* what [active_version] reads once the link is in place *)
  assert (Hread : forall w', w_config w' = w_config w ->
            fs_lookup (os_path_dirname link) (w_fs w') = Some NDir ->
            fs_lookup link (w_fs w') = Some (NLink target) ->
            Env.active_version E w' = (Ok (Some v), w')).
  { intros w' Hc Hd Hl. rewrite active_version_unfold, Hc. fold link.
    rewrite (@os_lstat_spelled (w_fs w') link Hsp Hd), Hl.
    rewrite <- snd_os_path_split. unfold os_path_dirname. rewrite Hsplit.
    cbn [fst snd]. now rewrite str_eqb_refl, Hbase. }
  (* one activation, from any state with these properties *)
  assert (Hstep : forall w0, w_config w0 = w_config w ->
            fs_lookup (os_path_dirname link) (w_fs w0) = Some NDir ->
            fs_lookup link (w_fs w0) <> Some NDir ->
            exists w', Env._activate E (Some v) w0 = (Ok target, w')
                       /\ w_config w' = w_config w
                       /\ fs_lookup (os_path_dirname link) (w_fs w') = Some NDir
                       /\ fs_lookup link (w_fs w') = Some (NLink target)).
  { intros w0 Hc Hd Hn.
    rewrite (@activate_resolved E w0 w0 (Some v) v (@resolve_version_strict E w0 v Hstrict)).
    rewrite Hc. fold link target.
    destruct (fs_lookup link (w_fs w0)) as [n|] eqn:Hl.
    - rewrite (@place_link_replace E target link w0 n Hsp Hd Hl) by congruence.
      eexists. split; [reflexivity|]. simpl.
      split; [exact Hc|]. split.
      + rewrite fs_lookup_add_other by exact Hparent.
        now rewrite fs_lookup_remove_other.
      + apply fs_lookup_add_new, fs_lookup_remove_same.
    - rewrite (@place_link_fresh E target link w0 Hsp Hd Hl).
      eexists. split; [reflexivity|]. simpl.
      split; [exact Hc|]. split.
      + now rewrite fs_lookup_add_other.
      + now apply fs_lookup_add_new. }
  destruct (Hstep w eq_refl Hdir Hnodir) as (w1 & Ha1 & Hc1 & Hd1 & Hl1).
  assert (Hn1 : fs_lookup link (w_fs w1) <> Some NDir) by (rewrite Hl1; discriminate).
  destruct (Hstep w1 Hc1 Hd1 Hn1) as (w2 & Ha2 & Hc2 & Hd2 & Hl2).
  exists w1, w2. repeat split; auto.
  unfold Env.activate, bind. rewrite Ha1, (Hread w1 Hc1 Hd1 Hl1). reflexivity.
Qed.

(** Activating 1.9.57 in a fresh home directory, and then once more. *)
Lemma activate_then_active_version_witness :
  let E := linux_env no_network in
  let w := start fresh_home in
  exists w1 w2,
    Env._activate E (Some (py "1.9.57")) w
    = (Ok (py "/home/foo/.sdkswitcher/1.9.57/google_appengine"), w1)
    /\ Env.active_version E w1 = (Ok (Some (py "1.9.57")), w1)
    /\ Env._activate E (Some (py "1.9.57")) w1
       = (Ok (py "/home/foo/.sdkswitcher/1.9.57/google_appengine"), w2)
    /\ Env.active_version E w2 = (Ok (Some (py "1.9.57")), w2).
Proof.
  destruct (@activate_then_active_version (linux_env no_network)
              (start fresh_home) (py "1.9.57"))
    as (w1 & w2 & H1 & _ & H2 & H3 & _ & H4 & _);
    [reflexivity|discriminate|reflexivity|discriminate|].
  exists w1, w2. repeat split; assumption.
Defined.

(** ** Moving the link *)

Lemma open_w_unfold (fuel : nat) (path data : str) (fs : filesystem) :
  open_w fuel path data fs =
  match lkey fs path with
  | Raise e => Raise (as_IOError e)
  | Ok k =>
      match fs_lookup k fs with
      | Some NDir => Raise (IOError EISDIR)
      | Some (NFile _ mode) => Ok (fs_replace k (NFile data mode) fs)
      | Some (NLink []) => Raise (IOError ENOENT)
      | Some (NLink t) =>
          match fuel with
          | O => Raise (IOError ELOOP)
          | S n => open_w n (os_path_join2 (os_path_dirname k) t) data fs
          end
      | None =>
          if names_entry path then Ok (fs_add k (NFile data 420) fs)
          else Raise (IOError EISDIR)
      end
  end.
Proof. destruct fuel; reflexivity. Qed.




Lemma activate_unfold (E : os_env) (w : world) (tok : pyval) :
  Env._activate E tok w =
  match Env._resolve_version E tok w with
  | (Ok (Some v), w1) =>
      let target := os_path_join (Env.cache_dir E (w_config w1)) [v; google_appengine] in
      match place_link E target (Env.sdk_link E (w_config w1)) w1 with
      | (Ok _, w2) => (Ok target, w2)
      | (Raise e, w2) => (Raise e, w2)
      end
  | (Ok None, w1) => (Raise AttributeError, w1)
  | (Raise e, w1) => (Raise e, w1)
  end.
Proof.
  unfold Env._activate, bind at 1.
  destruct (Env._resolve_version E tok w) as [[[v|]|e] w1]; reflexivity.
Qed.

Lemma activate_public_unfold (E : os_env) (w : world) (tok : pyval) :
  Env.activate E tok w =
  match Env._activate E tok w with
  | (Ok _, w2) =>
      match Env.active_version E w2 with
      | (Ok version, w3) =>
          stdout_write (py "SDK version " ++ format_s version
                          ++ py " is now active." ++ [LF]) w3
      | (Raise e, w3) => (Raise e, w3)
      end
  | (Raise e, w2) => (Raise e, w2)
  end.
Proof.
  unfold Env.activate, bind.
  destruct (Env._activate E tok w) as [[t|e] w2]; reflexivity.
Qed.












(** A new path that is another spelling of the old one leaves no link at
    all, with no step that fails: the link is replaced where it is, and then
    removed as the old one.  Here the home directory is named with two
    slashes in front, and through a symlink. *)
Lemma link_to_another_spelling_removes_the_link :
  let E := linux_env no_network in
  let w := start (home_with ["1.9.57"]%string
                  ++ [link_to "1.9.57"; (py "/home/me", NLink (py "foo"))]) in
  fs_lookup (py "/home/foo/google_appengine") (w_fs w)
  = Some (NLink (py "/home/foo/.sdkswitcher/1.9.57/google_appengine"))
  /\ (forall dest, In dest [py "//home/foo"; py "/home/me"] ->
        let after := Env.link E dest w in
        fst after = Ok tt
        /\ filter (fun e => match snd e with NLink _ => true | _ => false end)
             (w_fs (snd after))
           = [(py "/home/me", NLink (py "foo"))]).
Proof.
  split; [reflexivity|].
  intros dest [<-|[<-|[]]]; vm_compute; split; reflexivity.
Qed.


(** * Further properties of the code *)

(** ** The strict pattern *)

Lemma take_while_run (p : ascii -> bool) (d r : str) :
  forallb p d = true -> match r with [] => True | c :: _ => p c = false end ->
  take_while p (d ++ r) = d /\ drop_while p (d ++ r) = r.
Proof.
  intros Hd Hr. induction d as [|c d IH]; simpl.
  - destruct r as [|c r]; [auto|]. simpl in *. now rewrite Hr.
  - simpl in Hd. apply andb_true_iff in Hd as [Hc Hd].
    rewrite Hc. destruct (IH Hd) as [-> ->]. auto.
Qed.

Lemma digits1_run (d r : str) :
  digit_run d = true -> match r with [] => True | c :: _ => is_digit c = false end ->
  digits1 (d ++ r) = Some r.
Proof.
  intros Hd Hr. unfold digits1.
  assert (Hall : forallb is_digit d = true) by (destruct d; [discriminate|exact Hd]).
  destruct (take_while_run is_digit d r Hall Hr) as [-> ->].
  now destruct d.
Qed.

(** X1.  The strict pattern matches exactly three non-empty runs of digits
    with a dot between them, optionally followed by one newline at the end;
    a token that matches resolves to itself, installed or not, and the world
    (file system, network log, output) stays as it was. *)
Theorem strict_token_resolves_to_itself (E : os_env) (w : world) (v : str) :
  (SDK_VERSION_PATTERN_match v = true <->
   exists d1 d2 d3 tail,
     v = d1 ++ py "." ++ d2 ++ py "." ++ d3 ++ tail
     /\ digit_run d1 = true /\ digit_run d2 = true /\ digit_run d3 = true
     /\ (tail = [] \/ tail = [LF]))
  /\ (SDK_VERSION_PATTERN_match v = true ->
      Env._resolve_version E (Some v) w = (Ok (Some v), w)).
Proof.
  split; [|apply resolve_version_strict].
  split.
  - unfold SDK_VERSION_PATTERN_match. intros H.
    destruct (digits1 v) as [[|c1 r1]|] eqn:H1; try discriminate.
    destruct (Ascii.eqb c1 ".") eqn:Hc1;
      [apply Ascii.eqb_eq in Hc1; subst c1
      |destruct c1 as [[] [] [] [] [] [] [] []]; discriminate].
    destruct (digits1 r1) as [[|c2 r2]|] eqn:H2; try discriminate.
    destruct (Ascii.eqb c2 ".") eqn:Hc2;
      [apply Ascii.eqb_eq in Hc2; subst c2
      |destruct c2 as [[] [] [] [] [] [] [] []]; discriminate].
    destruct (digits1 r2) as [r3|] eqn:H3; try discriminate.
    apply digits1_shape in H1 as (d1 & -> & Hn1 & Hd1).
    apply digits1_shape in H2 as (d2 & -> & Hn2 & Hd2).
    apply digits1_shape in H3 as (d3 & -> & Hn3 & Hd3).
    exists d1, d2, d3, r3. repeat split.
    + now destruct d1.
    + now destruct d2.
    + now destruct d3.
    + apply orb_true_iff in H as [H|H]; apply str_eqb_eq in H; auto.
  - intros (d1 & d2 & d3 & tail & -> & H1 & H2 & H3 & Htail).
    unfold SDK_VERSION_PATTERN_match.
    change (py "." ++ d2 ++ py "." ++ d3 ++ tail)
      with ("."%char :: d2 ++ "."%char :: d3 ++ tail).
    rewrite (digits1_run d1 _ H1) by reflexivity.
    rewrite (digits1_run d2 _ H2) by reflexivity.
    rewrite (digits1_run d3 tail H3) by (destruct Htail as [->| ->]; reflexivity).
    destruct Htail as [->| ->]; reflexivity.
Qed.

(** The version 1.9.57 followed by a newline matches the strict pattern and
    resolves to itself, newline included. *)
Lemma strict_token_resolves_to_itself_witness :
  Env._resolve_version (linux_env no_network) (Some (py "1.9.57" ++ [LF]))
    (start fresh_home)
  = (Ok (Some (py "1.9.57" ++ [LF])), start fresh_home).
Proof.
  apply (strict_token_resolves_to_itself (linux_env no_network) (start fresh_home)
           (py "1.9.57" ++ [LF])).
  reflexivity.
Defined.

(** ** The empty token *)

Lemma filter_all (A : Type) (p : A -> bool) (l : list A) :
  (forall x, p x = true) -> filter p l = l.
Proof.
  intros Hp. induction l as [|x l IH]; [reflexivity|].
  simpl. now rewrite Hp, IH.
Qed.

(** X2.  The empty token is a substring of every version: it resolves to the
    installed version when exactly one is installed, and raises
    [BadVersionString] when none or several are. *)
Theorem empty_token_matches_every_version (E : os_env) (w : world) :
  Env._resolve_version E (Some []) w =
  match Env._get_installed_versions E w with
  | [m] => (Ok (Some m), w)
  | _ => (Raise BadVersionString, w)
  end.
Proof.
  rewrite resolve_version_fragment; [|discriminate|reflexivity].
  rewrite filter_all; [reflexivity|].
  intros v. now destruct v.
Qed.

(** ** The update check *)

Lemma readlines_from_cons (cur s : str) :
  readlines_from cur s =
  match readlines_from [] s with
  | [] => match cur with [] => [] | _ => [rev cur] end
  | l :: ls => (rev cur ++ l) :: ls
  end.
Proof.
  revert cur. induction s as [|c s IH]; intros cur.
  - simpl. destruct cur; reflexivity.
  - simpl. destruct (Ascii.eqb c LF); [reflexivity|].
    rewrite (IH (c :: cur)), (IH [c]).
    destruct (readlines_from [] s) as [|l ls]; simpl.
    + reflexivity.
    + now rewrite <- app_assoc.
Qed.

(** The first line of a body starts with the text before the body's first
    newline. *)
Lemma readlines_first (a rest : str) :
  a <> [] -> forallb (fun c => negb (Ascii.eqb c LF)) a = true ->
  exists t ls, readlines (a ++ rest) = (a ++ t) :: ls.
Proof.
  unfold readlines. induction a as [|c a IH]; [contradiction|].
  intros _ Ha. simpl in Ha. apply andb_true_iff in Ha as [Hc Ha].
  apply negb_true_iff in Hc. simpl. rewrite Hc.
  rewrite readlines_from_cons. destruct a as [|c' a].
  - simpl. destruct (readlines_from [] rest) as [|l ls].
    + exists [], []. reflexivity.
    + exists l, ls. reflexivity.
  - destruct (IH ltac:(discriminate) Ha) as (t & ls & ->).
    exists t, ls. reflexivity.
Qed.

Lemma match_release_here_line (version t : str) :
  version <> [] ->
  forallb (fun c => negb (Ascii.eqb c dquote)) version = true ->
  match_release_here (py "release: " ++ [dquote] ++ version ++ [dquote] ++ t)
  = Some version.
Proof.
  intros Hne Hq. unfold match_release_here.
  assert (Hpre : strip_prefix (py "release: " ++ [dquote])
                   (py "release: " ++ [dquote] ++ version ++ [dquote] ++ t)
                 = Some (version ++ [dquote] ++ t)).
  { apply strip_prefix_app. now rewrite <- !app_assoc. }
  rewrite Hpre. cbv zeta.
  destruct (take_while_run (fun c => negb (Ascii.eqb c dquote)) version
              ([dquote] ++ t) Hq) as [-> ->]; [reflexivity|].
  now destruct version.
Qed.

(** X3.  When the answer of the update check starts with a line
    [release: "<version>"], the version being any non-empty text without a
    quote or a newline, [_check] returns that version after one request to
    the check URL, and changes nothing else. *)
Theorem check_returns_the_release (E : os_env) (w : world) (version rest : str) :
  version <> [] ->
  forallb (fun c => negb (Ascii.eqb c dquote)) version = true ->
  forallb (fun c => negb (Ascii.eqb c LF)) version = true ->
  network E SDK_VERSION_CHECK_URL
  = Response (py "release: " ++ [dquote] ++ version ++ [dquote] ++ rest) ->
  Env._check E w
  = (Ok (Some version),
     {| w_fs := w_fs w; w_config := w_config w; w_stdout := w_stdout w;
        w_requests := w_requests w ++ [SDK_VERSION_CHECK_URL];
        w_trace := w_trace w |}).
Proof.
  intros Hne Hq Hlf Hnet. unfold Env._check, urlopen, bind, ret. rewrite Hnet.
  f_equal. f_equal.
  set (a := py "release: " ++ [dquote] ++ version ++ [dquote]).
  assert (Ha : forallb (fun c => negb (Ascii.eqb c LF)) a = true).
  { unfold a. rewrite !forallb_app, Hlf. reflexivity. }
  destruct (@readlines_first a rest ltac:(discriminate) Ha) as (t & ls & Hlines).
  replace (py "release: " ++ [dquote] ++ version ++ [dquote] ++ rest)
    with (a ++ rest) by (unfold a; now rewrite <- !app_assoc).
  rewrite Hlines. unfold Env.first_release.
  assert (Hhere : match_release_here (a ++ t) = Some version).
  { unfold a. rewrite <- !app_assoc. now apply match_release_here_line. }
  unfold a in *. cbn [search_release app py list_ascii_of_string] in *.
  now rewrite Hhere.
Qed.

(** The answer of the test suite: the release 1.9.57 and a timestamp. *)
Lemma check_returns_the_release_witness :
  fst (Env._check
         (linux_env (serve [(SDK_VERSION_CHECK_URL,
                             Response (py "release: " ++ [dquote] ++ py "1.9.57"
                                         ++ [dquote] ++ LF :: check_without_release))]))
         (start fresh_home))
  = Ok (Some (py "1.9.57")).
Proof.
  rewrite (@check_returns_the_release _ (start fresh_home) (py "1.9.57")
             (LF :: check_without_release));
    try reflexivity.
  discriminate.
Defined.

(** ** File names *)

Lemma filename_char_not_slash (c : ascii) :
  filename_char c = true -> is_slash c = false.
Proof.
  intros H. unfold is_slash. destruct (Ascii.eqb c "/") eqn:Hc; [|reflexivity].
  apply Ascii.eqb_eq in Hc. subst c. discriminate.
Qed.

Lemma filename_chars_no_slash (f : str) :
  forallb filename_char f = true -> no_slash f = true.
Proof.
  unfold no_slash. induction f as [|c f IH]; [reflexivity|].
  simpl. rewrite !andb_true_iff. intros [Hc Hf].
  split; [|auto]. now rewrite (filename_char_not_slash c Hc).
Qed.

Lemma drop_while_app (p : ascii -> bool) (a b : str) :
  drop_while p (a ++ b) =
  match drop_while p a with
  | [] => drop_while p b
  | d => d ++ b
  end.
Proof.
  induction a as [|c a IH]; simpl; [now destruct (drop_while p b)|].
  destruct (p c); [exact IH|reflexivity].
Qed.

Lemma sub_runs_outside (p : ascii -> bool) (b : bool) (s : str) :
  forallb (fun c => negb (p c)) s = true -> sub_runs p b s = s.
Proof.
  revert b. induction s as [|c s IH]; intros b; [reflexivity|].
  simpl. rewrite andb_true_iff, negb_true_iff. intros [Hc Hs].
  now rewrite Hc, IH.
Qed.

Lemma sub_runs_dot_single (b : bool) (s : str) :
  no_dotdot s = true -> (b = true -> is_dot (hd "x"%char s) = false) ->
  sub_runs is_dot b s = s.
Proof.
  revert b. induction s as [|c s IH]; intros b Hnd Hb; [reflexivity|].
  assert (Hs : no_dotdot s = true).
  { destruct s as [|c2 s]; [reflexivity|].
    change (negb (is_dot c && is_dot c2) && no_dotdot (c2 :: s) = true) in Hnd.
    now apply andb_true_iff in Hnd as [_ Hnd]. }
  simpl. destruct (is_dot c) eqn:Hc.
  - destruct b; [simpl in Hb; rewrite Hb in Hc by reflexivity; discriminate|].
    assert (Hd : c = "."%char) by now apply Ascii.eqb_eq.
    subst c. f_equal. apply IH; [exact Hs|]. intros _.
    destruct s as [|c2 s]; [reflexivity|].
    change (negb (is_dot "." && is_dot c2) && no_dotdot (c2 :: s) = true) in Hnd.
    apply andb_true_iff in Hnd as [Hnd _]. simpl.
    now destruct (is_dot c2).
  - f_equal. apply IH; [exact Hs|discriminate].
Qed.

Lemma strip_outside (p : ascii -> bool) (s : str) :
  p (hd "x"%char s) = false -> p (last s "x"%char) = false -> strip p s = s.
Proof.
  intros Hhd Hlast. unfold strip, lstrip.
  destruct s as [|c s]; [reflexivity|].
  simpl in Hhd. simpl drop_while. rewrite Hhd.
  destruct (@exists_last _ (c :: s) ltac:(discriminate)) as (s' & x & Hs).
  rewrite Hs in *. rewrite last_last in Hlast.
  now rewrite rstrip_snoc, Hlast.
Qed.

Lemma clean_name_parts (f : str) :
  clean_name f = true ->
  f <> [] /\ forallb filename_char f = true /\ no_dotdot f = true
  /\ is_dot (hd "x"%char f) = false /\ is_dot (last f "x"%char) = false.
Proof.
  unfold clean_name. destruct f as [|c f]; [discriminate|].
  rewrite !andb_true_iff, !negb_true_iff. intros [[[H1 H2] H3] H4].
  repeat split; auto. discriminate.
Qed.

(** The final segment of a path that ends in a name without a slash is that
    name. *)
Lemma final_segment_name (pre f : str) :
  f <> [] -> no_slash f = true -> (pre = [] \/ exists q, pre = q ++ py "/") ->
  final_segment (pre ++ f) = f.
Proof.
  intros Hne Hf Hpre. unfold final_segment, strip, lstrip.
  destruct (no_slash_last Hne Hf) as (f' & x & Hfx & Hx).
  assert (Hhd : drop_while is_slash f = f).
  { destruct f as [|c f0]; [contradiction|]. simpl.
    unfold no_slash in Hf. simpl in Hf. apply andb_true_iff in Hf as [Hc _].
    apply negb_true_iff in Hc. now rewrite Hc. }
  assert (Hshape : drop_while is_slash (pre ++ f) = f
                   \/ exists q, drop_while is_slash (pre ++ f) = q ++ "/"%char :: f).
  { destruct Hpre as [->|[q ->]]; [left; exact Hhd|].
    rewrite drop_while_app. change (py "/") with ["/"%char].
    rewrite drop_while_snoc.
    destruct (drop_while is_slash q) as [|d ds]; simpl.
    - left. exact Hhd.
    - right. exists (d :: ds). now rewrite <- app_assoc. }
  assert (Hv' : forallb (fun c => negb (Ascii.eqb c "/")) f = true) by exact Hf.
  destruct Hshape as [->|[q ->]].
  - rewrite Hfx, rstrip_snoc, Hx, <- Hfx. unfold rpartition.
    now rewrite (@rsplit1_none "/" f Hv').
  - replace (q ++ "/"%char :: f) with ((q ++ "/"%char :: f') ++ [x])
      by (rewrite Hfx, <- app_assoc; reflexivity).
    rewrite rstrip_snoc, Hx.
    replace ((q ++ "/"%char :: f') ++ [x]) with (q ++ "/"%char :: f)
      by (rewrite Hfx, <- app_assoc; reflexivity).
    unfold rpartition. now rewrite (@rsplit1_last "/" q f Hv').
Qed.

(** A clean name at the end of a path is what [safe_filename] returns. *)
Lemma safe_filename_of_clean (pre f : str) :
  clean_name f = true -> (pre = [] \/ exists q, pre = q ++ py "/") ->
  safe_filename (pre ++ f) = Ok f.
Proof.
  intros Hclean Hpre.
  destruct (clean_name_parts f Hclean) as (Hne & Hchars & Hnd & Hhd & Hlast).
  rewrite safe_filename_unfold.
  rewrite (final_segment_name Hne (filename_chars_no_slash f Hchars) Hpre).
  rewrite (@sub_runs_outside (fun c => negb (filename_char c)) false f).
  2:{ clear -Hchars. induction f as [|c f IH]; [reflexivity|].
      simpl in *. apply andb_true_iff in Hchars as [Hc Hf].
      now rewrite Hc, IH. }
  rewrite sub_runs_dot_single by (exact Hnd || discriminate).
  rewrite strip_outside by assumption.
  now destruct f.
Qed.

(** What [safe_filename] returns is a clean name. *)
Lemma safe_filename_clean (url f : str) :
  safe_filename url = Ok f -> clean_name f = true.
Proof.
  rewrite safe_filename_unfold.
  pose proof (cleaned_filename_chars (final_segment url)) as Hchars.
  set (raw := sub_runs is_dot false
                (sub_runs (fun c => negb (filename_char c)) false
                   (final_segment url))) in *.
  assert (Hnd : no_dotdot (strip is_dot raw) = true).
  { unfold strip, lstrip. apply rstrip_no_dotdot, drop_while_no_dotdot.
    apply sub_runs_dot_no_dotdot. }
  assert (Hhd : strip is_dot raw <> [] ->
                is_dot (hd "x"%char (strip is_dot raw)) = false).
  { unfold strip, lstrip. pose proof (drop_while_hd is_dot raw) as Hd.
    destruct (drop_while is_dot raw) as [|d ds]; [easy|].
    destruct (@rstrip_hd is_dot d ds Hd) as [r ->]. intros _. exact Hd. }
  assert (Hlast : strip is_dot raw <> [] ->
                  is_dot (last (strip is_dot raw) "x"%char) = false).
  { unfold strip. apply rstrip_last. }
  destruct (strip is_dot raw) as [|c f0] eqn:Hf; [discriminate|].
  intros H. injection H as <-.
  unfold clean_name. rewrite Hchars, Hnd.
  specialize (Hhd ltac:(discriminate)). specialize (Hlast ltac:(discriminate)).
  simpl in Hhd. rewrite Hhd, Hlast. reflexivity.
Qed.

(** X4.  [safe_filename] is idempotent: a name it returns is returned
    unchanged when it is cleaned again, alone or at the end of any path. *)
Theorem safe_filename_idempotent (url f dir : str) :
  safe_filename url = Ok f ->
  safe_filename f = Ok f /\ safe_filename (dir ++ py "/" ++ f) = Ok f.
Proof.
  intros H. apply safe_filename_clean in H. split.
  - apply (@safe_filename_of_clean [] f H). now left.
  - rewrite app_assoc. apply (@safe_filename_of_clean (dir ++ py "/") f H).
    right. now exists dir.
Qed.

(** The name cleaned from the second documented input stays as it is. *)
Lemma safe_filename_idempotent_witness :
  safe_filename (py "bar.zip") = Ok (py "bar.zip").
Proof.
  apply (@safe_filename_idempotent (py "foo/../../..bar..zip..") (py "bar.zip") []).
  reflexivity.
Defined.

(** ** The downloaded archive *)

Lemma no_dotdot_skip (d s : str) :
  forallb (fun c => negb (is_dot c)) d = true ->
  no_dotdot (d ++ s) = no_dotdot s.
Proof.
  induction d as [|c d IH]; [reflexivity|].
  simpl forallb. rewrite andb_true_iff, negb_true_iff. intros [Hc Hd].
  rewrite <- (IH Hd). simpl app.
  destruct (d ++ s) as [|c2 r]; [reflexivity|].
  change (no_dotdot (c :: c2 :: r))
    with (negb (is_dot c && is_dot c2) && no_dotdot (c2 :: r)).
  now rewrite Hc.
Qed.

Lemma no_dotdot_after_dot (d s : str) :
  d <> [] -> forallb (fun c => negb (is_dot c)) d = true ->
  no_dotdot ("."%char :: d ++ s) = no_dotdot s.
Proof.
  intros Hne Hd. rewrite <- (no_dotdot_skip d s Hd).
  destruct d as [|c d]; [contradiction|]. simpl in Hd.
  apply andb_true_iff in Hd as [Hc _]. apply negb_true_iff in Hc.
  simpl app.
  change (no_dotdot ("."%char :: c :: d ++ s))
    with (negb (is_dot "." && is_dot c) && no_dotdot (c :: d ++ s)).
  now rewrite Hc.
Qed.

Lemma digit_run_parts (d : str) :
  digit_run d = true ->
  d <> [] /\ forallb is_digit d = true
  /\ forallb (fun c => negb (is_dot c)) d = true
  /\ forallb filename_char d = true.
Proof.
  intros H. assert (Hall : forallb is_digit d = true)
    by (destruct d; [discriminate|exact H]).
  split; [now destruct d|]. split; [exact Hall|].
  clear H. induction d as [|c d IH]; [split; reflexivity|].
  simpl in *. apply andb_true_iff in Hall as [Hc Hd].
  destruct (IH Hd) as [IH1 IH2]. rewrite IH1, IH2.
  unfold filename_char. rewrite Hc, !orb_true_r. split; [|reflexivity].
  rewrite andb_true_r. unfold is_dot.
  destruct (Ascii.eqb c ".") eqn:Hdot; [|reflexivity].
  apply Ascii.eqb_eq in Hdot. subst c. discriminate.
Qed.

(** The archive's file name of a version of three runs of digits is clean. *)
Lemma archive_name_clean (d1 d2 d3 : str) :
  digit_run d1 = true -> digit_run d2 = true -> digit_run d3 = true ->
  clean_name (py "google_appengine_" ++ dotted [d1; d2; d3] ++ py ".zip") = true.
Proof.
  intros H1 H2 H3.
  destruct (digit_run_parts d1 H1) as (Hn1 & _ & Hd1 & Hf1).
  destruct (digit_run_parts d2 H2) as (Hn2 & _ & Hd2 & Hf2).
  destruct (digit_run_parts d3 H3) as (Hn3 & _ & Hd3 & Hf3).
  unfold dotted.
  change (py_join (py ".") [d1; d2; d3])
    with (d1 ++ "."%char :: d2 ++ "."%char :: d3).
  set (name := py "google_appengine_" ++ (d1 ++ "."%char :: d2 ++ "."%char :: d3)
               ++ py ".zip").
  assert (Hchars : forallb filename_char name = true).
  { unfold name. rewrite !forallb_app. simpl forallb at 3.
    rewrite forallb_app. simpl forallb at 4.
    rewrite Hf1, Hf2, Hf3. reflexivity. }
  assert (Hnd : no_dotdot name = true).
  { unfold name. rewrite no_dotdot_skip by reflexivity.
    rewrite <- !app_assoc. rewrite no_dotdot_skip by exact Hd1.
    simpl app. rewrite <- app_assoc.
    rewrite (@no_dotdot_after_dot d2 _ Hn2 Hd2).
    simpl app. rewrite (@no_dotdot_after_dot d3 _ Hn3 Hd3). reflexivity. }
  assert (Hlast : last name "x"%char = "p"%char).
  { unfold name. rewrite !app_assoc.
    change (py ".zip") with (py ".zi" ++ ["p"%char]).
    rewrite app_assoc. apply last_last. }
  unfold clean_name. rewrite Hchars, Hnd, Hlast. reflexivity.
Qed.

Lemma mkstemp_ok (E : os_env) (suffix name : str) (fs fs1 : filesystem) :
  mkstemp E suffix fs = Ok (name, fs1) ->
  name = tmp_stem E ++ suffix
  /\ exists k, lkey fs name = Ok k /\ fs_lookup k fs = None
               /\ fs1 = fs_add k (NFile [] 384) fs.
Proof.
  unfold mkstemp. destruct (lkey fs (tmp_stem E ++ suffix)) as [k|e] eqn:Hk;
    [|discriminate].
  destruct (fs_lookup k fs) eqn:Hl; [discriminate|].
  destruct (names_entry (tmp_stem E ++ suffix)); [|discriminate].
  intros H. injection H as <- <-. split; [reflexivity|]. now exists k.
Qed.

(** The write into the new, empty file of [mkstemp]. *)
Lemma write_new_file (name body k : str) (fs : filesystem) :
  lkey fs name = Ok k -> fs_lookup k fs = None ->
  let fs1 := fs_add k (NFile [] 384) fs in
  let fs2 := fs_replace k (NFile body 384) fs1 in
  open_w 40 name body fs1 = Ok fs2
  /\ lkey fs2 name = Ok k
  /\ fs_lookup k fs2 = Some (NFile body 384)
  /\ (forall p, p <> k -> fs_lookup p fs2 = fs_lookup p fs).
Proof.
  intros Hk Hnone fs1 fs2.
  assert (Hl1 : fs_lookup k fs1 = Some (NFile [] 384))
    by now apply fs_lookup_add_new.
  assert (Hk1 : lkey fs1 name = Ok k).
  { apply (@lkey_same_ways fs fs1 _ _); [|exact Hk].
    apply same_ways_add; [exact Hnone|discriminate]. }
  split; [|split; [|split]].
  - rewrite open_w_unfold, Hk1, Hl1. reflexivity.
  - apply (@lkey_same_ways fs1 fs2 _ _); [|exact Hk1].
    exact (@same_ways_replace k [] body 384 fs1 Hl1).
  - unfold fs2. now rewrite fs_lookup_replace, Hl1, str_eqb_refl.
  - intros p Hp. unfold fs2, fs1. rewrite fs_lookup_replace, fs_lookup_add.
    assert (Hpk : str_eqb p k = false) by now apply str_eqb_neq.
    assert (Hkp : str_eqb k p = false) by (apply str_eqb_neq; congruence).
    rewrite Hpk, Hkp. now destruct (fs_lookup p fs).
Qed.

(** The steps of [_download] after the answer: the name, the empty file, the
    write. *)
Lemma download_saved (E : os_env) (url body suffix name : str) (w0 r : world) :
  safe_filename url = Ok suffix ->
  (suffix <- lift (safe_filename url) ;;
   filename <- (fun w =>
                  match mkstemp E suffix (w_fs w) with
                  | Ok (name, fs') =>
                      (Ok name,
                       {| w_fs := fs'; w_config := w_config w;
                          w_stdout := w_stdout w; w_requests := w_requests w;
                          w_trace := w_trace w ++ [fs'] |})
                  | Raise e => (Raise e, w)
                  end) ;;
   update_fs (open_w 40 filename body) ;;
   ret filename) w0 = (Ok name, r) ->
  name = tmp_stem E ++ suffix
  /\ exists k, lkey (w_fs w0) name = Ok k /\ fs_lookup k (w_fs w0) = None
               /\ lkey (w_fs r) name = Ok k
               /\ fs_lookup k (w_fs r) = Some (NFile body 384)
               /\ (forall p, p <> k -> fs_lookup p (w_fs r) = fs_lookup p (w_fs w0)).
Proof.
  intros Hs. unfold bind, lift, ret, update_fs. rewrite Hs.
  destruct (mkstemp E suffix (w_fs w0)) as [[name' fs1]|e] eqn:Hmk; [|discriminate].
  apply mkstemp_ok in Hmk as (-> & k & Hk & Hnone & ->). cbn [w_fs].
  destruct (@write_new_file (tmp_stem E ++ suffix) body k (w_fs w0) Hk Hnone)
    as (Hopen & Hk2 & Hl2 & Hother).
  rewrite Hopen. intros H. injection H as <- <-. split; [reflexivity|].
  exists k. cbn [w_fs]. auto.
Qed.

(** X5.  For a version of three runs of digits, a download that succeeds
    returns the temporary file whose name ends in
    [google_appengine_<version>.zip], whichever of the two URLs served it,
    and that file, readable and writable by its owner only, holds the body of
    the answer: of the featured URL, or of the deprecated one after an HTTP
    error of the featured one.  With the directory of the name a directory as
    spelled, the file is the entry at the very name. *)
Theorem download_saves_the_archive
  (E : os_env) (w w' : world) (d1 d2 d3 name : str) :
  let v := dotted [d1; d2; d3] in
  digit_run d1 = true -> digit_run d2 = true -> digit_run d3 = true ->
  Env._download E (Some v) w = (Ok name, w') ->
  name = tmp_stem E ++ py "google_appengine_" ++ v ++ py ".zip"
  /\ exists body,
       os_lstat (w_fs w') name = Ok (NFile body 384)
       /\ (spelled name ->
           fs_lookup (os_path_dirname name) (w_fs w) = Some NDir ->
           fs_lookup name (w_fs w') = Some (NFile body 384))
       /\ (network E (Env._sdk_url (Some v)) = Response body
           \/ ((exists status, network E (Env._sdk_url (Some v)) = HTTPFailure status)
               /\ network E (SDK_OLD_DOWNLOAD_URL (remove_char "." v) v)
                  = Response body)).
Proof.
  intros v H1 H2 H3.
  pose proof (archive_name_clean d1 d2 d3 H1 H2 H3) as Hclean. fold v in Hclean.
  set (suffix := py "google_appengine_" ++ v ++ py ".zip") in *.
  assert (Hs1 : safe_filename (Env._sdk_url (Some v)) = Ok suffix).
  { unfold Env._sdk_url, SDK_DOWNLOAD_URL. cbn [format_s].
    replace (SDK_DOWNLOAD_URL_prefix ++ v ++ py ".zip")
      with ((py "https://storage.googleapis.com/appengine-sdks/featured" ++ py "/")
            ++ suffix)
      by (unfold suffix; rewrite <- !app_assoc; reflexivity).
    apply safe_filename_of_clean; [exact Hclean|]. right. eauto. }
  assert (Hs2 : safe_filename (SDK_OLD_DOWNLOAD_URL (remove_char "." v) v) = Ok suffix).
  { unfold SDK_OLD_DOWNLOAD_URL.
    replace (SDK_OLD_DOWNLOAD_URL_prefix ++ remove_char "." v
             ++ py "/google_appengine_" ++ v ++ py ".zip")
      with (((SDK_OLD_DOWNLOAD_URL_prefix ++ remove_char "." v) ++ py "/") ++ suffix)
      by (unfold suffix; rewrite <- !app_assoc; reflexivity).
    apply safe_filename_of_clean; [exact Hclean|]. right. eauto. }
  unfold Env._download.
  change (Env._sdk_url_deprecated (Some v))
    with (Ok (SDK_OLD_DOWNLOAD_URL (remove_char "." v) v)).
  set (primary := Env._sdk_url (Some v)) in *.
  set (deprecated := SDK_OLD_DOWNLOAD_URL (remove_char "." v) v) in *.
  clearbody primary deprecated suffix.
  assert (Hread : forall url body w0,
            safe_filename url = Ok suffix ->
            (suffix <- lift (safe_filename url) ;;
             filename <- (fun w =>
                            match mkstemp E suffix (w_fs w) with
                            | Ok (name, fs') =>
                                (Ok name,
                                 {| w_fs := fs'; w_config := w_config w;
                                    w_stdout := w_stdout w; w_requests := w_requests w;
                                    w_trace := w_trace w ++ [fs'] |})
                            | Raise e => (Raise e, w)
                            end) ;;
             update_fs (open_w 40 filename body) ;;
             ret filename) w0 = (Ok name, w') ->
            w_fs w0 = w_fs w ->
            name = tmp_stem E ++ suffix
            /\ os_lstat (w_fs w') name = Ok (NFile body 384)
            /\ (spelled name ->
                fs_lookup (os_path_dirname name) (w_fs w) = Some NDir ->
                fs_lookup name (w_fs w') = Some (NFile body 384))).
  { intros url body w0 Hs H Hfs0.
    destruct (@download_saved E url body suffix name w0 w' Hs H)
      as (Hname & k & Hk0 & _ & Hk & Hl & _).
    split; [exact Hname|]. split; [unfold os_lstat; now rewrite Hk, Hl|].
    intros Hsp Hdir. rewrite Hfs0 in Hk0.
    rewrite (@lkey_spelled _ _ Hsp Hdir) in Hk0. injection Hk0 as <-. exact Hl. }
  unfold bind at 1. unfold try_except, urlopen, bind at 1.
  destruct (network E primary) as [body|status|] eqn:Hnet; cbn [is_HTTPError ret].
  - intros H. destruct (Hread primary body _ Hs1 H eq_refl) as (Hname & Hfile & Hat).
    split; [exact Hname|]. exists body. auto.
  - unfold bind at 1, lift at 1. unfold bind at 1.
    destruct (network E deprecated) as [body| |] eqn:Hnet2; try discriminate.
    intros H. destruct (Hread deprecated body _ Hs2 H eq_refl) as (Hname & Hfile & Hat).
    split; [exact Hname|]. exists body. split; [exact Hfile|].
    split; [exact Hat|]. right. eauto.
  - discriminate.
Qed.

(** The deprecated archive of 1.8.0, served after the featured one failed. *)
Lemma download_saves_the_archive_witness :
  fst (Env._download (linux_env featured_down) (Some (py "1.8.0")) (start fresh_home))
  = Ok (py "/tmp/tmpQ3xZ1k" ++ py "google_appengine_" ++ py "1.8.0" ++ py ".zip").
Proof.
  destruct (Env._download (linux_env featured_down) (Some (py "1.8.0"))
              (start fresh_home)) as [[name|e] w'] eqn:Hrun;
    [|vm_compute in Hrun; discriminate].
  destruct (@download_saves_the_archive (linux_env featured_down) (start fresh_home)
              w' (py "1") (py "8") (py "0") name eq_refl eq_refl eq_refl Hrun)
    as [-> _].
  reflexivity.
Defined.

(** ** Activation that fails *)

Lemma resolution_error_not_EEXIST (e : exn) :
  resolution_error e -> is_EEXIST e = false.
Proof. intros [->|[->| ->]]; reflexivity. Qed.

(** X6.  An activation changes nothing when it cannot create the link.  When
    the path of the link cannot be resolved, [_activate] raises the error of
    the resolution: [ENOENT] for a directory that is missing, [ENOTDIR] for a
    regular file where a directory should be, [ELOOP] for symlinks that never
    end.  When a directory stands at the link's path it raises the error of
    the removal, [EISDIR] on Linux and [EPERM] elsewhere.  In both cases the
    world is as it was before, and [activate] prints nothing. *)
Theorem activate_failure_changes_nothing (E : os_env) (w : world) (v : str) :
  let link := Env.sdk_link E (w_config w) in
  SDK_VERSION_PATTERN_match v = true ->
  (forall e, lkey (w_fs w) link = Raise e ->
     resolution_error e
     /\ Env._activate E (Some v) w = (Raise e, w)
     /\ Env.activate E (Some v) w = (Raise e, w))
  /\ (forall k, lkey (w_fs w) link = Ok k ->
      fs_lookup k (w_fs w) = Some NDir ->
      Env._activate E (Some v) w = (Raise (OSError (unlink_dir_errno E)), w)
      /\ Env.activate E (Some v) w = (Raise (OSError (unlink_dir_errno E)), w))
  /\ (unlink_dir_errno E = EISDIR \/ unlink_dir_errno E = EPERM).
Proof.
  intros link Hstrict.
  assert (Hun : Env._activate E (Some v) w =
                match place_link E (os_path_join (Env.cache_dir E (w_config w))
                                      [v; google_appengine]) link w with
                | (Ok _, w2) =>
                    (Ok (os_path_join (Env.cache_dir E (w_config w))
                           [v; google_appengine]), w2)
                | (Raise e, w2) => (Raise e, w2)
                end)
    by exact (@activate_resolved E w w (Some v) v
                (@resolve_version_strict E w v Hstrict)).
  split; [|split].
  - intros e He. pose proof (@lkey_raises _ _ _ He) as Herr.
    assert (H : Env._activate E (Some v) w = (Raise e, w)).
    { rewrite Hun. unfold place_link, try_except, update_fs, os_symlink.
      rewrite He. now rewrite (resolution_error_not_EEXIST Herr). }
    split; [exact Herr|]. split; [exact H|].
    rewrite activate_public_unfold. now rewrite H.
  - intros k Hk Hdir.
    assert (H : Env._activate E (Some v) w
                = (Raise (OSError (unlink_dir_errno E)), w)).
    { rewrite Hun. unfold place_link, try_except, update_fs, bind, os_symlink, os_unlink.
      rewrite Hk, Hdir. cbn [is_EEXIST]. rewrite Hk, Hdir. reflexivity. }
    split; [exact H|]. rewrite activate_public_unfold. now rewrite H.
  - unfold unlink_dir_errno. destruct (startswith _ _); auto.
Qed.

(** A link configured in [/opt/sdk], a directory that is not there, and a
    link configured below a regular file. *)
Lemma activate_failure_changes_nothing_witness :
  Env.activate (linux_env no_network) (Some (py "1.9.57"))
    (with_link (start fresh_home) (py "/opt/sdk"))
  = (Raise (OSError ENOENT), with_link (start fresh_home) (py "/opt/sdk"))
  /\ Env.activate (linux_env no_network) (Some (py "1.9.57"))
       (with_link (start (fresh_home ++ [(py "/home/foo/notes", NFile [] 420)]))
          (py "/home/foo/notes"))
     = (Raise (OSError ENOTDIR),
        with_link (start (fresh_home ++ [(py "/home/foo/notes", NFile [] 420)]))
          (py "/home/foo/notes")).
Proof.
  split.
  - destruct (@activate_failure_changes_nothing (linux_env no_network)
                (with_link (start fresh_home) (py "/opt/sdk")) (py "1.9.57") eq_refl)
      as (H & _).
    apply (H (OSError ENOENT)). reflexivity.
  - destruct (@activate_failure_changes_nothing (linux_env no_network)
                (with_link (start (fresh_home ++ [(py "/home/foo/notes", NFile [] 420)]))
                   (py "/home/foo/notes")) (py "1.9.57") eq_refl)
      as (H & _).
    apply (H (OSError ENOTDIR)). reflexivity.
Defined.

(** ** Removal *)

Lemma child_name_proper (dir p name : str) :
  child_name dir p = Some name ->
  name <> [] /\ no_slash name = true
  /\ is_curdir name = false /\ is_pardir name = false.
Proof.
  unfold child_name.
  destruct (strip_prefix _ p) as [[|c r]|]; try discriminate.
  destruct (existsb is_slash (c :: r)) eqn:Hex; [discriminate|].
  destruct (is_curdir (c :: r)) eqn:Hcur; [discriminate|].
  destruct (is_pardir (c :: r)) eqn:Hpar; [discriminate|].
  intros H. injection H as <-. repeat split; try assumption; [discriminate|].
  unfold no_slash. clear -Hex. induction (c :: r) as [|x l IH]; [reflexivity|].
  simpl in *. apply orb_false_iff in Hex as [Hx Hl]. now rewrite Hx, IH.
Qed.

Lemma startswith_length (pre s : str) :
  startswith pre s = true -> List.length pre <= List.length s.
Proof.
  unfold startswith. revert s.
  induction pre as [|c pre IH]; intros s; [simpl; lia|].
  destruct s as [|x s]; [discriminate|]. simpl.
  destruct (Ascii.eqb c x); [|discriminate].
  intros H. specialize (IH s). destruct (strip_prefix pre s); [|discriminate].
  specialize (IH eq_refl). lia.
Qed.

Lemma below_length (k : str) : List.length k <= List.length (below k).
Proof.
  unfold below. destruct (endswith (py "/") k); [lia|].
  rewrite length_app. lia.
Qed.

(** What stays when a directory goes has ways of the file system only. *)
Lemma ways_in_filter (keep : str -> bool) (fs : filesystem) :
  ways_in (filter (fun e => keep (fst e)) fs) fs.
Proof.
  split; intros q; [|intros t]; rewrite fs_lookup_filter;
    now destruct (keep q).
Qed.

Lemma realdir_filter (keep : str -> bool) (fs : filesystem) (d r : str) :
  (fs_lookup d fs = Some NDir -> keep d = true) ->
  realdir (filter (fun e => keep (fst e)) fs) d = Ok r -> realdir fs d = Ok r.
Proof.
  intros Hkeep. unfold realdir. rewrite fs_lookup_filter.
  destruct (fs_lookup d fs) as [[|x m|t]|] eqn:Hl.
  - now rewrite (Hkeep eq_refl).
  - intros H. apply (@walk_dir_ways_in _ _ fs _ _ _ (ways_in_filter keep fs)).
    now destruct (keep d).
  - intros H. apply (@walk_dir_ways_in _ _ fs _ _ _ (ways_in_filter keep fs)).
    now destruct (keep d).
  - intros H. apply (@walk_dir_ways_in _ _ fs _ _ _ (ways_in_filter keep fs)).
    now destruct (keep d).
Qed.

(** The key of a path whose last component is a name. *)
Lemma lkey_name (fs : filesystem) (p k : str) :
  names_entry p = true -> lkey fs p = Ok k ->
  exists d, realdir fs (os_path_dirname p) = Ok d
            /\ k = os_path_join2 d (os_path_basename p).
Proof.
  intros Hname. unfold lkey. destruct p as [|c p]; [discriminate|].
  destruct (realdir fs (os_path_dirname (c :: p))) as [d|e]; [|discriminate].
  cbv zeta. unfold names_entry in Hname.
  apply negb_true_iff, orb_false_iff in Hname as [-> ->].
  intros H. injection H as <-. now exists d.
Qed.

(** A directory is an entry. *)
Lemma os_path_isdir_entry (fs : filesystem) (p : str) :
  os_path_isdir fs p = true ->
  exists k, lkey fs p = Ok k /\ fs_lookup k fs <> None.
Proof.
  unfold os_path_isdir, fs_stat. change 40 with (S 39). cbn [fs_follow].
  destruct (lkey fs p) as [k|e]; [|cbv iota; discriminate].
  destruct (fs_lookup k fs) eqn:Hk; [|cbv iota; discriminate].
  intros _. exists k. split; [reflexivity|congruence].
Qed.

Lemma shutil_rmtree_ok (path : str) (fs fs' : filesystem) :
  shutil_rmtree path fs = Ok fs' ->
  exists k, lkey fs path = Ok k /\ fs_lookup k fs = Some NDir
            /\ fs' = filter (fun e => negb (str_eqb k (fst e)
                                            || startswith (below k) (fst e))) fs.
Proof.
  unfold shutil_rmtree. destruct (lkey fs path) as [k|e]; [|discriminate].
  destruct (fs_lookup k fs) as [[|d m|t]|] eqn:Hk; try discriminate.
  intros H. injection H as <-. now exists k.
Qed.

(** The run of [remove] on a version that resolves. *)
Lemma remove_unfold (E : os_env) (w w1 : world) (tok : pyval) (v : str) :
  Env._resolve_version E tok w = (Ok (Some v), w1) ->
  Env.remove E tok w
  = (stdout_write (py "Removing SDK version " ++ v ++ [LF]) ;;
     update_fs (shutil_rmtree (os_path_join (Env.cache_dir E (w_config w)) [v])) ;;
     stdout_write (py "Removed " ++ os_path_join (Env.cache_dir E (w_config w)) [v]
                   ++ [LF])) w1.
Proof.
  intros Hres.
  pose proof (resolve_version_world E w tok) as Hw. rewrite Hres in Hw.
  cbn [snd] in Hw. destruct Hw as (Hfs & Hcfg & _).
  unfold Env.remove, bind at 1. rewrite Hres.
  unfold Env._remove, bind, stdout_write, gets, lift, update_fs, ret.
  cbn [w_config w_fs os_path_join_py os_path_join fold_left]. rewrite Hcfg.
  destruct (shutil_rmtree _ (w_fs w1)); reflexivity.
Qed.

(** X7.  After a removal that succeeds the version removed is no longer
    among the installed versions, and nothing outside its directory has
    changed: the path of the version names a directory, and every key that is
    neither that directory nor below it holds what it held.  In particular
    the link of an active version that is removed stays in place.  With the
    cache directory a directory as spelled, the directory that goes is the
    path of the version itself. *)
Theorem remove_uninstalls_the_version
  (E : os_env) (w w1 w' : world) (tok : pyval) (v : str) :
  let target := os_path_join (Env.cache_dir E (w_config w)) [v] in
  Env._resolve_version E tok w = (Ok (Some v), w1) ->
  Env.remove E tok w = (Ok tt, w') ->
  ~ In v (Env._get_installed_versions E w')
  /\ w_config w' = w_config w
  /\ exists k,
       lkey (w_fs w) target = Ok k
       /\ fs_lookup k (w_fs w) = Some NDir
       /\ (spelled target ->
           fs_lookup (os_path_dirname target) (w_fs w) = Some NDir -> k = target)
       /\ (forall p, p <> k -> startswith (below k) p = false ->
                     fs_lookup p (w_fs w') = fs_lookup p (w_fs w)).
Proof.
  intros target Hres Hrun.
  pose proof (resolve_version_world E w tok) as Hw. rewrite Hres in Hw.
  cbn [snd] in Hw. destruct Hw as (Hfs & Hcfg & _).
  rewrite (@remove_unfold E w w1 tok v Hres) in Hrun.
  fold target in Hrun.
  unfold bind at 1, stdout_write at 1 in Hrun.
  unfold bind at 1, update_fs at 1 in Hrun. cbn [w_fs w_config] in Hrun.
  rewrite Hfs in Hrun.
  destruct (shutil_rmtree target (w_fs w)) as [fs'|e] eqn:Hrm; [|discriminate].
  unfold stdout_write in Hrun. injection Hrun as <-. cbn [w_fs w_config].
  destruct (@shutil_rmtree_ok _ _ _ Hrm) as (k & Hk & Hdir & ->).
  set (keep := fun q => negb (str_eqb k q || startswith (below k) q)).
  change (filter _ (w_fs w)) with (filter (fun e => keep (fst e)) (w_fs w)).
  split; [|split; [exact Hcfg|]].
  - intros Hin. rewrite installed_versions_walk in Hin.
    cbn [w_fs w_config] in Hin. rewrite Hcfg in Hin.
    apply (Permutation_in _ (sort_versions_perm _)) in Hin.
    set (fs' := filter (fun e => keep (fst e)) (w_fs w)) in *.
    destruct (os_listdir fs' (Env.cache_dir E (w_config w))) as [names|] eqn:Hls;
      [|contradiction].
    apply filter_In in Hin as [Hin Hholds].
    (* a listed name is a name *)
    unfold os_listdir in Hls.
    destruct (fs_stat fs' (Env.cache_dir E (w_config w))) as [[kc [|d m|t]]|];
      try discriminate.
    injection Hls as <-.
    apply in_flat_map in Hin as ([p n] & _ & Hname). cbn [fst] in Hname.
    destruct (child_name kc p) as [name|] eqn:Hchild; [|contradiction].
    destruct Hname as [->|[]].
    destruct (@child_name_proper _ _ _ Hchild) as (Hne & Hslash & Hcur & Hpar).
    (* its path is an entry of what is left *)
    unfold holds_sdk in Hholds. apply andb_true_iff in Hholds as [Hisdir _].
    fold target in Hisdir.
    destruct (@os_path_isdir_entry _ _ Hisdir) as (k2 & Hk2 & Hsome).
    (* and that entry is the directory that went *)
    destruct (@os_path_join2_segment (Env.cache_dir E (w_config w)) v Hslash)
      as (q & Hjoin & Hq).
    assert (Hbase : os_path_basename target = v).
    { unfold target. cbn [os_path_join fold_left]. rewrite Hjoin.
      now apply os_path_basename_segment. }
    assert (Hentry : names_entry target = true).
    { unfold names_entry. now rewrite Hbase, Hcur, Hpar. }
    destruct (@lkey_name _ _ _ Hentry Hk) as (d & Hd & Hkd).
    destruct (@lkey_name _ _ _ Hentry Hk2) as (d2 & Hd2 & Hkd2).
    rewrite Hbase in Hkd, Hkd2.
    assert (Hsame : realdir (w_fs w) (os_path_dirname target) = Ok d2).
    { apply (@realdir_filter keep _ _ _); [|exact Hd2].
      intros Hlit. rewrite (@realdir_dir _ _ Hlit) in Hd. injection Hd as <-.
      pose proof (@os_path_join2_length (os_path_dirname target) v Hne Hslash) as Hlen.
      rewrite <- Hkd in Hlen.
      unfold keep. apply negb_true_iff, orb_false_iff. split.
      - apply str_eqb_neq. intros ->. lia.
      - destruct (startswith (below k) (os_path_dirname target)) eqn:Hst;
          [|reflexivity].
        apply startswith_length in Hst. pose proof (below_length k). lia. }
    rewrite Hd in Hsame. injection Hsame as <-.
    apply Hsome. subst k2. rewrite <- Hkd. unfold fs'.
    rewrite fs_lookup_filter. unfold keep. now rewrite str_eqb_refl.
  - exists k. split; [exact Hk|]. split; [exact Hdir|]. split.
    + intros Hsp Hparent. rewrite (@lkey_spelled _ _ Hsp Hparent) in Hk.
      now injection Hk.
    + intros p Hp Hbelow. rewrite fs_lookup_filter. unfold keep.
      assert (Hne : str_eqb k p = false) by (apply str_eqb_neq; congruence).
      now rewrite Hne, Hbelow.
Qed.

(** Removing the active version 1.9.57: it is no longer installed, and the
    link still names it. *)
Lemma remove_uninstalls_the_version_witness :
  ~ In (py "1.9.57")
      (Env._get_installed_versions (linux_env no_network)
         (snd (Env.remove (linux_env no_network) (Some (py "1.9.57"))
                 (start (home_with ["1.9.57"; "1.8.57"]%string
                         ++ [link_to "1.9.57"])))))
  /\ fst (Env.active_version (linux_env no_network)
            (snd (Env.remove (linux_env no_network) (Some (py "1.9.57"))
                    (start (home_with ["1.9.57"; "1.8.57"]%string
                            ++ [link_to "1.9.57"])))))
     = Ok (Some (py "1.9.57")).
Proof.
  split; [|vm_compute; reflexivity].
  destruct (Env.remove (linux_env no_network) (Some (py "1.9.57"))
              (start (home_with ["1.9.57"; "1.8.57"]%string ++ [link_to "1.9.57"])))
    as [[[]|e] w'] eqn:Hrun; [|vm_compute in Hrun; discriminate].
  cbn [snd].
  apply (@remove_uninstalls_the_version (linux_env no_network) _ _ w'
           (Some (py "1.9.57")) (py "1.9.57") eq_refl Hrun).
Defined.

(** X8.  Removing a version that is not a directory of the cache raises the
    error of [shutil.rmtree] after the line [Removing SDK version ...] has
    been printed, and leaves the file system as it was: the error of the
    path's resolution ([ENOTDIR] when the cache directory is a regular
    file), [ENOENT] when nothing stands at the path, [ENOTDIR] for a regular
    file, and an [OSError] without error number for a symlink. *)
Theorem remove_of_a_missing_version (E : os_env) (w : world) (v : str) :
  let target := os_path_join (Env.cache_dir E (w_config w)) [v] in
  let printed :=
    {| w_fs := w_fs w; w_config := w_config w;
       w_stdout := w_stdout w ++ py "Removing SDK version " ++ v ++ [LF];
       w_requests := w_requests w; w_trace := w_trace w |} in
  SDK_VERSION_PATTERN_match v = true ->
  (forall e, os_lstat (w_fs w) target = Raise e ->
     Env.remove E (Some v) w = (Raise e, printed) /\ resolution_error e)
  /\ (forall data mode, os_lstat (w_fs w) target = Ok (NFile data mode) ->
        Env.remove E (Some v) w = (Raise (OSError ENOTDIR), printed))
  /\ (forall t, os_lstat (w_fs w) target = Ok (NLink t) ->
        Env.remove E (Some v) w = (Raise (OSError E_unset), printed)).
Proof.
  intros target printed Hstrict.
  assert (Hrun : Env.remove E (Some v) w
                 = match shutil_rmtree target (w_fs w) with
                   | Ok fs' =>
                       (stdout_write (py "Removed " ++ target ++ [LF]))
                         {| w_fs := fs'; w_config := w_config w;
                            w_stdout := w_stdout printed;
                            w_requests := w_requests w;
                            w_trace := w_trace w ++ [fs'] |}
                   | Raise e => (Raise e, printed)
                   end).
  { rewrite (@remove_unfold E w w (Some v) v (@resolve_version_strict E w v Hstrict)).
    fold target.
    unfold bind at 1, stdout_write at 1. fold printed.
    unfold bind at 1, update_fs at 1. cbn [w_fs w_config w_requests w_trace printed].
    destruct (shutil_rmtree target (w_fs w)); reflexivity. }
  rewrite Hrun. unfold os_lstat, shutil_rmtree.
  destruct (lkey (w_fs w) target) as [k|e0] eqn:Hk.
  - destruct (fs_lookup k (w_fs w)) as [[|d m|t]|];
      (split; [intros x Hx|split; [intros d' m' Hx|intros t' Hx]]);
      try discriminate; try reflexivity.
    injection Hx as <-. split; [reflexivity|]. left. reflexivity.
  - split; [intros x Hx|split; [intros d' m' Hx|intros t' Hx]];
      try discriminate.
    injection Hx as <-. split; [reflexivity|]. exact (@lkey_raises _ _ _ Hk).
Qed.

(** Version 1.9.57 is removed from a home directory that has no cache, and
    from one where a regular file stands in the place of the cache. *)
Lemma remove_of_a_missing_version_witness :
  fst (Env.remove (linux_env no_network) (Some (py "1.9.57")) (start fresh_home))
  = Raise (OSError ENOENT)
  /\ fst (Env.remove (linux_env no_network) (Some (py "1.9.57"))
            (start (fresh_home ++ [(py "/home/foo/.sdkswitcher", NFile [] 420)])))
     = Raise (OSError ENOTDIR).
Proof.
  split.
  - destruct (@remove_of_a_missing_version (linux_env no_network) (start fresh_home)
                (py "1.9.57") eq_refl) as (Hraise & _).
    destruct (Hraise (OSError ENOENT) eq_refl) as [-> _]. reflexivity.
  - destruct (@remove_of_a_missing_version (linux_env no_network)
                (start (fresh_home ++ [(py "/home/foo/.sdkswitcher", NFile [] 420)]))
                (py "1.9.57") eq_refl) as (Hraise & _).
    destruct (Hraise (OSError ENOTDIR) eq_refl) as [-> _]. reflexivity.
Defined.
(** ** Installation *)

Lemma place_link_log (E : os_env) (target link : str) (w : world) :
  w_requests (snd (place_link E target link w)) = w_requests w
  /\ w_stdout (snd (place_link E target link w)) = w_stdout w.
Proof.
  unfold place_link, try_except, update_fs, bind.
  destruct (os_symlink target link (w_fs w)) as [fs1|e]; [auto|].
  destruct (is_EEXIST e); [|auto]. cbn [w_fs].
  destruct (os_unlink E link (w_fs w)) as [fs2|e2]; [|auto]. cbn [w_fs].
  destruct (os_symlink target link fs2); auto.
Qed.

(** With a strict token [activate] opens no URL. *)
Lemma activate_strict_requests (E : os_env) (w : world) (v : str) :
  SDK_VERSION_PATTERN_match v = true ->
  w_requests (snd (Env.activate E (Some v) w)) = w_requests w.
Proof.
  intros Hstrict. rewrite activate_public_unfold, activate_unfold.
  rewrite (@resolve_version_strict E w v Hstrict). cbv zeta.
  pose proof (place_link_log E
                (os_path_join (Env.cache_dir E (w_config w)) [v; google_appengine])
                (Env.sdk_link E (w_config w)) w) as [Hreq _].
  destruct (place_link _ _ _ w) as [[u|e] w2]; cbn [fst snd] in *; [|exact Hreq].
  pose proof (active_version_world E w2) as Hsame.
  destruct (Env.active_version E w2) as [[av|e] w3]; cbn [snd] in Hsame; subst w3;
    exact Hreq.
Qed.

(** X9.  Installing a version that is installed already downloads nothing:
    after the line [Installing SDK version ...] it is the activation of that
    version, and no URL is opened. *)
Theorem install_of_an_installed_version (E : os_env) (w : world) (v : str) :
  SDK_VERSION_PATTERN_match v = true ->
  In v (Env._get_installed_versions E w) ->
  Env.install E (Some v) w
  = Env.activate E (Some v)
      {| w_fs := w_fs w; w_config := w_config w;
         w_stdout := w_stdout w ++ py "Installing SDK version " ++ v ++ [LF];
         w_requests := w_requests w; w_trace := w_trace w |}
  /\ w_requests (snd (Env.install E (Some v) w)) = w_requests w.
Proof.
  intros Hstrict Hin.
  assert (Heq : Env.install E (Some v) w
                = Env.activate E (Some v)
                    {| w_fs := w_fs w; w_config := w_config w;
                       w_stdout := w_stdout w ++ py "Installing SDK version " ++ v ++ [LF];
                       w_requests := w_requests w; w_trace := w_trace w |}).
  { unfold Env.install, bind at 1. rewrite (@resolve_version_strict E w v Hstrict).
    unfold bind at 1, gets at 1. unfold bind at 1, stdout_write at 1.
    assert (Hex : existsb (fun v' => Env.pyval_eqb (Some v) (Some v'))
                    (Env._get_installed_versions E w) = true).
    { apply existsb_exists. exists v. split; [exact Hin|]. apply str_eqb_refl. }
    rewrite Hex. cbn [negb format_s]. unfold bind at 1, ret at 1. reflexivity. }
  split; [exact Heq|]. rewrite Heq.
  now rewrite (@activate_strict_requests E _ v Hstrict).
Qed.

(** Installing 1.9.57 where it is installed. *)
Lemma install_of_an_installed_version_witness :
  w_requests (snd (Env.install (linux_env no_network) (Some (py "1.9.57"))
                     (start (home_with ["1.9.57"]%string))))
  = [].
Proof.
  apply (@install_of_an_installed_version (linux_env no_network)
           (start (home_with ["1.9.57"]%string)) (py "1.9.57")).
  - reflexivity.
  - vm_compute. left. reflexivity.
Defined.

(** X10.  When the archive of a version that is not installed cannot be
    fetched, because the featured URL is unreachable or because both URLs
    answer with an HTTP error, [install] raises the network error and leaves
    the file system and the configuration as they were: nothing is
    downloaded, extracted or activated. *)
Theorem install_without_network_changes_nothing (E : os_env) (w : world) (v : str) :
  let primary := Env._sdk_url (Some v) in
  let deprecated := SDK_OLD_DOWNLOAD_URL (remove_char "." v) v in
  let after := Env.install E (Some v) w in
  SDK_VERSION_PATTERN_match v = true ->
  ~ In v (Env._get_installed_versions E w) ->
  (network E primary = Unreachable
   \/ ((exists s, network E primary = HTTPFailure s)
       /\ forall body, network E deprecated <> Response body)) ->
  (exists e, fst after = Raise e /\ (e = URLError \/ exists s, e = HTTPError s))
  /\ w_fs (snd after) = w_fs w
  /\ w_config (snd after) = w_config w
  /\ w_trace (snd after) = w_trace w.
Proof.
  intros primary deprecated after Hstrict Hnot Hnet. subst after.
  assert (Hrun : exists e wr,
            Env.install E (Some v) w = (Raise e, wr)
            /\ (e = URLError \/ exists s, e = HTTPError s)
            /\ w_fs wr = w_fs w /\ w_config wr = w_config w
            /\ w_trace wr = w_trace w).
  { unfold Env.install, bind at 1. rewrite (@resolve_version_strict E w v Hstrict).
    unfold bind at 1, gets at 1. unfold bind at 1, stdout_write at 1.
    assert (Hex : existsb (fun v' => Env.pyval_eqb (Some v) (Some v'))
                    (Env._get_installed_versions E w) = false).
    { destruct (existsb _ _) eqn:Hex; [|reflexivity].
      apply existsb_exists in Hex as (v' & Hin & Heq).
      apply str_eqb_eq in Heq. subst v'. contradiction. }
    rewrite Hex. cbn [negb]. unfold bind at 1. unfold bind at 1, stdout_write at 1.
    unfold bind at 1. unfold Env._download, bind at 1.
    change (Env._sdk_url (Some v)) with primary.
    change (Env._sdk_url_deprecated (Some v)) with (Ok deprecated).
    clearbody primary deprecated.
    unfold try_except, urlopen, bind at 1.
    cbn [w_fs w_config w_stdout w_requests w_trace].
    destruct Hnet as [Hun|[[s Hs] Hdep]].
    - rewrite Hun. cbn [is_HTTPError]. do 2 eexists.
      split; [reflexivity|]. cbn [w_fs w_config w_trace]. auto.
    - rewrite Hs. cbn [is_HTTPError]. unfold bind at 1, lift at 1. unfold bind at 1.
      cbn [w_fs w_config w_stdout w_requests w_trace].
      destruct (network E deprecated) as [body|s2|] eqn:Hd;
        [now destruct (Hdep body)| |];
        (do 2 eexists; split; [reflexivity|]; cbn [w_fs w_config w_trace];
         split; [(left; reflexivity) || (right; eexists; reflexivity)|auto]). }
  destruct Hrun as (e & wr & -> & He & Hfs & Hcfg & Htr). cbn [fst snd].
  split; [exists e; auto|auto].
Qed.

(** Installing 1.9.57 without a network. *)
Lemma install_without_network_changes_nothing_witness :
  let after := Env.install (linux_env no_network) (Some (py "1.9.57"))
                 (start fresh_home) in
  fst after = Raise URLError /\ w_fs (snd after) = fresh_home.
Proof.
  cbv zeta.
  destruct (@install_without_network_changes_nothing (linux_env no_network)
              (start fresh_home) (py "1.9.57") eq_refl)
    as (_ & Hfs & _).
  - vm_compute. tauto.
  - left. reflexivity.
  - split; [vm_compute; reflexivity|exact Hfs].
Defined.

(** ** The link's path *)

(** X11.  Whatever directory the option [link] names, the link itself is
    called [google_appengine]: the configured link path is never empty and
    its last segment is [google_appengine]; with an empty option there is no
    link path. *)
Theorem sdk_link_is_called_google_appengine (E : os_env) (c : config) :
  (cfg_link c <> [] ->
   Env.sdk_link E c <> []
   /\ os_path_basename (Env.sdk_link E c) = google_appengine)
  /\ (cfg_link c = [] -> Env.sdk_link E c = []).
Proof.
  split; [|unfold Env.sdk_link; now intros ->].
  intros Hne. split; [now apply sdk_link_nonempty|].
  exact (proj2 (@sdk_link_spelled E c Hne)).
Qed.

(** The link of a user who set the option to [/bar/baz]. *)
Lemma sdk_link_is_called_google_appengine_witness :
  os_path_basename
    (Env.sdk_link (linux_env no_network)
       {| cfg_link := py "/bar/baz"; cfg_cache_dir := [] |})
  = google_appengine.
Proof.
  apply (sdk_link_is_called_google_appengine (linux_env no_network)
           {| cfg_link := py "/bar/baz"; cfg_cache_dir := [] |}).
  discriminate.
Defined.

(** ** Saving the configuration *)

(** The configuration file is spelled as the entry [sdkswitcher.ini] of its
    directory, whatever the platform and the home directory. *)
Lemma config_filename_spelled (E : os_env) :
  spelled (Env.config_filename E)
  /\ os_path_basename (Env.config_filename E) = CONFIG_FILENAME.
Proof.
  assert (Hform : forall h mid : str,
            match h ++ (mid ++ py "/") ++ CONFIG_FILENAME with
            | [] => py "/"
            | p => p
            end = ((h ++ mid) ++ py "/") ++ CONFIG_FILENAME).
  { intros h mid. rewrite <- !app_assoc. destruct h; [destruct mid|]; reflexivity. }
  assert (Hex : exists pre,
            Env.expanduser E (os_path_join (Env.config_dir E) [CONFIG_FILENAME])
            = (pre ++ py "/") ++ CONFIG_FILENAME).
  { unfold Env.config_dir.
    destruct (startswith (py "darwin") (platform E));
      [|destruct (startswith (py "win") (platform E))].
    - change (Env.expanduser E _)
        with (match rstrip is_slash (HOME E)
                    ++ (py "/Library/Application Support/sdkswitcher" ++ py "/")
                    ++ CONFIG_FILENAME with
              | [] => py "/"
              | p => p
              end).
      rewrite Hform. eexists. reflexivity.
    - change (Env.expanduser E _)
        with (match getpwnam E (py "\Application Settings\sdkswitcher") with
              | None =>
                  (py "~\Application Settings\sdkswitcher" ++ py "/") ++ CONFIG_FILENAME
              | Some userhome =>
                  match rstrip is_slash userhome ++ ([] ++ py "/") ++ CONFIG_FILENAME with
                  | [] => py "/"
                  | p => p
                  end
              end).
      destruct (getpwnam E _); [rewrite Hform|]; eexists; reflexivity.
    - change (Env.expanduser E _)
        with (match rstrip is_slash (HOME E)
                    ++ (py "/.sdkswitcher" ++ py "/") ++ CONFIG_FILENAME with
              | [] => py "/"
              | p => p
              end).
      rewrite Hform. eexists. reflexivity. }
  destruct Hex as [pre Hex]. unfold Env.config_filename, Env.abspath. rewrite Hex.
  destruct (os_path_isabs ((pre ++ py "/") ++ CONFIG_FILENAME)) eqn:Habs.
  - apply os_path_normpath_spelled; try reflexivity; [discriminate|].
    right. now exists pre.
  - unfold os_path_join. cbn [fold_left]. unfold os_path_join2.
    unfold os_path_isabs in Habs. rewrite Habs.
    destruct (str_eqb (getcwd E) [] || endswith (py "/") (getcwd E)).
    + rewrite app_assoc. apply os_path_normpath_spelled; try reflexivity;
        [discriminate|].
      right. exists (getcwd E ++ pre). now rewrite <- app_assoc.
    + rewrite !app_assoc. apply os_path_normpath_spelled; try reflexivity;
        [discriminate|].
      right. exists ((getcwd E ++ py "/") ++ pre). now rewrite <- !app_assoc.
Qed.

(** X12.  [save_config] never creates the configuration directory: when the
    path of the configuration file does not resolve, because its directory
    is missing ([ENOENT]) or is a regular file ([ENOTDIR]), it raises the
    [IOError] of that error and changes nothing.  Otherwise it creates the
    file, with mode 0644, or overwrites the regular file that is there,
    keeping its mode, with the defaults section: the two options in the
    order of the defaults dictionary, which the environment fixes, and an
    empty line.  A directory at the path makes it raise [IOError(EISDIR)].
    When the directory of the file is a directory as spelled, the file
    stands at the very path. *)
Theorem save_config_writes_the_defaults (E : os_env) (w : world) :
  let filename := Env.config_filename E in
  let link := py "link = " ++ config_value (cfg_link (w_config w)) ++ [LF] in
  let cache_dir :=
    py "cache_dir = " ++ config_value (cfg_cache_dir (w_config w)) ++ [LF] in
  let text := py "[DEFAULT]" ++ [LF]
              ++ (if link_first E then link ++ cache_dir else cache_dir ++ link)
              ++ [LF] in
  (forall e, lkey (w_fs w) filename = Raise e ->
     resolution_error e /\ Env.save_config E w = (Raise (as_IOError e), w))
  /\ (forall k, lkey (w_fs w) filename = Ok k ->
        (fs_lookup k (w_fs w) = None ->
         fst (Env.save_config E w) = Ok filename
         /\ w_fs (snd (Env.save_config E w)) = fs_add k (NFile text 420) (w_fs w))
        /\ (forall old mode,
              fs_lookup k (w_fs w) = Some (NFile old mode) ->
              fst (Env.save_config E w) = Ok filename
              /\ w_fs (snd (Env.save_config E w))
                 = fs_replace k (NFile text mode) (w_fs w))
        /\ (fs_lookup k (w_fs w) = Some NDir ->
            Env.save_config E w = (Raise (IOError EISDIR), w))
        /\ (fs_lookup (os_path_dirname filename) (w_fs w) = Some NDir ->
            k = filename)).
Proof.
  intros filename link cache_dir text.
  destruct (config_filename_spelled E) as [Hsp _]. fold filename in Hsp.
  pose proof Hsp as (_ & _ & Hname).
  unfold Env.save_config, bind, gets, update_fs, ret. fold filename.
  change (config_write E (w_config w)) with text. clearbody text.
  rewrite open_w_unfold.
  split.
  - intros e He. rewrite He. split; [exact (@lkey_raises _ _ _ He)|reflexivity].
  - intros k Hk. rewrite Hk, Hname. split; [|split; [|split]].
    + intros ->. split; reflexivity.
    + intros old mode ->. split; reflexivity.
    + intros ->. reflexivity.
    + intros Hdir. rewrite (@lkey_spelled _ _ Hsp Hdir) in Hk. now injection Hk.
Qed.

(** In a fresh home directory there is no configuration directory, and the
    defaults cannot be saved; nor can they where a regular file stands in
    its place.  In the directory they are written with the option
    [cache_dir] first. *)
Lemma save_config_writes_the_defaults_witness :
  Env.save_config (linux_env no_network) (start fresh_home)
  = (Raise (IOError ENOENT), start fresh_home)
  /\ fst (Env.save_config (linux_env no_network)
            (start (fresh_home ++ [(py "/home/foo/.sdkswitcher", NFile [] 420)])))
     = Raise (IOError ENOTDIR)
  /\ w_fs (snd (Env.save_config (linux_env no_network) (start (home_with []))))
     = home_with []
       ++ [(py "/home/foo/.sdkswitcher/sdkswitcher.ini",
            NFile (py "[DEFAULT]" ++ [LF] ++ py "cache_dir = " ++ [LF]
                   ++ py "link = ~/" ++ [LF] ++ [LF]) 420)].
Proof.
  split; [|split].
  - destruct (save_config_writes_the_defaults (linux_env no_network)
                (start fresh_home)) as (Hraise & _).
    exact (proj2 (Hraise (OSError ENOENT) eq_refl)).
  - destruct (save_config_writes_the_defaults (linux_env no_network)
                (start (fresh_home ++ [(py "/home/foo/.sdkswitcher", NFile [] 420)])))
      as (Hraise & _).
    now rewrite (proj2 (Hraise (OSError ENOTDIR) eq_refl)).
  - destruct (save_config_writes_the_defaults (linux_env no_network)
                (start (home_with []))) as (_ & Hkey).
    destruct (Hkey (py "/home/foo/.sdkswitcher/sdkswitcher.ini") eq_refl)
      as (Hnew & _).
    destruct (Hnew eq_refl) as [_ ->]. reflexivity.
Defined.

(** ** The summary *)

(** X13.  [summary] only prints: it leaves the file system, the
    configuration, the network log and the trace as they were; when it
    returns a text, the output has grown by this text and a newline, and
    when it raises, nothing was printed.  A link whose target does not end in
    [google_appengine] makes it raise [AssertionError], wherever the path of
    the link leads to it. *)
Theorem summary_only_prints (E : os_env) (w : world) :
  let after := Env.summary E w in
  w_fs (snd after) = w_fs w
  /\ w_config (snd after) = w_config w
  /\ w_requests (snd after) = w_requests w
  /\ w_trace (snd after) = w_trace w
  /\ (forall value, fst after = Ok value ->
                    w_stdout (snd after) = w_stdout w ++ value ++ [LF])
  /\ (forall e, fst after = Raise e -> w_stdout (snd after) = w_stdout w)
  /\ (forall target,
        os_lstat (w_fs w) (Env.sdk_link E (w_config w)) = Ok (NLink target) ->
        os_path_basename target <> google_appengine ->
        fst after = Raise AssertionError)
  /\ (forall target,
        fs_lookup (os_path_dirname (Env.sdk_link E (w_config w))) (w_fs w)
        = Some NDir ->
        fs_lookup (Env.sdk_link E (w_config w)) (w_fs w) = Some (NLink target) ->
        os_path_basename target <> google_appengine ->
        fst after = Raise AssertionError).
Proof.
  intros after. subst after.
  assert (Hsum : (exists value, Env._summary E w = (Ok value, w))
                 \/ (exists e, Env._summary E w = (Raise e, w))).
  { unfold Env._summary, bind, gets, lift, ret.
    pose proof (active_version_world E w) as Hsame.
    destruct (Env.active_version E w) as [[active|e] w0]; cbn [snd] in Hsame;
      subst w0; [|right; eexists; reflexivity].
    destruct (Env.decode_ascii (Env.config_filename E));
      [|right; eexists; reflexivity].
    destruct (Env.decode_ascii (Env.cache_dir E (w_config w)));
      [|right; eexists; reflexivity].
    destruct (Env.decode_ascii (Env.sdk_link E (w_config w)));
      [|right; eexists; reflexivity].
    destruct (fold_right _ _ _); [left|right]; eexists; reflexivity. }
  assert (Hcorrupt : forall target,
            os_lstat (w_fs w) (Env.sdk_link E (w_config w)) = Ok (NLink target) ->
            os_path_basename target <> google_appengine ->
            Env._summary E w = (Raise AssertionError, w)).
  { intros target Hl Hne.
    unfold Env._summary, bind, gets, lift, ret.
    rewrite active_version_unfold, Hl.
    apply str_eqb_neq in Hne. now rewrite Hne. }
  assert (Hliteral : forall target,
            fs_lookup (os_path_dirname (Env.sdk_link E (w_config w))) (w_fs w)
            = Some NDir ->
            fs_lookup (Env.sdk_link E (w_config w)) (w_fs w) = Some (NLink target) ->
            os_lstat (w_fs w) (Env.sdk_link E (w_config w)) = Ok (NLink target)).
  { intros target Hdir Hl.
    destruct (cfg_link (w_config w)) eqn:Hc.
    - rewrite (proj2 (sdk_link_empty E (w_config w)) Hc) in Hdir, Hl.
      change (os_path_dirname []) with (@nil ascii) in Hdir. congruence.
    - destruct (@sdk_link_spelled E (w_config w)) as [Hsp _];
        [rewrite Hc; discriminate|].
      now rewrite (@os_lstat_spelled _ _ Hsp Hdir), Hl. }
  destruct Hsum as [[value Hv]|[e He]].
  - assert (Hrun : Env.summary E w
                   = (Ok value,
                      {| w_fs := w_fs w; w_config := w_config w;
                         w_stdout := (w_stdout w ++ value) ++ [LF];
                         w_requests := w_requests w; w_trace := w_trace w |})).
    { unfold Env.summary, bind. rewrite Hv. reflexivity. }
    rewrite Hrun. cbn [fst snd w_fs w_config w_requests w_trace w_stdout].
    do 4 (split; [reflexivity|]). split; [|split; [|split]].
    + intros value' H. injection H as <-. now rewrite <- app_assoc.
    + discriminate.
    + intros target Hl Hne. rewrite (Hcorrupt target Hl Hne) in Hv. discriminate.
    + intros target Hdir Hl Hne.
      rewrite (Hcorrupt target (Hliteral target Hdir Hl) Hne) in Hv. discriminate.
  - assert (Hrun : Env.summary E w = (Raise e, w)).
    { unfold Env.summary, bind. rewrite He. reflexivity. }
    rewrite Hrun. cbn [fst snd].
    do 4 (split; [reflexivity|]). split; [|split; [|split]].
    + discriminate.
    + reflexivity.
    + intros target Hl Hne. rewrite (Hcorrupt target Hl Hne) in He. congruence.
    + intros target Hdir Hl Hne.
      rewrite (Hcorrupt target (Hliteral target Hdir Hl) Hne) in He. congruence.
Qed.

(** A link that points at a path not ending in [google_appengine]. *)
Lemma summary_only_prints_witness :
  fst (Env.summary (linux_env no_network)
         (start (fresh_home
                 ++ [(py "/home/foo/google_appengine", NLink (py "/opt/sdk"))])))
  = Raise AssertionError.
Proof.
  destruct (summary_only_prints (linux_env no_network)
              (start (fresh_home
                      ++ [(py "/home/foo/google_appengine", NLink (py "/opt/sdk"))])))
    as (_ & _ & _ & _ & _ & _ & _ & H).
  apply (H (py "/opt/sdk")).
  - reflexivity.
  - reflexivity.
  - discriminate.
Defined.

(** ** The order of the versions *)

Section Lexicographic.

Variable A : Type.
Variable cmp : A -> A -> comparison.
Hypothesis cmp_eq : forall x y, cmp x y = Eq -> x = y.
Hypothesis cmp_refl : forall x, cmp x x = Eq.
Hypothesis cmp_lt_trans :
  forall x y z, cmp x y = Lt -> cmp y z = Lt -> cmp x z = Lt.

Lemma lex_eq (a b : list A) : lex cmp a b = Eq -> a = b.
Proof.
  revert b. induction a as [|x a IH]; intros [|y b]; simpl; try easy.
  destruct (cmp x y) eqn:Hxy; try easy.
  intros H. apply cmp_eq in Hxy. subst y. now rewrite (IH b H).
Qed.

Lemma lex_refl (a : list A) : lex cmp a a = Eq.
Proof.
  induction a as [|x a IH]; simpl; [reflexivity|]. now rewrite cmp_refl.
Qed.

Lemma lex_lt_trans (a b c : list A) :
  lex cmp a b = Lt -> lex cmp b c = Lt -> lex cmp a c = Lt.
Proof.
  revert b c. induction a as [|x a IH]; intros [|y b] [|z c]; simpl; try easy.
  destruct (cmp x y) eqn:Hxy; destruct (cmp y z) eqn:Hyz; try easy.
  - apply cmp_eq in Hxy, Hyz. subst y z. rewrite cmp_refl. apply IH.
  - apply cmp_eq in Hxy. subst y. now rewrite Hyz.
  - apply cmp_eq in Hyz. subst z. now rewrite Hxy.
  - assert (Hxz : cmp x z = Lt) by (eapply cmp_lt_trans; eassumption).
    now rewrite Hxz.
Qed.

Lemma lex_le_trans (a b c : list A) :
  lex cmp a b <> Gt -> lex cmp b c <> Gt -> lex cmp a c <> Gt.
Proof.
  intros Hab Hbc.
  destruct (lex cmp a b) eqn:H1; [|clear Hab|contradiction].
  - apply lex_eq in H1. now subst b.
  - destruct (lex cmp b c) eqn:H2; [|clear Hbc|contradiction].
    + apply lex_eq in H2. subst c. now rewrite H1.
    + assert (H3 : lex cmp a c = Lt) by (eapply lex_lt_trans; eassumption).
      now rewrite H3.
Qed.

End Lexicographic.

Lemma code_inj (x y : ascii) : code x = code y -> x = y.
Proof.
  unfold code. intros H.
  rewrite <- (ascii_N_embedding x), <- (ascii_N_embedding y). now rewrite H.
Qed.

Lemma cmp_str_lex (a b : str) :
  cmp_str a b = lex (fun x y => N.compare (code x) (code y)) a b.
Proof.
  revert b. induction a as [|x a IH]; intros [|y b]; simpl; try reflexivity.
  now rewrite IH.
Qed.

Lemma cmp_list_lex (a b : list component) :
  cmp_list a b = lex cmp_component a b.
Proof.
  revert b. induction a as [|x a IH]; intros [|y b]; simpl; try reflexivity.
  now rewrite IH.
Qed.

Lemma code_compare_eq (x y : ascii) : N.compare (code x) (code y) = Eq -> x = y.
Proof. intros H. apply code_inj. now apply N.compare_eq_iff. Qed.

Lemma code_compare_lt_trans (x y z : ascii) :
  N.compare (code x) (code y) = Lt -> N.compare (code y) (code z) = Lt ->
  N.compare (code x) (code z) = Lt.
Proof. rewrite !N.compare_lt_iff. apply N.lt_trans. Qed.

Lemma cmp_component_eq (x y : component) : cmp_component x y = Eq -> x = y.
Proof.
  destruct x as [n|s], y as [m|t]; simpl; try discriminate.
  - intros H. apply N.compare_eq_iff in H. now subst.
  - rewrite cmp_str_lex. intros H.
    apply lex_eq in H; [now subst|apply code_compare_eq].
Qed.

Lemma cmp_component_refl (x : component) : cmp_component x x = Eq.
Proof.
  destruct x as [n|s]; simpl; [apply N.compare_refl|].
  rewrite cmp_str_lex. apply lex_refl. intros c. apply N.compare_refl.
Qed.

Lemma cmp_component_lt_trans (x y z : component) :
  cmp_component x y = Lt -> cmp_component y z = Lt -> cmp_component x z = Lt.
Proof.
  destruct x as [n|s], y as [m|t], z as [k|u]; simpl; try easy.
  - rewrite !N.compare_lt_iff. apply N.lt_trans.
  - rewrite !cmp_str_lex. apply lex_lt_trans.
    + apply code_compare_eq.
    + intros c. apply N.compare_refl.
    + apply code_compare_lt_trans.
Qed.

Lemma version_le_refl (a : str) : version_le a a.
Proof.
  unfold version_le, cmp_version. rewrite cmp_list_lex.
  rewrite lex_refl; [discriminate|apply cmp_component_refl].
Qed.

Lemma version_le_trans (a b c : str) :
  version_le a b -> version_le b c -> version_le a c.
Proof.
  unfold version_le, cmp_version. rewrite !cmp_list_lex.
  apply lex_le_trans.
  - apply cmp_component_eq.
  - apply cmp_component_refl.
  - apply cmp_component_lt_trans.
Qed.

Lemma strongly_sorted_last (l : list str) (v : str) :
  StronglySorted version_le l -> In v l -> version_le v (last l v).
Proof.
  induction 1 as [|x l Hs IH Hall]; [contradiction|].
  intros [->|Hin].
  - destruct l as [|y l]; [apply version_le_refl|].
    change (last (v :: y :: l) v) with (last (y :: l) v).
    rewrite Forall_forall in Hall. apply Hall.
    destruct (@exists_last _ (y :: l) ltac:(discriminate)) as (l' & z & Hl).
    rewrite Hl, last_last. apply in_or_app. right. now left.
  - destruct l as [|y l]; [contradiction|].
    change (last (x :: y :: l) v) with (last (y :: l) v). now apply IH.
Qed.

(** X14.  The order of [LooseVersion] is total and transitive, so the list
    of installed versions is sorted as a whole: every version is at most
    every version listed after it, and the version listed last is a greatest
    installed version. *)
Theorem installed_versions_end_with_the_greatest (E : os_env) (w : world) :
  let installed := Env._get_installed_versions E w in
  (forall a b, version_le a b \/ version_le b a)
  /\ (forall a b c, version_le a b -> version_le b c -> version_le a c)
  /\ StronglySorted version_le installed
  /\ (forall v, In v installed -> version_le v (last installed v)).
Proof.
  intros installed.
  assert (Hsorted : StronglySorted version_le installed).
  { apply Sorted_StronglySorted.
    - intros a b c. apply version_le_trans.
    - unfold installed. rewrite installed_versions_walk. apply sort_versions_sorted. }
  split; [|split; [exact version_le_trans|split; [exact Hsorted|]]].
  - intros a b. destruct (version_leb a b) eqn:Hab.
    + left. now apply version_leb_le.
    + right. now apply version_leb_le, version_leb_total.
  - intros v Hin. now apply strongly_sorted_last.
Qed.

(** ** A link that was moved *)



(** ** An archive that cannot be read *)

Lemma digit_runs_match (d1 d2 d3 : str) :
  digit_run d1 = true -> digit_run d2 = true -> digit_run d3 = true ->
  SDK_VERSION_PATTERN_match (dotted [d1; d2; d3]) = true.
Proof.
  intros H1 H2 H3.
  assert (Hv : dotted [d1; d2; d3] = d1 ++ "."%char :: d2 ++ "."%char :: d3 ++ [])
    by (rewrite app_nil_r; reflexivity).
  rewrite Hv. unfold SDK_VERSION_PATTERN_match.
  rewrite (digits1_run d1 _ H1) by reflexivity.
  rewrite (digits1_run d2 _ H2) by reflexivity.
  rewrite (digits1_run d3 [] H3) by exact I.
  reflexivity.
Qed.

Lemma rsplit1_app (c : ascii) (s f : str) :
  forallb (fun x => negb (Ascii.eqb x c)) f = true ->
  rsplit1 c (s ++ f) = match rsplit1 c s with
                       | Some (h, t) => Some (h, t ++ f)
                       | None => None
                       end.
Proof.
  intros Hf. induction s as [|x s IH]; [now apply rsplit1_none|].
  simpl. rewrite IH. destruct (rsplit1 c s) as [[h t]|]; [reflexivity|].
  destruct (Ascii.eqb x c); reflexivity.
Qed.

Lemma os_path_basename_app (s f : str) :
  no_slash f = true -> os_path_basename (s ++ f) = os_path_basename s ++ f.
Proof.
  intros Hf. unfold os_path_basename. rewrite (@rsplit1_app "/" s f Hf).
  destruct (rsplit1 "/" s) as [[h t]|]; reflexivity.
Qed.

Lemma last_app (b f : str) (x : ascii) : f <> [] -> last (b ++ f) x = last f x.
Proof.
  intros Hf. induction b as [|c b IH]; [reflexivity|].
  simpl. destruct (b ++ f) eqn:Hbf; [|exact IH].
  apply app_eq_nil in Hbf as [_ Hnil]. contradiction.
Qed.

(** A name that ends in a clean name can be given to a new entry. *)
Lemma names_entry_clean (stem f : str) :
  clean_name f = true -> names_entry (stem ++ f) = true.
Proof.
  intros Hclean.
  destruct (clean_name_parts f Hclean) as (Hne & Hchars & _ & _ & Hlast).
  unfold names_entry.
  rewrite (@os_path_basename_app stem f (filename_chars_no_slash f Hchars)).
  set (b := os_path_basename stem).
  assert (Hl : is_dot (last (b ++ f) "x"%char) = false)
    by now rewrite (@last_app b f "x"%char Hne).
  apply negb_true_iff, orb_false_iff. unfold is_curdir, is_pardir. split.
  - apply orb_false_iff. split; apply str_eqb_neq; intros Heq.
    + apply app_eq_nil in Heq as [_ Hnil]. contradiction.
    + rewrite Heq in Hl. discriminate.
  - apply str_eqb_neq. intros Heq. rewrite Heq in Hl. discriminate.
Qed.

(** [_download] when the featured URL answers. *)
Lemma download_response
      (E : os_env) (w : world) (version : pyval) (body suffix k : str) :
  let name := tmp_stem E ++ suffix in
  let fs1 := fs_add k (NFile [] 384) (w_fs w) in
  let fs2 := fs_replace k (NFile body 384) fs1 in
  network E (Env._sdk_url version) = Response body ->
  safe_filename (Env._sdk_url version) = Ok suffix ->
  names_entry name = true ->
  lkey (w_fs w) name = Ok k ->
  fs_lookup k (w_fs w) = None ->
  Env._download E version w
  = (Ok name,
     {| w_fs := fs2; w_config := w_config w; w_stdout := w_stdout w;
        w_requests := w_requests w ++ [Env._sdk_url version];
        w_trace := (w_trace w ++ [fs1]) ++ [fs2] |}).
Proof.
  intros name fs1 fs2 Hnet Hsafe Hname Hk Hnone.
  destruct (@write_new_file name body k (w_fs w) Hk Hnone) as (Hopen & _).
  cbv zeta in Hopen. fold fs1 fs2 in Hopen.
  unfold Env._download.
  set (primary := Env._sdk_url version) in *. clearbody primary.
  unfold bind at 1. unfold try_except, urlopen, bind at 1. rewrite Hnet.
  unfold ret at 1. unfold bind at 1, lift at 1. rewrite Hsafe.
  unfold bind at 1. unfold mkstemp. cbn [w_fs]. fold name.
  rewrite Hk, Hnone, Hname.
  fold fs1. unfold bind at 1, update_fs at 1. cbn [w_fs].
  rewrite Hopen. reflexivity.
Qed.

(** X16.  When the answer of the featured URL is no zip archive, [install]
    raises [BadZipfile] after the download: the temporary file with the body
    of the answer is left where it was written, at the entry that its name
    names, and no other entry of the file system has changed, so nothing is
    installed or activated.  With the directory of the name a directory as
    spelled, that entry is at the very name. *)
Theorem install_of_a_broken_archive
  (E : os_env) (w : world) (d1 d2 d3 body k : str) :
  let v := dotted [d1; d2; d3] in
  let name := tmp_stem E ++ py "google_appengine_" ++ v ++ py ".zip" in
  let after := Env.install E (Some v) w in
  digit_run d1 = true -> digit_run d2 = true -> digit_run d3 = true ->
  ~ In v (Env._get_installed_versions E w) ->
  network E (Env._sdk_url (Some v)) = Response body ->
  unzip E body = None ->
  lkey (w_fs w) name = Ok k ->
  fs_lookup k (w_fs w) = None ->
  fst after = Raise BadZipfile
  /\ os_lstat (w_fs (snd after)) name = Ok (NFile body 384)
  /\ fs_lookup k (w_fs (snd after)) = Some (NFile body 384)
  /\ (forall p, p <> k -> fs_lookup p (w_fs (snd after)) = fs_lookup p (w_fs w))
  /\ (spelled name ->
      fs_lookup (os_path_dirname name) (w_fs w) = Some NDir -> k = name).
Proof.
  intros v name after H1 H2 H3 Hnot Hnet Hzip Hk Hnone. subst after.
  pose proof (digit_runs_match d1 d2 d3 H1 H2 H3) as Hstrict. fold v in Hstrict.
  pose proof (archive_name_clean d1 d2 d3 H1 H2 H3) as Hclean. fold v in Hclean.
  set (suffix := py "google_appengine_" ++ v ++ py ".zip") in *.
  assert (Hsafe : safe_filename (Env._sdk_url (Some v)) = Ok suffix).
  { unfold Env._sdk_url, SDK_DOWNLOAD_URL. cbn [format_s].
    replace (SDK_DOWNLOAD_URL_prefix ++ v ++ py ".zip")
      with ((py "https://storage.googleapis.com/appengine-sdks/featured" ++ py "/")
            ++ suffix)
      by (unfold suffix; rewrite <- !app_assoc; reflexivity).
    apply safe_filename_of_clean; [exact Hclean|]. right. eauto. }
  assert (Hname : names_entry name = true) by now apply names_entry_clean.
  assert (Hex : existsb (fun v' => Env.pyval_eqb (Some v) (Some v'))
                  (Env._get_installed_versions E w) = false).
  { destruct (existsb _ _) eqn:Hex; [|reflexivity].
    apply existsb_exists in Hex as (v' & Hin & Heq).
    apply str_eqb_eq in Heq. subst v'. contradiction. }
  destruct (@write_new_file name body k (w_fs w) Hk Hnone)
    as (_ & Hk2 & Hfile & Hother).
  cbv zeta in Hk2, Hfile, Hother.
  set (fs1 := fs_add k (NFile [] 384) (w_fs w)) in *.
  set (fs2 := fs_replace k (NFile body 384) fs1) in *.
  assert (Hrun : exists wr, Env.install E (Some v) w = (Raise BadZipfile, wr)
                            /\ w_fs wr = fs2).
  { unfold Env.install, bind at 1. rewrite (@resolve_version_strict E w v Hstrict).
    unfold bind at 1, gets at 1. unfold bind at 1, stdout_write at 1.
    rewrite Hex. cbn [negb]. unfold bind at 1. unfold bind at 1, stdout_write at 1.
    unfold bind at 1.
    match goal with
    | |- context [Env._download E (Some v) ?w'] =>
        rewrite (@download_response E w' (Some v) body suffix k Hnet Hsafe Hname
                   Hk Hnone)
    end.
    cbn [w_fs w_config w_stdout w_requests w_trace]. fold name fs1 fs2.
    unfold bind at 1, Env._extract, bind at 1, gets at 1. cbn [w_config].
    unfold bind at 1, lift at 1. cbn [os_path_join_py].
    unfold bind at 1, read_fs at 1. cbn [w_fs].
    unfold open_r, fs_stat. change 40 with (S 39). cbn [fs_follow].
    rewrite Hk2, Hfile, Hzip.
    eexists. split; [reflexivity|reflexivity]. }
  destruct Hrun as (wr & -> & Hfs). cbn [fst snd]. rewrite Hfs.
  split; [reflexivity|]. split; [|split; [exact Hfile|split; [exact Hother|]]].
  - unfold os_lstat. now rewrite Hk2, Hfile.
  - intros Hsp Hdir. rewrite (@lkey_spelled _ _ Hsp Hdir) in Hk. now injection Hk.
Qed.

(** The featured archive of 1.9.57 is served as a web page. *)
Lemma install_of_a_broken_archive_witness :
  fst (Env.install
         (linux_env (serve [(Env._sdk_url (Some (py "1.9.57")),
                             Response (py "<html>not found</html>"))]))
         (Some (py "1.9.57")) (start fresh_home))
  = Raise BadZipfile.
Proof.
  apply (@install_of_a_broken_archive
           (linux_env (serve [(Env._sdk_url (Some (py "1.9.57")),
                               Response (py "<html>not found</html>"))]))
           (start fresh_home) (py "1") (py "9") (py "57")
           (py "<html>not found</html>")
           (py "/tmp/tmpQ3xZ1kgoogle_appengine_1.9.57.zip"));
    try reflexivity.
  vm_compute. tauto.
Defined.
